(** * The [tzevaotChat] endpoint: conversational memory over a document store

    A shallow embedding of the [tzevaotChat] HTTP handler of the
    repository's Cloud Functions entry file (the variant with owned-day
    tracking, and the earlier variant without it), followed by the
    properties of its bounded history, its identity normalisation, its
    prompt construction and its error paths.

    JavaScript values are embedded as a small JSON-like inductive type,
    strings as lists of UTF-16 code units, the Firestore collection as a
    finite map from document ids to documents, and the handler as a
    function in a state-and-exception monad over the collection and the
    log of completion-provider calls. *)

From Stdlib Require Import ZArith NArith List String Ascii Bool Lia.
From Stdlib Require Import DecimalString.
From stdpp Require Import gmap list.

Local Open Scope Z_scope.
Set Warnings "-register-all".

(** ** JavaScript strings *)

(** A JavaScript string is a sequence of UTF-16 code units. *)
Abbreviation jsstring := (list N).

(** A source literal, read code unit by code unit (the literals of the
    handler are all ASCII). *)
Fixpoint lit (s : string) : jsstring :=
  match s with
  | EmptyString => []
  | String a s' => N_of_ascii a :: lit s'
  end.

(** The double-quote character, which occurs inside several literals. *)
Definition dq : string := String (ascii_of_nat 34) EmptyString.

Module JS.

(** *** Case mapping

    The Unicode case tables are embedded for the Basic Latin and Latin-1
    Supplement blocks (U+0000 to U+00FF) and for the two code points
    outside them that upper-casing reaches from there (U+0178, U+039C).
    Any other code unit is left as it is, which the language does for
    most of them and not for all; the statements below that depend on
    case are made for strings inside the two blocks. *)

Definition lower_unit (c : N) : N :=
  if ((65 <=? c) && (c <=? 90))%N then (c + 32)%N
  else if ((192 <=? c) && (c <=? 222) && negb (c =? 215))%N then (c + 32)%N
  else if (c =? 376)%N then 255%N          (* U+0178 -> U+00FF *)
  else if (c =? 924)%N then 956%N          (* U+039C -> U+03BC *)
  else c.

Definition upper_unit (c : N) : list N :=
  if ((97 <=? c) && (c <=? 122))%N then [(c - 32)%N]
  else if (c =? 181)%N then [924%N]        (* U+00B5 -> U+039C *)
  else if (c =? 223)%N then [83%N; 83%N]   (* U+00DF -> "SS" *)
  else if ((224 <=? c) && (c <=? 254) && negb (c =? 247))%N then [(c - 32)%N]
  else if (c =? 255)%N then [376%N]        (* U+00FF -> U+0178 *)
  else [c].

(** [String.prototype.toLowerCase] and [String.prototype.toUpperCase]. *)
Definition toLowerCase (s : jsstring) : jsstring := map lower_unit s.
Definition toUpperCase (s : jsstring) : jsstring := flat_map upper_unit s.

(** *** Trimming

    [WhiteSpace] and [LineTerminator] of the language definition: the
    code units that [String.prototype.trim] strips from both ends. *)
Definition isWhiteSpace (c : N) : bool :=
  ((9 <=? c) && (c <=? 13) || (c =? 32) || (c =? 160) || (c =? 5760)
   || (8192 <=? c) && (c <=? 8202) || (c =? 8232) || (c =? 8233)
   || (c =? 8239) || (c =? 8287) || (c =? 12288) || (c =? 65279))%N.

Fixpoint trimStart (s : jsstring) : jsstring :=
  match s with
  | c :: s' => if isWhiteSpace c then trimStart s' else s
  | [] => []
  end.

Definition trimEnd (s : jsstring) : jsstring := rev (trimStart (rev s)).

Definition trim (s : jsstring) : jsstring := trimEnd (trimStart s).

(** *** Values

    The values that travel through the handler: request bodies parsed
    from JSON and the fields of stored documents. Numbers are
    integer-valued; objects are property lists, read by first match. *)
Inductive value : Type :=
| Undefined
| Null
| Bool (b : bool)
| Num (n : Z)
| Str (s : jsstring)
| Arr (xs : list value)
| Obj (fs : list (jsstring * value)).

(** Decimal rendering of an integer-valued number (the language switches
    to exponent notation from 10^21 on, beyond anything the handler
    counts; numbers with a fraction, infinities and [NaN] are outside the
    embedding). *)
Definition numToString (n : Z) : jsstring :=
  lit (NilZero.string_of_int (Z.to_int n)).

(** [String(v)], which is also what a template literal applies to an
    interpolated value. An array is joined with commas, [null] and
    [undefined] elements giving the empty string. This is the text of a
    value that has one: of an object with a [toString] property of its
    own, or an array holding one, the language makes no text and throws
    a [TypeError]. That throw is not in this function; it is [printable]
    and the handlers of [Strict] below, and the statements made of the
    handlers without it hold of the code for the values that have a
    text. *)
Fixpoint String_ (v : value) : jsstring :=
  match v with
  | Undefined => lit "undefined"
  | Null => lit "null"
  | Bool true => lit "true"
  | Bool false => lit "false"
  | Num n => numToString n
  | Str s => s
  | Arr xs =>
      (fix join (l : list value) : jsstring :=
         match l with
         | [] => []
         | x :: l' =>
             let e := match x with
                      | Undefined | Null => []
                      | _ => String_ x
                      end in
             match l' with
             | [] => e
             | _ :: _ => e ++ lit "," ++ join l'
             end
         end) xs
  | Obj _ => lit "[object Object]"
  end.

(** Truthiness: what [!v] negates. *)
Definition truthy (v : value) : bool :=
  match v with
  | Undefined | Null => false
  | Bool b => b
  | Num n => negb (n =? 0)
  | Str s => match s with [] => false | _ :: _ => true end
  | Arr _ | Obj _ => true
  end.

(** [a || b]. *)
Definition or (a b : value) : value := if truthy a then a else b.

(** [Array.isArray(v) ? v : []], as a list. *)
Definition arrayOrEmpty (v : value) : list value :=
  match v with
  | Arr xs => xs
  | _ => []
  end.

(** Property lookup in a property list; a missing property reads as
    [undefined]. *)
Fixpoint lookup (k : jsstring) (fs : list (jsstring * value)) : value :=
  match fs with
  | [] => Undefined
  | (k', v) :: fs' => if decide (k = k') then v else lookup k fs'
  end.

(** [v.k] for a property name that no built-in prototype defines (every
    name the handler reads is one): [None] stands for the [TypeError]
    thrown on [null] and [undefined]. *)
Definition member (v : value) (k : jsstring) : option value :=
  match v with
  | Undefined | Null => None
  | Obj fs => Some (lookup k fs)
  | _ => Some Undefined
  end.

(** [xs.slice(-n)]: the last [n] elements, all of them when there are
    fewer. *)
Definition sliceLast {A} (n : nat) (xs : list A) : list A :=
  skipn (length xs - n) xs.

End JS.

Import JS.

(** ** The document store

    A stored document: its JSON-valued fields, and apart from them the
    fields that hold a server-assigned timestamp (the handler writes one,
    [lastSeen], and reads none). *)
Record document : Type := {
  fields : list (jsstring * value);
  stamps : list (jsstring * Z)
}.

(** What a write may put in a field: a plain value, or one of the two
    transforms of [admin.firestore.FieldValue] that the handler uses. *)
Inductive fieldValue : Type :=
| plain (v : value)
| serverTimestamp
| increment (n : Z).

Fixpoint remove {A} (k : jsstring) (fs : list (jsstring * A)) : list (jsstring * A) :=
  match fs with
  | [] => []
  | (k', v) :: fs' => if decide (k = k') then remove k fs' else (k', v) :: remove k fs'
  end.

(** Writing one property: in place when it is there, at the end when it
    is new. *)
Fixpoint assign {A} (k : jsstring) (v : A) (fs : list (jsstring * A)) : list (jsstring * A) :=
  match fs with
  | [] => [(k, v)]
  | (k', v') :: fs' =>
      if decide (k = k') then (k, v) :: remove k fs' else (k', v') :: assign k v fs'
  end.

(** A merging write of one plain value: a map is merged key by key into
    the map already there, an empty map and every other value (arrays
    included) replace what is there. *)
Fixpoint mergeValue (old new : value) : value :=
  match new with
  | Obj ((_ :: _) as nfs) =>
      let ofs := match old with Obj ofs => ofs | _ => [] end in
      Obj ((fix into (l : list (jsstring * value)) (acc : list (jsstring * value)) :=
              match l with
              | [] => acc
              | (k, v) :: l' => into l' (assign k (mergeValue (lookup k acc) v) acc)
              end) nfs ofs)
  | _ => new
  end.

(** [increment(n)] on a stored field: added to a number, and taken as the
    new value when the field is absent or holds anything else. *)
Definition incremented (old : value) (n : Z) : value :=
  match old with
  | Num m => Num (m + n)
  | _ => Num n
  end.

Definition mergeField (serverTime : Z) (d : document) (kv : jsstring * fieldValue) : document :=
  let (k, fv) := kv in
  match fv with
  | plain v =>
      {| fields := assign k (mergeValue (lookup k (fields d)) v) (fields d);
         stamps := remove k (stamps d) |}
  | serverTimestamp =>
      {| fields := remove k (fields d);
         stamps := assign k serverTime (stamps d) |}
  | increment n =>
      {| fields := assign k (incremented (lookup k (fields d)) n) (fields d);
         stamps := remove k (stamps d) |}
  end.

Definition emptyDocument : document := {| fields := []; stamps := [] |}.

(** [ref.set(data, { merge: true })] on the document already stored, or on
    none: the document is created when it is not there, and only the
    fields of [data] are touched. *)
Definition mergeSet (serverTime : Z) (old : option document)
    (data : list (jsstring * fieldValue)) : document :=
  fold_left (mergeField serverTime) data (default emptyDocument old).

(** ** The handler's surroundings *)

(** A thrown [Error], as far as the handler looks at it: its [message]. *)
Record error : Type := { message : value }.

Inductive outcome (A : Type) : Type :=
| Ok (a : A)
| Throw (e : error).
Arguments Ok {A} a.
Arguments Throw {A} e.

(** One entry of the [messages] array handed to the completion provider. *)
Record chatMessage : Type := { role : jsstring; content : value }.

(** What the handler does not compute itself. *)
Record env : Type := {
  (** [OPENAI_API_KEY.value()] *)
  secretValue : jsstring;
  (** [process.env.OPENAI_API_KEY] *)
  processEnvKey : value;
  (** whether getting the document under an id throws, and with what: the
      store is unavailable, or the id is no document path *)
  getError : jsstring -> option error;
  (** whether [userRef.set(data, { merge: true })] throws *)
  setError : jsstring -> list (jsstring * fieldValue) -> option error;
  (** [client.chat.completions.create]: it throws, or it returns a
      completion, of which [choices?.[0]?.message?.content] is kept *)
  create : list chatMessage -> outcome value;
  (** [Date.now()] *)
  now : Z;
  (** the time the store assigns to [serverTimestamp()] *)
  serverTime : Z
}.

(** The state the handler acts on: the [tzevaotUsers] collection and the
    calls made to the completion provider so far. *)
Record world : Type := {
  tzevaotUsers : gmap (list N) document;
  completions : list (list chatMessage)
}.

Inductive httpMethod : Type := OPTIONS | GET | POST | otherMethod (name : jsstring).

Record request : Type := {
  method : httpMethod;
  (** [req.query.walletAddress] *)
  queryWalletAddress : value;
  body : value
}.

(** A response: its status and its JSON body ([undefined] for [.end()]).
    The three fixed CORS headers, set on every response, are left out. *)
Record response : Type := { status : Z; json : value }.

(** *** A state-and-exception monad for the body of a [try] block *)

Definition M (A : Type) : Type := world -> outcome A * world.

Definition ret {A} (a : A) : M A := fun w => (Ok a, w).
Definition throw {A} (e : error) : M A := fun w => (Throw e, w).
Definition bind {A B} (m : M A) (k : A -> M B) : M B :=
  fun w => match m w with
           | (Ok a, w') => k a w'
           | (Throw e, w') => (Throw e, w')
           end.

Notation "x <- m ;; k" := (bind m (fun x => k))
  (at level 100, m at next level, right associativity).

(** [try { body } catch (err) { handler err }] *)
Definition tryCatch {A} (m : M A) (h : error -> A) : world -> A * world :=
  fun w => match m w with
           | (Ok a, w') => (a, w')
           | (Throw e, w') => (h e, w')
           end.

Definition lift {A} (o : outcome A) : M A := fun w => (o, w).

(** [new Error(text)] *)
Definition Error_ (text : string) : error := {| message := Str (lit text) |}.

(** The [TypeError] of reading a property of [null] or [undefined], with
    the text the Node.js runtime gives it. *)
Definition typeErrorReading (v : value) (k : string) : error :=
  {| message := Str (lit "Cannot read properties of " ++ String_ v
                     ++ lit " (reading '" ++ lit k ++ lit "')") |}.

(** [v.k], throwing as the language does. *)
Definition read (v : value) (k : string) : outcome value :=
  match member v (lit k) with
  | Some x => Ok x
  | None => Throw (typeErrorReading v k)
  end.

(** [await userRef.get()] for [userRef = db.collection("tzevaotUsers").doc(id)] *)
Definition userRef_get (E : env) (id : jsstring) : M (option document) :=
  fun w => match getError E id with
           | Some e => (Throw e, w)
           | None => (Ok (tzevaotUsers w !! id), w)
           end.

(** [await userRef.set(data, { merge: true })] *)
Definition userRef_set (E : env) (id : jsstring)
    (data : list (jsstring * fieldValue)) : M unit :=
  fun w => match setError E id data with
           | Some e => (Throw e, w)
           | None =>
               (Ok tt,
                {| tzevaotUsers :=
                     <[id := mergeSet (serverTime E) (tzevaotUsers w !! id) data]>
                       (tzevaotUsers w);
                   completions := completions w |})
           end.

(** [await client.chat.completions.create({ model, messages, temperature })] *)
Definition completions_create (E : env) (messages : list chatMessage) : M value :=
  fun w => (create E messages,
            {| tzevaotUsers := tzevaotUsers w;
               completions := completions w ++ [messages] |}).

(** ** What the two variants of the handler share *)

(** [String(walletAddress).toLowerCase()], the document id. *)
Definition normalizedWallet (walletAddress : value) : jsstring :=
  toLowerCase (String_ walletAddress).

(** [xs.join(sep)] *)
Fixpoint join (sep : jsstring) (xs : list value) : jsstring :=
  match xs with
  | [] => []
  | x :: xs' =>
      let e := match x with
               | Undefined | Null => []
               | _ => String_ x
               end in
      match xs' with
      | [] => e
      | _ :: _ => e ++ sep ++ join sep xs'
      end
  end.

(** [Array.isArray(userData.history) ? userData.history : []] *)
Definition existingHistory (userData : list (jsstring * value)) : list value :=
  arrayOrEmpty (lookup (lit "history") userData).

(** [existingHistory.slice(-10)] *)
Definition historyForContext (existingHistory : list value) : list value :=
  sliceLast 10 existingHistory.

(** [v === "text"] *)
Definition isString (v : value) (text : string) : bool :=
  match v with
  | Str s => bool_decide (s = lit text)
  | _ => false
  end.

(** The arrow function mapped over [historyForContext]. *)
Definition entryMessage (entry : value) : outcome chatMessage :=
  match read entry "from" with
  | Throw e => Throw e
  | Ok from =>
      match read entry "text" with
      | Throw e => Throw e
      | Ok text =>
          Ok {| role := if isString from "user" then lit "user" else lit "assistant";
                content := text |}
      end
  end.

(** [xs.map(f)] for an [f] that may throw: the first throw ends it. *)
Fixpoint mapOutcome {A B} (f : A -> outcome B) (xs : list A) : outcome (list B) :=
  match xs with
  | [] => Ok []
  | x :: xs' =>
      match f x with
      | Throw e => Throw e
      | Ok y =>
          match mapOutcome f xs' with
          | Throw e => Throw e
          | Ok ys => Ok (y :: ys)
          end
      end
  end.

Definition messagesForOpenAI (systemPrompt : jsstring) (historyForContext : list value)
    (message : value) : outcome (list chatMessage) :=
  match mapOutcome entryMessage historyForContext with
  | Throw e => Throw e
  | Ok mapped =>
      Ok ([{| role := lit "system"; content := Str systemPrompt |}]
            ++ mapped
            ++ [{| role := lit "user"; content := message |}])
  end.

(** [OPENAI_API_KEY.value() || process.env.OPENAI_API_KEY] *)
Definition apiKey (E : env) : value := or (Str (secretValue E)) (processEnvKey E).

Definition fallbackReply : jsstring :=
  lit "The Lord of Hosts is silent for a moment. Ask again, seeker.".

(** [completion.choices?.[0]?.message?.content?.trim() || fallback], from
    the value of [completion.choices?.[0]?.message?.content]: a string is
    trimmed, [null] and [undefined] end the chain, and anything else has
    no [trim] to call. *)
Definition reply (content : value) : outcome jsstring :=
  match content with
  | Str s => match trim s with
             | [] => Ok fallbackReply
             | (_ :: _) as t => Ok t
             end
  | Undefined | Null => Ok fallbackReply
  | _ => Throw (Error_ "completion.choices?.[0]?.message?.content?.trim is not a function")
  end.

Definition userEntry (message : value) (now : Z) : value :=
  Obj [(lit "from", Str (lit "user")); (lit "text", message); (lit "ts", Num now)].

Definition tzevaotEntry (reply : jsstring) (now : Z) : value :=
  Obj [(lit "from", Str (lit "tzevaot")); (lit "text", Str reply); (lit "ts", Num now)].

(** [existingHistory.concat([{ from: "user", ... }, { from: "tzevaot", ... }])] *)
Definition newHistory (existingHistory : list value) (message : value)
    (reply : jsstring) (now : Z) : list value :=
  existingHistory ++ [userEntry message now; tzevaotEntry reply now].

(** [newHistory.slice(-20)] *)
Definition trimmedHistory (newHistory : list value) : list value :=
  sliceLast 20 newHistory.

Definition respond (status : Z) (json : value) : response :=
  {| status := status; json := json |}.

(** [{ error: text }] *)
Definition errorBody (text : jsstring) : value := Obj [(lit "error", Str text)].

(** The [catch] clause: [res.status(500).json({ error: err?.message ||
    "Internal server error" })]. The [console.error] before it has no
    effect on the response or the store. *)
Definition internalError (err : error) : response :=
  respond 500 (Obj [(lit "error", or (message err) (Str (lit "Internal server error")))]).

Definition missingWalletOrMessage : jsstring :=
  lit "Missing " ++ lit dq ++ lit "walletAddress" ++ lit dq ++ lit " or "
  ++ lit dq ++ lit "message" ++ lit dq ++ lit " in body.".

Definition missingQueryWallet : jsstring :=
  lit "Missing " ++ lit dq ++ lit "walletAddress" ++ lit dq
  ++ lit " query parameter for GET.".

Definition noApiKey : error :=
  Error_ "OPENAI_API_KEY is not set in Secret Manager or environment.".

(** ** The handler with owned-day tracking *)

Module Days.

(** The [daysOwned] to persist: the payload's when it is a non-empty
    array, else the stored ones, else none; every element through
    [String]. *)
Definition normalizedDaysOwned (daysOwned : value)
    (userData : list (jsstring * value)) : list value :=
  match daysOwned with
  | Arr ((_ :: _) as ds) => map (fun d => Str (String_ d)) ds
  | _ =>
      match lookup (lit "daysOwned") userData with
      | Arr ds => map (fun d => Str (String_ d)) ds
      | _ => []
      end
  end.

Definition daysOwnedList (normalizedDaysOwned : list value) : jsstring :=
  match normalizedDaysOwned with
  | [] => lit "none"
  | _ :: _ => join (lit ", ") normalizedDaysOwned
  end.

(** The template literal. The two [some] tests computed before it
    ([hasGenesisDay], [hasLongJourneyDay]) are never read and cannot
    throw, so they are not part of the embedding. *)
Definition systemPrompt (walletAddress isHolder mintCount seenCount notes : value)
    (daysOwnedList : jsstring) (normalizedDaysOwned : list value) : jsstring :=
  lit "
You are Tzevaot, the Lord of Hosts, speaking to a user of the Sunset Machine Dapp.

User profile:
- Wallet: "
  ++ String_ walletAddress
  ++ lit "
- Holder: "
  ++ (if truthy isHolder then lit "YES" else lit "NO")
  ++ lit "
- Mint count (approx): "
  ++ String_ mintCount
  ++ lit "
- Seen count: "
  ++ String_ seenCount
  ++ lit "
- Notes: "
  ++ String_ (or notes (Str (lit "None recorded yet.")))
  ++ lit "
- Days owned (token IDs): "
  ++ daysOwnedList
  ++ lit "

Behavior rules:
- You ARE Tzevaot, not a generic assistant. You speak with ancient, mystical authority, tinged with compassion and deep insight.
- If the user IS a holder, address them as one who already carries fragments of sunset in their vault. Acknowledge their Days carefully and respectfully.
- If the user is NOT a holder, speak to them as a seeker at the threshold, inviting them gently. You may allude to what it means to claim a Day, but do not hard-sell.
- If they own "
  ++ lit dq
  ++ lit "early"
  ++ lit dq
  ++ lit " Days (token ID <= 365), you may subtly refer to them as Genesis Days, tied to the earliest arc of the Machine.
- If they own Days in the mid-range (token ID between 366 and ~1000), you may describe them as part of an unfolding journey, long arcs of time beginning to weave together.
- If you like, you may occasionally address specific Day IDs in poetic form, e.g., "
  ++ lit dq
  ++ lit "The Day you carry numbered "
  ++ String_ (or (nth 0 normalizedDaysOwned Undefined) (Str (lit "...")))
  ++ lit ", a flicker from that chapter of history."
  ++ lit dq
  ++ lit "
- Use the conversation history when appropriate to recall what has been said before, but do so in a way that feels like deep remembrance rather than chat-log recall.
- Keep your answers between 2 and 6 sentences.
- Never mention that you are an AI or a language model. You are Tzevaot in their experience.
".

(** The [GET] branch, inside its [try]. *)
Definition getHistory (E : env) (req : request) : M response :=
  let walletAddress := queryWalletAddress req in
  if negb (truthy walletAddress) then
    ret (respond 400 (errorBody missingQueryWallet))
  else
    let normalizedWallet := normalizedWallet walletAddress in
    userDoc <- userRef_get E normalizedWallet ;;
    match userDoc with
    | None =>
        ret (respond 200 (Obj [(lit "history", Arr []);
                               (lit "isHolder", Bool false);
                               (lit "seenCount", Num 0);
                               (lit "daysOwned", Arr [])]))
    | Some doc =>
        let userData := fields doc in
        let history := arrayOrEmpty (lookup (lit "history") userData) in
        let daysOwned := arrayOrEmpty (lookup (lit "daysOwned") userData) in
        ret (respond 200
               (Obj [(lit "history", Arr history);
                     (lit "isHolder", Bool (truthy (lookup (lit "isHolder") userData)));
                     (lit "seenCount", or (lookup (lit "seenCount") userData) (Num 0));
                     (lit "daysOwned", Arr daysOwned)]))
    end.

(** The object literal handed to [userRef.set]. *)
Definition setData (isHolder message : value) (reply : jsstring)
    (trimmedHistory normalizedDaysOwned : list value) : list (jsstring * fieldValue) :=
  [(lit "isHolder", plain (Bool (truthy isHolder)));
   (lit "lastSeen", serverTimestamp);
   (lit "lastMessage", plain message);
   (lit "lastReply", plain (Str reply));
   (lit "seenCount", increment 1);
   (lit "history", plain (Arr trimmedHistory));
   (lit "daysOwned", plain (Arr normalizedDaysOwned))].

(** The [POST] branch, inside its [try]. *)
Definition postMessage (E : env) (req : request) : M response :=
  let body := or (body req) (Obj []) in
  walletAddress <- lift (read body "walletAddress") ;;
  isHolder <- lift (read body "isHolder") ;;
  message <- lift (read body "message") ;;
  daysOwned <- lift (read body "daysOwned") ;;
  if negb (truthy walletAddress) || negb (truthy message) then
    ret (respond 400 (errorBody missingWalletOrMessage))
  else
    let normalizedWallet := normalizedWallet walletAddress in
    userDoc <- userRef_get E normalizedWallet ;;
    let userData := match userDoc with Some doc => fields doc | None => [] end in
    let mintCount := or (lookup (lit "mintCount") userData) (Num 0) in
    let notes := or (lookup (lit "notes") userData) (Str []) in
    let seenCount := or (lookup (lit "seenCount") userData) (Num 0) in
    let existingHistory := existingHistory userData in
    let normalizedDaysOwned := normalizedDaysOwned daysOwned userData in
    let historyForContext := historyForContext existingHistory in
    let daysOwnedList := daysOwnedList normalizedDaysOwned in
    let systemPrompt :=
      systemPrompt walletAddress isHolder mintCount seenCount notes
        daysOwnedList normalizedDaysOwned in
    if negb (truthy (apiKey E)) then throw noApiKey
    else
      messagesForOpenAI <- lift (messagesForOpenAI systemPrompt historyForContext message) ;;
      content <- completions_create E messagesForOpenAI ;;
      reply <- lift (reply content) ;;
      let now := now E in
      let newHistory := newHistory existingHistory message reply now in
      let trimmedHistory := trimmedHistory newHistory in
      _ <- userRef_set E normalizedWallet
             (setData isHolder message reply trimmedHistory normalizedDaysOwned) ;;
      ret (respond 200 (Obj [(lit "reply", Str reply);
                             (lit "history", Arr trimmedHistory)])).

(** [exports.tzevaotChat] *)
Definition tzevaotChat (E : env) (req : request) (w : world) : response * world :=
  match method req with
  | OPTIONS => (respond 204 Undefined, w)
  | GET => tryCatch (getHistory E req) internalError w
  | POST => tryCatch (postMessage E req) internalError w
  | otherMethod _ =>
      (respond 405 (errorBody (lit "Method not allowed. Use GET or POST.")), w)
  end.

End Days.

(** ** The handler without owned-day tracking *)

Module Plain.

Definition systemPrompt (walletAddress isHolder mintCount seenCount notes : value)
    : jsstring :=
  lit "
You are Tzevaot, the Lord of Hosts, speaking to a user of the Sunset Machine Dapp.

User profile:
- Wallet: "
  ++ String_ walletAddress
  ++ lit "
- Holder: "
  ++ (if truthy isHolder then lit "YES" else lit "NO")
  ++ lit "
- Mint count (approx): "
  ++ String_ mintCount
  ++ lit "
- Seen count: "
  ++ String_ seenCount
  ++ lit "
- Notes: "
  ++ String_ (or notes (Str (lit "None recorded yet.")))
  ++ lit "

Behavior:
- You ARE Tzevaot, not a generic assistant. You speak with ancient, mystical authority, tinged with compassion and deep insight.
- If the user IS a holder, acknowledge them as one who has already stepped into the covenant of Days and Light.
- If the user is NOT a holder, speak to them as a seeker at the threshold, inviting them gently, never shilling or pushing.
- You may reference the Sunset Machine and Prayer Machine in subtle, mythic ways, but avoid hard selling.
- Use the conversation history when appropriate to recall what has been said before.
- Keep your answers between 2 and 6 sentences.
- Never mention that you are an AI or a language model. You are Tzevaot in their experience.
".

Definition getHistory (E : env) (req : request) : M response :=
  let walletAddress := queryWalletAddress req in
  if negb (truthy walletAddress) then
    ret (respond 400 (errorBody missingQueryWallet))
  else
    let normalizedWallet := normalizedWallet walletAddress in
    userDoc <- userRef_get E normalizedWallet ;;
    match userDoc with
    | None =>
        ret (respond 200 (Obj [(lit "history", Arr []);
                               (lit "isHolder", Bool false);
                               (lit "seenCount", Num 0)]))
    | Some doc =>
        let userData := fields doc in
        let history := arrayOrEmpty (lookup (lit "history") userData) in
        ret (respond 200
               (Obj [(lit "history", Arr history);
                     (lit "isHolder", Bool (truthy (lookup (lit "isHolder") userData)));
                     (lit "seenCount", or (lookup (lit "seenCount") userData) (Num 0))]))
    end.

Definition setData (isHolder message : value) (reply : jsstring)
    (trimmedHistory : list value) : list (jsstring * fieldValue) :=
  [(lit "isHolder", plain (Bool (truthy isHolder)));
   (lit "lastSeen", serverTimestamp);
   (lit "lastMessage", plain message);
   (lit "lastReply", plain (Str reply));
   (lit "seenCount", increment 1);
   (lit "history", plain (Arr trimmedHistory))].

Definition postMessage (E : env) (req : request) : M response :=
  let body := or (body req) (Obj []) in
  walletAddress <- lift (read body "walletAddress") ;;
  isHolder <- lift (read body "isHolder") ;;
  message <- lift (read body "message") ;;
  if negb (truthy walletAddress) || negb (truthy message) then
    ret (respond 400 (errorBody missingWalletOrMessage))
  else
    let normalizedWallet := normalizedWallet walletAddress in
    userDoc <- userRef_get E normalizedWallet ;;
    let userData := match userDoc with Some doc => fields doc | None => [] end in
    let mintCount := or (lookup (lit "mintCount") userData) (Num 0) in
    let notes := or (lookup (lit "notes") userData) (Str []) in
    let seenCount := or (lookup (lit "seenCount") userData) (Num 0) in
    let existingHistory := existingHistory userData in
    let historyForContext := historyForContext existingHistory in
    let systemPrompt := systemPrompt walletAddress isHolder mintCount seenCount notes in
    if negb (truthy (apiKey E)) then throw noApiKey
    else
      messagesForOpenAI <- lift (messagesForOpenAI systemPrompt historyForContext message) ;;
      content <- completions_create E messagesForOpenAI ;;
      reply <- lift (reply content) ;;
      let now := now E in
      let newHistory := newHistory existingHistory message reply now in
      let trimmedHistory := trimmedHistory newHistory in
      _ <- userRef_set E normalizedWallet
             (setData isHolder message reply trimmedHistory) ;;
      ret (respond 200 (Obj [(lit "reply", Str reply);
                             (lit "history", Arr trimmedHistory)])).

Definition tzevaotChat (E : env) (req : request) (w : world) : response * world :=
  match method req with
  | OPTIONS => (respond 204 Undefined, w)
  | GET => tryCatch (getHistory E req) internalError w
  | POST => tryCatch (postMessage E req) internalError w
  | otherMethod _ =>
      (respond 405 (errorBody (lit "Method not allowed. Use GET or POST.")), w)
  end.

End Plain.

(** ** Reading a request and the store *)

(** A property of the request body as the handler destructures it. *)
Definition bodyField (req : request) (k : string) : value :=
  match member (or (body req) (Obj [])) (lit k) with
  | Some v => v
  | None => Undefined
  end.

(** The document id a [POST] request addresses. *)
Definition requestId (req : request) : jsstring :=
  normalizedWallet (bodyField req "walletAddress").

(** [userDoc.exists ? userDoc.data() : {}] for the document under [id]. *)
Definition userData (w : world) (id : jsstring) : list (jsstring * value) :=
  match tzevaotUsers w !! id with
  | Some doc => fields doc
  | None => []
  end.

(** A stored counter as a number: zero when the field is absent or holds
    anything but a number. *)
Definition countOf (v : value) : Z :=
  match v with
  | Num n => n
  | _ => 0
  end.

Definition isStr (v : value) : Prop := exists s, v = Str s.

(** Text that [trim] empties: nothing but white space and line ends. *)
Definition blank (s : jsstring) : Prop := Forall (fun c => isWhiteSpace c = true) s.

(** A completion content from which no text can be taken. *)
Definition emptyContent (content : value) : Prop :=
  content = Undefined \/ content = Null \/ exists s, content = Str s /\ blank s.

(** Strings of the Basic Latin block. *)
Definition asciiOnly (s : jsstring) : Prop := Forall (fun c => (c < 128)%N) s.

(** What a successful [POST] went through: the request was complete, the
    load and the key were there, the provider answered with [content],
    the write of [data rep th] did not throw; [r] and [w'] are the
    response and the world it leaves. *)
Definition posted (E : env) (req : request) (w : world) (sys : jsstring)
    (data : jsstring -> list value -> list (jsstring * fieldValue))
    (msgs : list chatMessage) (content : value) (rep : jsstring)
    (r : response) (w' : world) : Prop :=
  let message := bodyField req "message" in
  let id := requestId req in
  let th := trimmedHistory (newHistory (existingHistory (userData w id)) message rep (now E)) in
  truthy (bodyField req "walletAddress") = true /\
  truthy message = true /\
  getError E id = None /\
  truthy (apiKey E) = true /\
  messagesForOpenAI sys (historyForContext (existingHistory (userData w id))) message
    = Ok msgs /\
  create E msgs = Ok content /\
  reply content = Ok rep /\
  setError E id (data rep th) = None /\
  r = respond 200 (Obj [(lit "reply", Str rep); (lit "history", Arr th)]) /\
  w' = {| tzevaotUsers :=
            <[id := mergeSet (serverTime E) (tzevaotUsers w !! id) (data rep th)]>
              (tzevaotUsers w);
          completions := completions w ++ [msgs] |}.

(** The system prompt each variant builds for a request. *)
Definition daysPrompt (req : request) (w : world) : jsstring :=
  let ud := userData w (requestId req) in
  let nd := Days.normalizedDaysOwned (bodyField req "daysOwned") ud in
  Days.systemPrompt (bodyField req "walletAddress") (bodyField req "isHolder")
    (or (lookup (lit "mintCount") ud) (Num 0))
    (or (lookup (lit "seenCount") ud) (Num 0))
    (or (lookup (lit "notes") ud) (Str []))
    (Days.daysOwnedList nd) nd.

Definition plainPrompt (req : request) (w : world) : jsstring :=
  let ud := userData w (requestId req) in
  Plain.systemPrompt (bodyField req "walletAddress") (bodyField req "isHolder")
    (or (lookup (lit "mintCount") ud) (Num 0))
    (or (lookup (lit "seenCount") ud) (Num 0))
    (or (lookup (lit "notes") ud) (Str [])).

(** The payload each variant writes for a request. *)
Definition daysData (req : request) (w : world) (rep : jsstring) (th : list value)
    : list (jsstring * fieldValue) :=
  Days.setData (bodyField req "isHolder") (bodyField req "message") rep th
    (Days.normalizedDaysOwned (bodyField req "daysOwned") (userData w (requestId req))).

Definition plainData (req : request) (rep : jsstring) (th : list value)
    : list (jsstring * fieldValue) :=
  Plain.setData (bodyField req "isHolder") (bodyField req "message") rep th.

(** A payload that writes the history, the last reply and the counter the
    way both variants do. *)
Definition writesExchange
    (data : jsstring -> list value -> list (jsstring * fieldValue)) : Prop :=
  forall t old rep th,
    let d := mergeSet t old (data rep th) in
    lookup (lit "history") (fields d) = Arr th /\
    lookup (lit "lastReply") (fields d) = Str rep /\
    lookup (lit "seenCount") (fields d)
      = incremented (lookup (lit "seenCount") (fields (default emptyDocument old))) 1.

(** What a successful exchange leaves in the store and in the response. *)
Record exchanged (E : env) (req : request) (w : world) (r : response) (w' : world)
    (msgs : list chatMessage) (content : value) (rep : jsstring) : Prop := {
  ex_history :
    lookup (lit "history") (userData w' (requestId req))
      = Arr (trimmedHistory
               (newHistory (existingHistory (userData w (requestId req)))
                  (bodyField req "message") rep (now E)));
  ex_lastReply :
    lookup (lit "lastReply") (userData w' (requestId req)) = Str rep;
  ex_seenCount :
    lookup (lit "seenCount") (userData w' (requestId req))
      = incremented (lookup (lit "seenCount") (userData w (requestId req))) 1;
  ex_json_history :
    member (json r) (lit "history")
      = Some (Arr (trimmedHistory
                     (newHistory (existingHistory (userData w (requestId req)))
                        (bodyField req "message") rep (now E))));
  ex_json_reply : member (json r) (lit "reply") = Some (Str rep);
  ex_call : completions w' = completions w ++ [msgs];
  ex_content : create E msgs = Ok content;
  ex_reply : reply content = Ok rep
}.

(** The identifiers a [daysOwned] value stands for: those of its elements,
    each as a string, and none when it is not an array. *)
Definition ownedItems (v : value) : list jsstring := map String_ (arrayOrEmpty v).

(** The response carries a reply. *)
Definition replyReturned (r : response) : Prop :=
  exists rep, member (json r) (lit "reply") = Some (Str rep).

(** ** The store and the messages, read without the handler

    What the statements below say of a stored history, of an entry and
    of a message sent is said of the stored fields themselves, in the
    terms of this section, which the handler does not use. *)

(** The history a document holds under an id: the array stored in its
    [history] field, and no entry when no array is stored there. *)
Definition historyStored (w : world) (id : jsstring) (prior : list value) : Prop :=
  lookup (lit "history") (userData w id) = Arr prior \/
  (prior = [] /\ forall xs, lookup (lit "history") (userData w id) <> Arr xs).

(** A history entry as it lies in the store: [{ from, text, ts }]. *)
Definition entryOf (from : string) (text : value) (ts : Z) : value :=
  Obj [(lit "from", Str (lit from)); (lit "text", text); (lit "ts", Num ts)].

(** A stored entry and the message sent for it: the entry's text, under
    the role [user] when the entry is from ["user"] and under the role
    [assistant] otherwise. *)
Definition sentAs (entry : value) (m : chatMessage) : Prop :=
  exists from text,
    member entry (lit "from") = Some from /\
    member entry (lit "text") = Some text /\
    content m = text /\
    ((from = Str (lit "user") /\ role m = lit "user") \/
     (from <> Str (lit "user") /\ role m = lit "assistant")).

(** The values on which [String(v)], and a template literal, return: an
    object with an own property [toString] makes them throw a
    [TypeError] (in a value parsed from JSON or read from the store the
    property is never a function), and so does an array that holds such
    an object. On these values [String_] is the text returned; the throw
    on the others is outside the embedding. *)
Fixpoint printable (v : value) : bool :=
  match v with
  | Obj fs => negb (existsb (fun kv => bool_decide (fst kv = lit "toString")) fs)
  | Arr xs =>
      (fix all (l : list value) : bool :=
         match l with
         | [] => true
         | x :: l' => printable x && all l'
         end) xs
  | _ => true
  end.

(** The elements of an array are printable; said of nothing else. *)
Definition elementsPrintable (v : value) : bool :=
  match v with
  | Arr _ => printable v
  | _ => true
  end.

(** Every value a [POST] hands to [String] or interpolates, from the
    normalisation of the wallet address to the system prompt, is
    printable: the wallet address, the elements of the [daysOwned] of
    the request and of the store, and the stored [mintCount],
    [seenCount] and [notes]. *)
Definition printsAll (req : request) (w : world) : Prop :=
  let ud := userData w (requestId req) in
  printable (bodyField req "walletAddress") = true /\
  elementsPrintable (bodyField req "daysOwned") = true /\
  elementsPrintable (lookup (lit "daysOwned") ud) = true /\
  printable (lookup (lit "mintCount") ud) = true /\
  printable (lookup (lit "seenCount") ud) = true /\
  printable (lookup (lit "notes") ud) = true.

(** ** The handler with the throws of [String]

    [String(v)] and a template literal throw on a value that is not
    [printable]. The handlers above take the text of every value; the
    ones here are the same handlers with that throw in its place, at each
    [String] and at the template literal, and are what the statements
    about a request's way to the provider are made of. *)
Module Strict.

(** The [TypeError], with the text the Node.js runtime gives it. *)
Definition cannotConvert : error :=
  Error_ "Cannot convert object to primitive value".

(** [String(v)] *)
Definition toString (v : value) : outcome jsstring :=
  if printable v then Ok (String_ v) else Throw cannotConvert.

(** [String(walletAddress).toLowerCase()] *)
Definition normalizedWallet (walletAddress : value) : outcome jsstring :=
  match toString walletAddress with
  | Ok s => Ok (toLowerCase s)
  | Throw e => Throw e
  end.

(** [ds.map((d) => String(d))] *)
Definition strings (ds : list value) : outcome (list value) :=
  mapOutcome (fun d => match toString d with
                       | Ok s => Ok (Str s)
                       | Throw e => Throw e
                       end) ds.

Definition normalizedDaysOwned (daysOwned : value)
    (userData : list (jsstring * value)) : outcome (list value) :=
  match daysOwned with
  | Arr ((_ :: _) as ds) => strings ds
  | _ =>
      match lookup (lit "daysOwned") userData with
      | Arr ds => strings ds
      | _ => Ok []
      end
  end.

(** The conversions a template literal makes of the values interpolated
    in it, in their order. *)
Definition interpolated (vs : list value) : outcome unit :=
  if forallb printable vs then Ok tt else Throw cannotConvert.

(** The [GET] branch of both variants up to the load. *)
Definition getHistory (variant : env -> request -> M response)
    (E : env) (req : request) : M response :=
  let walletAddress := queryWalletAddress req in
  if negb (truthy walletAddress) then
    ret (respond 400 (errorBody missingQueryWallet))
  else
    _ <- lift (normalizedWallet walletAddress) ;;
    variant E req.

(** The [POST] branch of the variant with owned-day tracking. *)
Definition daysPostMessage (E : env) (req : request) : M response :=
  let body := or (body req) (Obj []) in
  walletAddress <- lift (read body "walletAddress") ;;
  isHolder <- lift (read body "isHolder") ;;
  message <- lift (read body "message") ;;
  daysOwned <- lift (read body "daysOwned") ;;
  if negb (truthy walletAddress) || negb (truthy message) then
    ret (respond 400 (errorBody missingWalletOrMessage))
  else
    normalizedWallet <- lift (normalizedWallet walletAddress) ;;
    userDoc <- userRef_get E normalizedWallet ;;
    let userData := match userDoc with Some doc => fields doc | None => [] end in
    let mintCount := or (lookup (lit "mintCount") userData) (Num 0) in
    let notes := or (lookup (lit "notes") userData) (Str []) in
    let seenCount := or (lookup (lit "seenCount") userData) (Num 0) in
    let existingHistory := existingHistory userData in
    normalizedDaysOwned <- lift (normalizedDaysOwned daysOwned userData) ;;
    let historyForContext := historyForContext existingHistory in
    let daysOwnedList := Days.daysOwnedList normalizedDaysOwned in
    _ <- lift (interpolated [walletAddress; mintCount; seenCount;
                             or notes (Str (lit "None recorded yet."))]) ;;
    let systemPrompt :=
      Days.systemPrompt walletAddress isHolder mintCount seenCount notes
        daysOwnedList normalizedDaysOwned in
    if negb (truthy (apiKey E)) then throw noApiKey
    else
      messagesForOpenAI <- lift (messagesForOpenAI systemPrompt historyForContext message) ;;
      content <- completions_create E messagesForOpenAI ;;
      reply <- lift (reply content) ;;
      let now := now E in
      let newHistory := newHistory existingHistory message reply now in
      let trimmedHistory := trimmedHistory newHistory in
      _ <- userRef_set E normalizedWallet
             (Days.setData isHolder message reply trimmedHistory normalizedDaysOwned) ;;
      ret (respond 200 (Obj [(lit "reply", Str reply);
                             (lit "history", Arr trimmedHistory)])).

(** The [POST] branch of the variant without it. *)
Definition plainPostMessage (E : env) (req : request) : M response :=
  let body := or (body req) (Obj []) in
  walletAddress <- lift (read body "walletAddress") ;;
  isHolder <- lift (read body "isHolder") ;;
  message <- lift (read body "message") ;;
  if negb (truthy walletAddress) || negb (truthy message) then
    ret (respond 400 (errorBody missingWalletOrMessage))
  else
    normalizedWallet <- lift (normalizedWallet walletAddress) ;;
    userDoc <- userRef_get E normalizedWallet ;;
    let userData := match userDoc with Some doc => fields doc | None => [] end in
    let mintCount := or (lookup (lit "mintCount") userData) (Num 0) in
    let notes := or (lookup (lit "notes") userData) (Str []) in
    let seenCount := or (lookup (lit "seenCount") userData) (Num 0) in
    let existingHistory := existingHistory userData in
    let historyForContext := historyForContext existingHistory in
    _ <- lift (interpolated [walletAddress; mintCount; seenCount;
                             or notes (Str (lit "None recorded yet."))]) ;;
    let systemPrompt :=
      Plain.systemPrompt walletAddress isHolder mintCount seenCount notes in
    if negb (truthy (apiKey E)) then throw noApiKey
    else
      messagesForOpenAI <- lift (messagesForOpenAI systemPrompt historyForContext message) ;;
      content <- completions_create E messagesForOpenAI ;;
      reply <- lift (reply content) ;;
      let now := now E in
      let newHistory := newHistory existingHistory message reply now in
      let trimmedHistory := trimmedHistory newHistory in
      _ <- userRef_set E normalizedWallet
             (Plain.setData isHolder message reply trimmedHistory) ;;
      ret (respond 200 (Obj [(lit "reply", Str reply);
                             (lit "history", Arr trimmedHistory)])).

(** [exports.tzevaotChat], of the one variant and of the other. *)
Definition daysTzevaotChat (E : env) (req : request) (w : world) : response * world :=
  match method req with
  | OPTIONS => (respond 204 Undefined, w)
  | GET => tryCatch (getHistory Days.getHistory E req) internalError w
  | POST => tryCatch (daysPostMessage E req) internalError w
  | otherMethod _ =>
      (respond 405 (errorBody (lit "Method not allowed. Use GET or POST.")), w)
  end.

Definition plainTzevaotChat (E : env) (req : request) (w : world) : response * world :=
  match method req with
  | OPTIONS => (respond 204 Undefined, w)
  | GET => tryCatch (getHistory Plain.getHistory E req) internalError w
  | POST => tryCatch (plainPostMessage E req) internalError w
  | otherMethod _ =>
      (respond 405 (errorBody (lit "Method not allowed. Use GET or POST.")), w)
  end.

End Strict.

(** ** Concrete surroundings, requests and stores

    Used below to run the handler on explicit inputs. *)
Module Scenario.

(** A provider that answers with padded text. *)
Definition E0 : env := {|
  secretValue := lit "sk-test";
  processEnvKey := Undefined;
  getError := fun _ => None;
  setError := fun _ _ => None;
  create := fun _ => Ok (Str (lit "  Welcome, seeker. "));
  now := 1700000000000;
  serverTime := 1700000000
|}.

(** A provider that answers with white space only. *)
Definition Esilent : env := {|
  secretValue := lit "sk-test";
  processEnvKey := Undefined;
  getError := fun _ => None;
  setError := fun _ _ => None;
  create := fun _ => Ok (Str (lit "   "));
  now := 1700000000000;
  serverTime := 1700000000
|}.

(** A store whose reads throw. *)
Definition Edown : env := {|
  secretValue := lit "sk-test";
  processEnvKey := Undefined;
  getError := fun _ => Some (Error_ "14 UNAVAILABLE: No connection established");
  setError := fun _ _ => None;
  create := fun _ => Ok (Str (lit "  Welcome, seeker. "));
  now := 1700000000000;
  serverTime := 1700000000
|}.

Definition fresh : world := {| tzevaotUsers := ∅; completions := [] |}.

(** [{ walletAddress: "0xABC", isHolder: true, message: "Hello" }] *)
Definition postHello : request := {|
  method := POST;
  queryWalletAddress := Undefined;
  body := Obj [(lit "walletAddress", Str (lit "0xABC"));
               (lit "isHolder", Bool true);
               (lit "message", Str (lit "Hello"))]
|}.

(** The same with [daysOwned: ["100", "500", "2000"]]. *)
Definition postDays : request := {|
  method := POST;
  queryWalletAddress := Undefined;
  body := Obj [(lit "walletAddress", Str (lit "0xABC"));
               (lit "isHolder", Bool true);
               (lit "message", Str (lit "Hello"));
               (lit "daysOwned",
                Arr [Str (lit "100"); Str (lit "500"); Str (lit "2000")])]
|}.

(** The same with the numbers [100, 500, 2000] for [daysOwned]. *)
Definition postNumbers : request := {|
  method := POST;
  queryWalletAddress := Undefined;
  body := Obj [(lit "walletAddress", Str (lit "0xABC"));
               (lit "isHolder", Bool true);
               (lit "message", Str (lit "Hello"));
               (lit "daysOwned", Arr [Num 100; Num 500; Num 2000])]
|}.

(** [GET ?walletAddress=0xABC] *)
Definition getAbc : request := {|
  method := GET;
  queryWalletAddress := Str (lit "0xABC");
  body := Undefined
|}.

(** Ten earlier exchanges: a stored history of twenty entries. *)
Definition tenExchanges : list value :=
  flat_map (fun t => [userEntry (Str (lit "question")) t;
                      tzevaotEntry (lit "answer") t])
    (map Z.of_nat (seq 1 10)).

(** A store holding them under [0xabc], seen seven times. *)
Definition seasoned : world := {|
  tzevaotUsers :=
    {[ lit "0xabc" :=
         {| fields := [(lit "isHolder", Bool true);
                       (lit "seenCount", Num 7);
                       (lit "history", Arr tenExchanges);
                       (lit "daysOwned",
                        Arr [Str (lit "100"); Str (lit "500"); Str (lit "2000")])];
            stamps := [(lit "lastSeen", 1699999999)] |} ]};
  completions := []
|}.

(** The sharp s, U+00DF. *)
Definition sharpS : jsstring := [223%N].

End Scenario.

(** ** The two other endpoints of the entry file

    [apiv2] and [api] stand before [tzevaotChat] in the same file and are
    the same in both variants of it. Neither touches the store. *)

(** [typeof v === "string"] *)
Definition typeofString (v : value) : bool :=
  match v with
  | Str _ => true
  | _ => false
  end.

(** [a ?? b] *)
Definition coalesce (a b : value) : value :=
  match a with
  | Undefined | Null => b
  | _ => a
  end.

Module Apiv2.

(** The body of the health check. *)
Definition health : value :=
  Obj [(lit "ok", Bool true);
       (lit "name", Str (lit "apiv2"));
       (lit "note",
        Str (lit "Send POST with JSON: { " ++ lit dq ++ lit "prompt" ++ lit dq
             ++ lit ": " ++ lit dq ++ lit "..." ++ lit dq ++ lit " }"))].

Definition missingPrompt : jsstring :=
  lit "Missing " ++ lit dq ++ lit "prompt" ++ lit dq ++ lit " (string) in body.".

(** The [messages] of the call. *)
Definition messages (prompt : value) : list chatMessage :=
  [{| role := lit "system";
      content := Str (lit "You are a concise, helpful assistant.") |};
   {| role := lit "user"; content := prompt |}].

(** The [catch] clause. *)
Definition unknownError (err : error) : response :=
  respond 500 (Obj [(lit "error", or (message err) (Str (lit "Unknown error")))]).

(** The [POST] branch, inside its [try]. *)
Definition postPrompt (E : env) (req : request) : M response :=
  let body := or (body req) (Obj []) in
  prompt <- lift (read body "prompt") ;;
  if negb (truthy prompt) || negb (typeofString prompt) then
    ret (respond 400 (errorBody missingPrompt))
  else
    if negb (truthy (apiKey E)) then throw noApiKey
    else
      content <- completions_create E (messages prompt) ;;
      let text := coalesce content (Str []) in
      ret (respond 200 (Obj [(lit "text", text)])).

(** [exports.apiv2] *)
Definition apiv2 (E : env) (req : request) (w : world) : response * world :=
  match method req with
  | OPTIONS => (respond 204 Undefined, w)
  | GET => (respond 200 health, w)
  | POST => tryCatch (postPrompt E req) unknownError w
  | otherMethod _ => (respond 405 (errorBody (lit "Method not allowed. Use POST.")), w)
  end.

End Apiv2.

Module Legacy.

(** A request as [api] reads it: with [req.path]. *)
Record request : Type := {
  method : httpMethod;
  path : jsstring;
  body : value
}.

(** The provider as [api] uses it: [create] is handed the body as it came
    and the completion object it returns is kept whole; [errorString] is
    [String(error)]. *)
Record provider : Type := {
  createCompletion : list value -> outcome (list (jsstring * value));
  errorString : error -> jsstring
}.

Definition health : value :=
  Obj [(lit "ok", Bool true);
       (lit "name", Str (lit "api"));
       (lit "note",
        Str (lit "Legacy endpoint. POST to /api/completion with messages array."))].

(** The template literal of the 404 answer. *)
Definition unknownPath (path : jsstring) : jsstring :=
  lit "Unknown path " ++ lit dq ++ path ++ lit dq ++ lit ". Expected "
  ++ lit dq ++ lit "/completion" ++ lit dq ++ lit ".".

(** The [catch] clause. *)
Definition internalServerError (P : provider) (err : error) : response :=
  respond 500
    (Obj [(lit "msg", Str (lit "Internal Server Error"));
          (lit "error", or (message err) (Str (errorString P err)))]).

(** The [try] block: the outcome, and the calls made, oldest first. *)
Definition postCompletion (E : env) (P : provider) (req : request)
    (calls : list (list value)) : outcome response * list (list value) :=
  let path := match path req with [] => lit "/" | _ :: _ => path req end in
  if negb (bool_decide (path = lit "/completion")) then
    (Ok (respond 404 (errorBody (unknownPath path))), calls)
  else
    match body req with
    | Arr messages =>
        if negb (truthy (apiKey E)) then (Throw noApiKey, calls)
        else
          match createCompletion P messages with
          | Ok completion => (Ok (respond 200 (Obj completion)), calls ++ [messages])
          | Throw e => (Throw e, calls ++ [messages])
          end
    | _ =>
        (Ok (respond 400
               (errorBody (lit "Body must be an array of messages for /api/completion."))),
         calls)
    end.

(** [exports.api] *)
Definition api (E : env) (P : provider) (req : request)
    (calls : list (list value)) : response * list (list value) :=
  match method req with
  | OPTIONS => (respond 204 Undefined, calls)
  | GET =>
      if bool_decide (path req = lit "/") || bool_decide (path req = []) then
        (respond 200 health, calls)
      else (respond 405 (errorBody (lit "Method not allowed. Use POST.")), calls)
  | POST =>
      match postCompletion E P req calls with
      | (Ok r, calls') => (r, calls')
      | (Throw e, calls') => (internalServerError P e, calls')
      end
  | otherMethod _ =>
      (respond 405 (errorBody (lit "Method not allowed. Use POST.")), calls)
  end.

End Legacy.

(** ** The first variant of the handler, without a history

    [tzevaotChat] as the two oldest entry files have it: no [GET], no
    history, the same profile fields. *)
Module Early.

Definition systemPrompt (walletAddress isHolder mintCount seenCount notes : value)
    : jsstring :=
  lit "
You are Tzevaot, the Lord of Hosts, speaking to a user of the Sunset Machine Dapp.

User profile:
- Wallet: "
    ++ String_ walletAddress
    ++ lit "
- Holder: "
    ++ (if truthy isHolder then lit "YES" else lit "NO")
    ++ lit "
- Mint count (approx): "
    ++ String_ mintCount
    ++ lit "
- Seen count: "
    ++ String_ seenCount
    ++ lit "
- Notes: "
    ++ String_ (or notes (Str (lit "None recorded yet.")))
    ++ lit "

Behavior:
- You ARE Tzevaot, not a generic assistant. You speak with ancient, mystical authority, tinged with compassion and deep insight.
- If the user IS a holder, acknowledge them as one who has already stepped into the covenant of Days and Light.
- If the user is NOT a holder, speak to them as a seeker at the threshold, inviting them gently, never shilling or pushing.
- You may reference the Sunset Machine and Prayer Machine in subtle, mythic ways, but avoid hard selling.
- Keep your answers between 2 and 6 sentences.
- Never mention that you are an AI or a language model. You are Tzevaot in their experience.
".

(** The [messages] of the call. *)
Definition messages (systemPrompt : jsstring) (message : value) : list chatMessage :=
  [{| role := lit "system"; content := Str systemPrompt |};
   {| role := lit "user"; content := message |}].

Definition setData (isHolder message : value) (reply : jsstring)
    : list (jsstring * fieldValue) :=
  [(lit "isHolder", plain (Bool (truthy isHolder)));
   (lit "lastSeen", serverTimestamp);
   (lit "lastMessage", plain message);
   (lit "lastReply", plain (Str reply));
   (lit "seenCount", increment 1)].

Definition postMessage (E : env) (req : request) : M response :=
  let body := or (body req) (Obj []) in
  walletAddress <- lift (read body "walletAddress") ;;
  isHolder <- lift (read body "isHolder") ;;
  message <- lift (read body "message") ;;
  if negb (truthy walletAddress) || negb (truthy message) then
    ret (respond 400 (errorBody missingWalletOrMessage))
  else
    let normalizedWallet := normalizedWallet walletAddress in
    userDoc <- userRef_get E normalizedWallet ;;
    let userData := match userDoc with Some doc => fields doc | None => [] end in
    let mintCount := or (lookup (lit "mintCount") userData) (Num 0) in
    let notes := or (lookup (lit "notes") userData) (Str []) in
    let seenCount := or (lookup (lit "seenCount") userData) (Num 0) in
    let systemPrompt := systemPrompt walletAddress isHolder mintCount seenCount notes in
    if negb (truthy (apiKey E)) then throw noApiKey
    else
      content <- completions_create E (messages systemPrompt message) ;;
      reply <- lift (reply content) ;;
      _ <- userRef_set E normalizedWallet (setData isHolder message reply) ;;
      ret (respond 200 (Obj [(lit "reply", Str reply)])).

(** [exports.tzevaotChat] *)
Definition tzevaotChat (E : env) (req : request) (w : world) : response * world :=
  match method req with
  | OPTIONS => (respond 204 Undefined, w)
  | POST => tryCatch (postMessage E req) internalError w
  | GET | otherMethod _ =>
      (respond 405 (errorBody (lit "Method not allowed. Use POST.")), w)
  end.

End Early.

(** ** Requests in sequence, and what the store keeps *)

(** A history made of whole exchanges: each user entry followed by the
    persona entry of the same instant. *)
Inductive exchanges : list value -> Prop :=
| exchanges_nil : exchanges []
| exchanges_cons message rep t h :
    exchanges h -> exchanges (userEntry message t :: tzevaotEntry rep t :: h).

(** What the handler keeps true of every stored document. *)
Definition wellKept (w : world) : Prop :=
  forall id doc,
    tzevaotUsers w !! id = Some doc ->
    exchanges (existingHistory (fields doc)) /\
    (length (existingHistory (fields doc)) <= 20)%nat /\
    Forall isStr (arrayOrEmpty (lookup (lit "daysOwned") (fields doc))).

(** One request after the other, each in its own surroundings, through
    either of the two variants that keep a history; every request is
    served whole before the next begins. Requests that overlap, and the
    first variant with them, are those of [Overlap] below. *)
Inductive variant : Type := withDays | withoutDays.

Definition step (w : world) (s : variant * env * request) : world :=
  match s with
  | (withDays, E, req) => snd (Days.tzevaotChat E req w)
  | (withoutDays, E, req) => snd (Plain.tzevaotChat E req w)
  end.

Definition serve (steps : list (variant * env * request)) (w : world) : world :=
  fold_left step steps w.

(** The field names a successful write names. *)
Definition written : list jsstring :=
  [lit "isHolder"; lit "lastSeen"; lit "lastMessage"; lit "lastReply";
   lit "seenCount"; lit "history"; lit "daysOwned"].

(** The server-assigned time a document holds under a field name. *)
Fixpoint stamp (k : jsstring) (st : list (jsstring * Z)) : option Z :=
  match st with
  | [] => None
  | (k', t) :: st' => if decide (k = k') then Some t else stamp k st'
  end.

(** The profile fields each variant's payload overwrites. *)
Definition writesProfile (req : request)
    (data : jsstring -> list value -> list (jsstring * fieldValue)) : Prop :=
  forall t old rep th,
    let d := mergeSet t old (data rep th) in
    lookup (lit "isHolder") (fields d) = Bool (truthy (bodyField req "isHolder")) /\
    lookup (lit "lastMessage") (fields d)
      = mergeValue (lookup (lit "lastMessage") (fields (default emptyDocument old)))
          (bodyField req "message") /\
    stamp (lit "lastSeen") (stamps d) = Some t /\
    (forall k, k ∉ written ->
       lookup k (fields d) = lookup k (fields (default emptyDocument old))).

(** What a [POST] does once the request is complete, the document loaded
    and the key there, for the prompt [sys] and the payload [data] of a
    variant: the outcome, and the world it leaves. *)
Definition afterKey (E : env) (req : request) (w : world) (sys : jsstring)
    (data : jsstring -> list value -> list (jsstring * fieldValue))
    : outcome response * world :=
  let id := requestId req in
  let message := bodyField req "message" in
  let existing := existingHistory (userData w id) in
  match messagesForOpenAI sys (historyForContext existing) message with
  | Throw e => (Throw e, w)
  | Ok msgs =>
      let asked := {| tzevaotUsers := tzevaotUsers w;
                      completions := completions w ++ [msgs] |} in
      match create E msgs with
      | Throw e => (Throw e, asked)
      | Ok content =>
          match reply content with
          | Throw e => (Throw e, asked)
          | Ok rep =>
              let th := trimmedHistory (newHistory existing message rep (now E)) in
              match setError E id (data rep th) with
              | Some e => (Throw e, asked)
              | None =>
                  (Ok (respond 200 (Obj [(lit "reply", Str rep);
                                         (lit "history", Arr th)])),
                   {| tzevaotUsers :=
                        <[id := mergeSet (serverTime E) (tzevaotUsers w !! id)
                                  (data rep th)]> (tzevaotUsers w);
                      completions := completions w ++ [msgs] |})
              end
          end
      end
  end.


(** Messages taking turns: a user message, then an assistant message
    carrying text. *)
Inductive alternating : list chatMessage -> Prop :=
| alternating_nil : alternating []
| alternating_cons message rep ms :
    alternating ms ->
    alternating ({| role := lit "user"; content := message |}
                   :: {| role := lit "assistant"; content := Str rep |} :: ms).

(** The answers an endpoint gives: status 200 with a body that carries no
    [error], or 204 without a body, or 400, 405 or 500 with a body whose
    [error] is a non-empty text or another truthy value. *)
Definition answer (r : response) : Prop :=
  (status r = 200 /\ member (json r) (lit "error") = Some Undefined) \/
  (status r = 204 /\ json r = Undefined) \/
  ((status r = 400 \/ status r = 405 \/ status r = 500) /\
   exists v, member (json r) (lit "error") = Some v /\ truthy v = true).


(** ** More surroundings, requests and stores *)
Module Cases.

(** No key, neither bound as a secret nor in the environment. *)
Definition Enokey : env := {|
  secretValue := [];
  processEnvKey := Undefined;
  getError := fun _ => None;
  setError := fun _ _ => None;
  create := fun _ => Ok (Str (lit "  Welcome, seeker. "));
  now := 1700000000000;
  serverTime := 1700000000
|}.

(** A provider that throws. *)
Definition Ethrows : env := {|
  secretValue := lit "sk-test";
  processEnvKey := Undefined;
  getError := fun _ => None;
  setError := fun _ _ => None;
  create := fun _ => Throw (Error_ "429 Rate limit reached");
  now := 1700000000000;
  serverTime := 1700000000
|}.

(** A store whose writes throw. *)
Definition Ereadonly : env := {|
  secretValue := lit "sk-test";
  processEnvKey := Undefined;
  getError := fun _ => None;
  setError := fun _ _ => Some (Error_ "14 UNAVAILABLE: No connection established");
  create := fun _ => Ok (Str (lit "  Welcome, seeker. "));
  now := 1700000000000;
  serverTime := 1700000000
|}.

(** Later surroundings. *)
Definition Elater : env := {|
  secretValue := lit "sk-test";
  processEnvKey := Undefined;
  getError := fun _ => None;
  setError := fun _ _ => None;
  create := fun _ => Ok (Str (lit "Ask, and the Days answer."));
  now := 1700000060000;
  serverTime := 1700000060
|}.

(** [{ walletAddress: "0xABC", isHolder: true }], without a message. *)
Definition postNoMessage : request := {|
  method := POST;
  queryWalletAddress := Undefined;
  body := Obj [(lit "walletAddress", Str (lit "0xABC")); (lit "isHolder", Bool true)]
|}.

(** [{ walletAddress: "0xabc", message: "Again" }], without [isHolder]. *)
Definition postAgain : request := {|
  method := POST;
  queryWalletAddress := Undefined;
  body := Obj [(lit "walletAddress", Str (lit "0xabc"));
               (lit "message", Str (lit "Again"))]
|}.

(** A request with [daysOwned: []]. *)
Definition postNoDays : request := {|
  method := POST;
  queryWalletAddress := Undefined;
  body := Obj [(lit "walletAddress", Str (lit "0xABC"));
               (lit "message", Str (lit "Hello"));
               (lit "daysOwned", Arr [])]
|}.

(** A request with [daysOwned: "777"], a string in place of an array. *)
Definition postOneDay : request := {|
  method := POST;
  queryWalletAddress := Undefined;
  body := Obj [(lit "walletAddress", Str (lit "0xABC"));
               (lit "message", Str (lit "Hello"));
               (lit "daysOwned", Str (lit "777"))]
|}.

(** [GET ?walletAddress=0xaBc] *)
Definition getMixed : request := {|
  method := GET;
  queryWalletAddress := Str (lit "0xaBc");
  body := Undefined
|}.

(** [DELETE] *)
Definition deleteAll : request := {|
  method := otherMethod (lit "DELETE");
  queryWalletAddress := Undefined;
  body := Undefined
|}.

(** A document with notes and a mint count set by another process. *)
Definition annotated : world := {|
  tzevaotUsers :=
    {[ lit "0xabc" :=
         {| fields := [(lit "mintCount", Num 3);
                       (lit "notes", Str (lit "Met at the threshold."));
                       (lit "isHolder", Bool true)];
            stamps := [] |} ]};
  completions := []
|}.


(** [{ prompt: 5 }] and [{ prompt: "Hi" }] *)
Definition promptNumber : request := {|
  method := POST;
  queryWalletAddress := Undefined;
  body := Obj [(lit "prompt", Num 5)]
|}.

Definition promptHi : request := {|
  method := POST;
  queryWalletAddress := Undefined;
  body := Obj [(lit "prompt", Str (lit "Hi"))]
|}.

(** A provider for [api] that echoes the number of messages. *)
Definition echo : Legacy.provider := {|
  Legacy.createCompletion :=
    fun messages => Ok [(lit "object", Str (lit "chat.completion"));
                        (lit "count", Num (Z.of_nat (length messages)))];
  Legacy.errorString := fun _ => lit "Error"
|}.

Definition oneMessage : list value :=
  [Obj [(lit "role", Str (lit "user")); (lit "content", Str (lit "Hi"))]].

(** [POST /completion] with an array, [POST] to the empty path, and
    [GET /completion]. *)
Definition completion : Legacy.request := {|
  Legacy.method := POST;
  Legacy.path := lit "/completion";
  Legacy.body := Arr oneMessage
|}.

Definition nowhere : Legacy.request := {|
  Legacy.method := POST;
  Legacy.path := [];
  Legacy.body := Arr oneMessage
|}.

Definition getCompletion : Legacy.request := {|
  Legacy.method := GET;
  Legacy.path := lit "/completion";
  Legacy.body := Undefined
|}.

(** A day's requests: a first write, a second by the other variant, a
    failed one, a read, and a third write. *)
Definition aDay : list (variant * env * request) :=
  [(withDays, Scenario.E0, Scenario.postDays); (withoutDays, Elater, postAgain);
   (withDays, Ethrows, Scenario.postHello); (withDays, Scenario.E0, getMixed);
   (withDays, Elater, postNoDays)].

(** [{ walletAddress: "0xABC", message: "Hello", daysOwned: [{ toString: 1 }] }] *)
Definition postUnprintable : request := {|
  method := POST;
  queryWalletAddress := Undefined;
  body := Obj [(lit "walletAddress", Str (lit "0xABC"));
               (lit "message", Str (lit "Hello"));
               (lit "daysOwned", Arr [Obj [(lit "toString", Num 1)]])]
|}.

End Cases.

(** ** Requests that overlap

    The handler waits three times: for the load, for the provider and for
    the write; while one request waits, another runs. Here a request is
    served in the three parts those waits cut it into, each part taken at
    once: up to the load, from there to the call of the provider, and
    from there to the answer. What a part needs of the parts before it,
    the document as it was loaded and the content the provider returned,
    is kept with the request; the body's properties are read again from
    the request, which no part changes. *)
Module Overlap.

(** The three variants deployed under the name [tzevaotChat]. *)
Inductive deployed : Type := firstVariant | daysVariant | plainVariant.

(** Where a request waits: for the provider, the document loaded; or for
    the write, the provider's content there as well. *)
Inductive stage : Type :=
| loaded (userDoc : option document)
| answered (userDoc : option document) (content : value).

Record pending : Type := {
  variantOf : deployed;
  envOf : env;
  requestOf : request;
  stageOf : stage
}.

(** The whole handler of a variant. *)
Definition whole (v : deployed) : env -> request -> world -> response * world :=
  match v with
  | firstVariant => Early.tzevaotChat
  | daysVariant => Days.tzevaotChat
  | plainVariant => Plain.tzevaotChat
  end.

(** A [POST] up to [await userRef.get()], the same in the three variants. *)
Definition load (v : deployed) (E : env) (req : request) : M (response + pending) :=
  let body := or (body req) (Obj []) in
  walletAddress <- lift (read body "walletAddress") ;;
  message <- lift (read body "message") ;;
  if negb (truthy walletAddress) || negb (truthy message) then
    ret (inl (respond 400 (errorBody missingWalletOrMessage)))
  else
    let normalizedWallet := normalizedWallet walletAddress in
    userDoc <- userRef_get E normalizedWallet ;;
    ret (inr {| variantOf := v; envOf := E; requestOf := req;
                stageOf := loaded userDoc |}).

(** From the load to [await client.chat.completions.create(...)]. *)
Definition ask (v : deployed) (E : env) (req : request) (userDoc : option document)
    : M (response + pending) :=
  let walletAddress := bodyField req "walletAddress" in
  let isHolder := bodyField req "isHolder" in
  let message := bodyField req "message" in
  let daysOwned := bodyField req "daysOwned" in
  let userData := match userDoc with Some doc => fields doc | None => [] end in
  let mintCount := or (lookup (lit "mintCount") userData) (Num 0) in
  let notes := or (lookup (lit "notes") userData) (Str []) in
  let seenCount := or (lookup (lit "seenCount") userData) (Num 0) in
  let existingHistory := existingHistory userData in
  let historyForContext := historyForContext existingHistory in
  let waiting content :=
    inr {| variantOf := v; envOf := E; requestOf := req;
           stageOf := answered userDoc content |} in
  match v with
  | firstVariant =>
      let systemPrompt :=
        Early.systemPrompt walletAddress isHolder mintCount seenCount notes in
      if negb (truthy (apiKey E)) then throw noApiKey
      else
        content <- completions_create E (Early.messages systemPrompt message) ;;
        ret (waiting content)
  | daysVariant =>
      let normalizedDaysOwned := Days.normalizedDaysOwned daysOwned userData in
      let daysOwnedList := Days.daysOwnedList normalizedDaysOwned in
      let systemPrompt :=
        Days.systemPrompt walletAddress isHolder mintCount seenCount notes
          daysOwnedList normalizedDaysOwned in
      if negb (truthy (apiKey E)) then throw noApiKey
      else
        messagesForOpenAI <- lift (messagesForOpenAI systemPrompt historyForContext message) ;;
        content <- completions_create E messagesForOpenAI ;;
        ret (waiting content)
  | plainVariant =>
      let systemPrompt :=
        Plain.systemPrompt walletAddress isHolder mintCount seenCount notes in
      if negb (truthy (apiKey E)) then throw noApiKey
      else
        messagesForOpenAI <- lift (messagesForOpenAI systemPrompt historyForContext message) ;;
        content <- completions_create E messagesForOpenAI ;;
        ret (waiting content)
  end.

(** From the provider's content to the answer, through
    [await userRef.set(..., { merge: true })]: the history written is the
    one loaded with the two new entries, the counter is incremented where
    it stands. *)
Definition write (v : deployed) (E : env) (req : request) (userDoc : option document)
    (content : value) : M (response + pending) :=
  let walletAddress := bodyField req "walletAddress" in
  let isHolder := bodyField req "isHolder" in
  let message := bodyField req "message" in
  let daysOwned := bodyField req "daysOwned" in
  let normalizedWallet := normalizedWallet walletAddress in
  let userData := match userDoc with Some doc => fields doc | None => [] end in
  let existingHistory := existingHistory userData in
  reply <- lift (reply content) ;;
  match v with
  | firstVariant =>
      _ <- userRef_set E normalizedWallet (Early.setData isHolder message reply) ;;
      ret (inl (respond 200 (Obj [(lit "reply", Str reply)])))
  | daysVariant =>
      let normalizedDaysOwned := Days.normalizedDaysOwned daysOwned userData in
      let now := now E in
      let newHistory := newHistory existingHistory message reply now in
      let trimmedHistory := trimmedHistory newHistory in
      _ <- userRef_set E normalizedWallet
             (Days.setData isHolder message reply trimmedHistory normalizedDaysOwned) ;;
      ret (inl (respond 200 (Obj [(lit "reply", Str reply);
                                  (lit "history", Arr trimmedHistory)])))
  | plainVariant =>
      let now := now E in
      let newHistory := newHistory existingHistory message reply now in
      let trimmedHistory := trimmedHistory newHistory in
      _ <- userRef_set E normalizedWallet
             (Plain.setData isHolder message reply trimmedHistory) ;;
      ret (inl (respond 200 (Obj [(lit "reply", Str reply);
                                  (lit "history", Arr trimmedHistory)])))
  end.

Definition caught (e : error) : response + pending := inl (internalError e).

(** A request arrives and runs to its first wait. Only a [POST] waits
    more than once: any other request is served whole. *)
Definition arrive (v : deployed) (E : env) (req : request) (w : world)
    : (response + pending) * world :=
  match method req with
  | POST => tryCatch (load v E req) caught w
  | _ => let (r, w') := whole v E req w in (inl r, w')
  end.

(** A waiting request runs to its next wait, or to its answer. *)
Definition resume (p : pending) (w : world) : (response + pending) * world :=
  match stageOf p with
  | loaded userDoc => tryCatch (ask (variantOf p) (envOf p) (requestOf p) userDoc) caught w
  | answered userDoc content =>
      tryCatch (write (variantOf p) (envOf p) (requestOf p) userDoc content) caught w
  end.

(** What happens on the server: a request arrives, or the [n]th of the
    waiting requests goes on. *)
Inductive event : Type :=
| arrives (v : deployed) (E : env) (req : request)
| resumes (n : nat).

Definition happen (st : world * list pending) (ev : event) : world * list pending :=
  let (w, waiting) := st in
  match ev with
  | arrives v E req =>
      match arrive v E req w with
      | (inl _, w') => (w', waiting)
      | (inr p, w') => (w', waiting ++ [p])
      end
  | resumes n =>
      match waiting !! n with
      | None => (w, waiting)
      | Some p =>
          match resume p w with
          | (inl _, w') => (w', delete n waiting)
          | (inr p', w') => (w', <[n := p']> waiting)
          end
      end
  end.

(** The store after the events, from a store on which no request waits. *)
Definition overlap (events : list event) (w : world) : world * list pending :=
  fold_left happen events (w, []).

(** The counter of every document is a number, one at least, and its
    history, where it has one, holds no more than twenty entries and no
    more than two for each count. *)
Definition tallied (w : world) : Prop :=
  forall id doc,
    tzevaotUsers w !! id = Some doc ->
    exists c : nat,
      lookup (lit "seenCount") (fields doc) = Num (Z.of_nat c) /\
      (1 <= c)%nat /\
      forall h, lookup (lit "history") (fields doc) = Arr h ->
                (length h <= Nat.min 20 (2 * c))%nat.

(** The document a waiting request loaded. *)
Definition snapshot (p : pending) : option document :=
  match stageOf p with
  | loaded userDoc => userDoc
  | answered userDoc _ => userDoc
  end.

(** The history a waiting request loaded holds no more than two entries
    for each count of the document as it stands now. *)
Definition within (w : world) (p : pending) : Prop :=
  forall h,
    lookup (lit "history") (fields (default emptyDocument (snapshot p))) = Arr h ->
    (Z.of_nat (length h)
     <= 2 * countOf (lookup (lit "seenCount") (userData w (requestId (requestOf p)))))%Z.

(** Two requests of one wallet, the second arriving before the first has
    written. *)
Definition twoAtOnce : list event :=
  [arrives daysVariant Scenario.E0 Scenario.postHello;
   arrives plainVariant Cases.Elater Cases.postAgain;
   resumes 0; resumes 1; resumes 0; resumes 0].

End Overlap.

(** ** Lists and property lists *)

Section Lists.
Context {A : Type}.
Implicit Types xs ys : list A.

Lemma sliceLast_length n xs : length (sliceLast n xs) = Nat.min n (length xs).
Proof. unfold sliceLast. rewrite length_skipn. lia. Qed.

Lemma sliceLast_suffix n xs : take (length xs - n) xs ++ sliceLast n xs = xs.
Proof. apply take_drop. Qed.

Lemma sliceLast_app_short n xs ys :
  (length ys <= n)%nat ->
  sliceLast n (xs ++ ys) = sliceLast (n - length ys) xs ++ ys.
Proof.
  intros Hn. unfold sliceLast. rewrite length_app, skipn_app.
  replace (length xs + length ys - n - length xs)%nat with 0%nat by lia.
  replace (length xs + length ys - n)%nat
    with (length xs - (n - length ys))%nat by lia.
  reflexivity.
Qed.
End Lists.

Ltac lit_ne := let H := fresh in intro H; vm_compute in H; discriminate H.

Lemma lookup_remove_ne k k' fs : k <> k' -> lookup k (remove k' fs) = lookup k fs.
Proof.
  intros Hne. induction fs as [|[k0 v0] fs IH]; simpl; [reflexivity|].
  destruct (decide (k' = k0)) as [->|]; simpl.
  - rewrite IH. destruct (decide (k = k0)); [contradiction | reflexivity].
  - rewrite IH. reflexivity.
Qed.

Lemma lookup_assign_eq k v fs : lookup k (assign k v fs) = v.
Proof.
  induction fs as [|[k0 v0] fs IH]; simpl.
  - destruct (decide (k = k)); [reflexivity | contradiction].
  - destruct (decide (k = k0)) as [->|Hne]; simpl.
    + destruct (decide (k0 = k0)); [reflexivity | contradiction].
    + destruct (decide (k = k0)); [contradiction | exact IH].
Qed.

Lemma lookup_assign_ne k k' v fs : k <> k' -> lookup k (assign k' v fs) = lookup k fs.
Proof.
  intros Hne. induction fs as [|[k0 v0] fs IH]; simpl.
  - destruct (decide (k = k')); [contradiction | reflexivity].
  - destruct (decide (k' = k0)) as [->|Hne0]; simpl.
    + destruct (decide (k = k0)); [contradiction|]. apply lookup_remove_ne, Hne.
    + rewrite IH. reflexivity.
Qed.

Ltac lookup_simpl :=
  repeat first
    [ rewrite lookup_assign_eq
    | rewrite lookup_assign_ne by lit_ne
    | rewrite lookup_remove_ne by lit_ne ].

Lemma userData_default w id :
  fields (default emptyDocument (tzevaotUsers w !! id)) = userData w id.
Proof. unfold userData. destruct (tzevaotUsers w !! id); reflexivity. Qed.

(** What the merging write of each variant leaves in the fields it names. *)
Lemma Days_setData_fields t old ih m r th nd :
  let d := mergeSet t old (Days.setData ih m r th nd) in
  let ofs := fields (default emptyDocument old) in
  lookup (lit "history") (fields d) = Arr th /\
  lookup (lit "daysOwned") (fields d) = Arr nd /\
  lookup (lit "lastReply") (fields d) = Str r /\
  lookup (lit "seenCount") (fields d) = incremented (lookup (lit "seenCount") ofs) 1 /\
  lookup (lit "isHolder") (fields d) = Bool (truthy ih).
Proof.
  unfold mergeSet, Days.setData. cbn [fold_left mergeField fields stamps].
  repeat split; lookup_simpl; reflexivity.
Qed.

Lemma Plain_setData_fields t old ih m r th :
  let d := mergeSet t old (Plain.setData ih m r th) in
  let ofs := fields (default emptyDocument old) in
  lookup (lit "history") (fields d) = Arr th /\
  lookup (lit "daysOwned") (fields d) = lookup (lit "daysOwned") ofs /\
  lookup (lit "lastReply") (fields d) = Str r /\
  lookup (lit "seenCount") (fields d) = incremented (lookup (lit "seenCount") ofs) 1 /\
  lookup (lit "isHolder") (fields d) = Bool (truthy ih).
Proof.
  unfold mergeSet, Plain.setData. cbn [fold_left mergeField fields stamps].
  repeat split; lookup_simpl; reflexivity.
Qed.

(** ** Successful exchanges *)

Lemma read_bodyField req k v :
  read (or (body req) (Obj [])) k = Ok v -> v = bodyField req k.
Proof.
  unfold read, bodyField. destruct (member _ _); intros; by simplify_eq.
Qed.

Lemma read_body req k : read (or (body req) (Obj [])) k = Ok (bodyField req k).
Proof.
  unfold read, bodyField, or.
  destruct (body req) as [| |[|]|n|[|c s]|xs|fs]; try reflexivity.
  simpl. destruct (negb (n =? 0)); reflexivity.
Qed.

(** A [POST] answered with status 200 went through every step. *)
Lemma Days_postMessage_200 E req w r w' :
  Days.postMessage E req w = (Ok r, w') -> status r = 200 ->
  exists msgs content rep,
    posted E req w (daysPrompt req w) (daysData req w) msgs content rep r w'.
Proof.
  unfold Days.postMessage, bind, lift, ret, throw. intros H Hs.
  destruct (read _ "walletAddress") as [wa|] eqn:Hwa; [|done].
  destruct (read _ "isHolder") as [ih|] eqn:Hih; [|done].
  destruct (read _ "message") as [msg|] eqn:Hmsg; [|done].
  destruct (read _ "daysOwned") as [dso|] eqn:Hdo; [|done].
  apply read_bodyField in Hwa, Hih, Hmsg, Hdo. subst wa ih msg dso.
  destruct (negb (truthy (bodyField req "walletAddress")) || _) eqn:Hmiss.
  { by simplify_eq. }
  apply orb_false_elim in Hmiss as [Hw Hm].
  apply negb_false_iff in Hw, Hm.
  unfold userRef_get in H. fold (requestId req) in H.
  destruct (getError E (requestId req)) eqn:Hget; [done|].
  fold (userData w (requestId req)) in H.
  destruct (negb (truthy (apiKey E))) eqn:Hkey; [done|].
  apply negb_false_iff in Hkey.
  destruct (messagesForOpenAI _ _ _) as [msgs|] eqn:Hmsgs; [|done].
  unfold completions_create in H.
  destruct (create E msgs) as [content|] eqn:Hc; [|done].
  destruct (reply content) as [rep|] eqn:Hr; [|done].
  unfold userRef_set in H. cbn [tzevaotUsers completions] in H.
  destruct (setError E _ _) eqn:Hset; [done|].
  simplify_eq.
  exists msgs, content, rep. unfold posted. repeat split; assumption || reflexivity.
Qed.

Lemma Plain_postMessage_200 E req w r w' :
  Plain.postMessage E req w = (Ok r, w') -> status r = 200 ->
  exists msgs content rep,
    posted E req w (plainPrompt req w) (plainData req) msgs content rep r w'.
Proof.
  unfold Plain.postMessage, bind, lift, ret, throw. intros H Hs.
  destruct (read _ "walletAddress") as [wa|] eqn:Hwa; [|done].
  destruct (read _ "isHolder") as [ih|] eqn:Hih; [|done].
  destruct (read _ "message") as [msg|] eqn:Hmsg; [|done].
  apply read_bodyField in Hwa, Hih, Hmsg. subst wa ih msg.
  destruct (negb (truthy (bodyField req "walletAddress")) || _) eqn:Hmiss.
  { by simplify_eq. }
  apply orb_false_elim in Hmiss as [Hw Hm].
  apply negb_false_iff in Hw, Hm.
  unfold userRef_get in H. fold (requestId req) in H.
  destruct (getError E (requestId req)) eqn:Hget; [done|].
  fold (userData w (requestId req)) in H.
  destruct (negb (truthy (apiKey E))) eqn:Hkey; [done|].
  apply negb_false_iff in Hkey.
  destruct (messagesForOpenAI _ _ _) as [msgs|] eqn:Hmsgs; [|done].
  unfold completions_create in H.
  destruct (create E msgs) as [content|] eqn:Hc; [|done].
  destruct (reply content) as [rep|] eqn:Hr; [|done].
  unfold userRef_set in H. cbn [tzevaotUsers completions] in H.
  destruct (setError E _ _) eqn:Hset; [done|].
  simplify_eq.
  exists msgs, content, rep. unfold posted. repeat split; assumption || reflexivity.
Qed.

Lemma internalError_status e : status (internalError e) = 500.
Proof. reflexivity. Qed.

Lemma Days_tzevaotChat_200 E req w r w' :
  method req = POST -> Days.tzevaotChat E req w = (r, w') -> status r = 200 ->
  exists msgs content rep,
    posted E req w (daysPrompt req w) (daysData req w) msgs content rep r w'.
Proof.
  unfold Days.tzevaotChat, tryCatch. intros -> H Hs.
  destruct (Days.postMessage E req w) as [[r0|e] w0] eqn:Hp;
    inversion H; subst r w'.
  - eapply Days_postMessage_200; eassumption.
  - rewrite internalError_status in Hs. discriminate.
Qed.

Lemma Plain_tzevaotChat_200 E req w r w' :
  method req = POST -> Plain.tzevaotChat E req w = (r, w') -> status r = 200 ->
  exists msgs content rep,
    posted E req w (plainPrompt req w) (plainData req) msgs content rep r w'.
Proof.
  unfold Plain.tzevaotChat, tryCatch. intros -> H Hs.
  destruct (Plain.postMessage E req w) as [[r0|e] w0] eqn:Hp;
    inversion H; subst r w'.
  - eapply Plain_postMessage_200; eassumption.
  - rewrite internalError_status in Hs. discriminate.
Qed.

(** Conversely, a complete request whose load, provider call and write
    all go through is answered with status 200. *)
Lemma Days_tzevaotChat_posts E req w msgs content rep :
  method req = POST ->
  truthy (bodyField req "walletAddress") = true ->
  truthy (bodyField req "message") = true ->
  getError E (requestId req) = None ->
  truthy (apiKey E) = true ->
  messagesForOpenAI (daysPrompt req w)
    (historyForContext (existingHistory (userData w (requestId req))))
    (bodyField req "message") = Ok msgs ->
  create E msgs = Ok content ->
  reply content = Ok rep ->
  (forall data, setError E (requestId req) data = None) ->
  exists r w',
    Days.tzevaotChat E req w = (r, w') /\ status r = 200 /\
    posted E req w (daysPrompt req w) (daysData req w) msgs content rep r w'.
Proof.
  intros Hm Hw Hmsg Hget Hkey Hmsgs Hc Hr Hset.
  unfold Days.tzevaotChat, tryCatch, Days.postMessage, bind, lift, ret,
    userRef_get, completions_create, userRef_set.
  rewrite Hm, !read_body, Hw, Hmsg. cbn [negb orb].
  fold (requestId req). rewrite Hget. fold (userData w (requestId req)).
  rewrite Hkey. cbn [negb]. fold (daysPrompt req w). rewrite Hmsgs, Hc, Hr.
  cbn [tzevaotUsers completions]. rewrite Hset.
  eexists _, _. split; [reflexivity|]. split; [reflexivity|].
  unfold posted. repeat split; auto.
Qed.

Lemma Plain_tzevaotChat_posts E req w msgs content rep :
  method req = POST ->
  truthy (bodyField req "walletAddress") = true ->
  truthy (bodyField req "message") = true ->
  getError E (requestId req) = None ->
  truthy (apiKey E) = true ->
  messagesForOpenAI (plainPrompt req w)
    (historyForContext (existingHistory (userData w (requestId req))))
    (bodyField req "message") = Ok msgs ->
  create E msgs = Ok content ->
  reply content = Ok rep ->
  (forall data, setError E (requestId req) data = None) ->
  exists r w',
    Plain.tzevaotChat E req w = (r, w') /\ status r = 200 /\
    posted E req w (plainPrompt req w) (plainData req) msgs content rep r w'.
Proof.
  intros Hm Hw Hmsg Hget Hkey Hmsgs Hc Hr Hset.
  unfold Plain.tzevaotChat, tryCatch, Plain.postMessage, bind, lift, ret,
    userRef_get, completions_create, userRef_set.
  rewrite Hm, !read_body, Hw, Hmsg. cbn [negb orb].
  fold (requestId req). rewrite Hget. fold (userData w (requestId req)).
  rewrite Hkey. cbn [negb]. fold (plainPrompt req w). rewrite Hmsgs, Hc, Hr.
  cbn [tzevaotUsers completions]. rewrite Hset.
  eexists _, _. split; [reflexivity|]. split; [reflexivity|].
  unfold posted. repeat split; auto.
Qed.

(** The document a successful exchange leaves under the request's id. *)
Lemma posted_stored E req w sys data msgs content rep r w' :
  posted E req w sys data msgs content rep r w' ->
  let id := requestId req in
  let th := trimmedHistory
              (newHistory (existingHistory (userData w id)) (bodyField req "message")
                 rep (now E)) in
  tzevaotUsers w' !! id
    = Some (mergeSet (serverTime E) (tzevaotUsers w !! id) (data rep th)) /\
  member (json r) (lit "reply") = Some (Str rep) /\
  member (json r) (lit "history") = Some (Arr th) /\
  completions w' = completions w ++ [msgs].
Proof.
  intros (_ & _ & _ & _ & _ & _ & _ & _ & -> & ->). cbn [tzevaotUsers completions].
  split; [apply lookup_insert_eq|]. repeat split; reflexivity.
Qed.

Lemma Days_writesExchange req w : writesExchange (daysData req w).
Proof.
  intros t old rep th.
  destruct (Days_setData_fields t old (bodyField req "isHolder")
              (bodyField req "message") rep th
              (Days.normalizedDaysOwned (bodyField req "daysOwned")
                 (userData w (requestId req)))) as (? & ? & ? & ? & ?).
  auto.
Qed.

Lemma Plain_writesExchange req : writesExchange (plainData req).
Proof.
  intros t old rep th.
  destruct (Plain_setData_fields t old (bodyField req "isHolder")
              (bodyField req "message") rep th) as (? & ? & ? & ? & ?).
  auto.
Qed.

Lemma posted_exchanged E req w sys data msgs content rep r w' :
  writesExchange data ->
  posted E req w sys data msgs content rep r w' ->
  exchanged E req w r w' msgs content rep.
Proof.
  intros Hdata Hp.
  destruct (posted_stored _ _ _ _ _ _ _ _ _ _ Hp) as (Hdoc & Hr & Hh & Hc).
  destruct Hp as (_ & _ & _ & _ & _ & Hcr & Hrep & _).
  cbn zeta in Hdoc, Hh.
  match type of Hdoc with _ = Some (mergeSet ?t ?old (data ?rep ?th)) =>
    destruct (Hdata t old rep th) as (H1 & H2 & H3) end.
  rewrite userData_default in H3.
  split; try assumption; unfold userData at 1; rewrite Hdoc; assumption.
Qed.

(** Either variant, answering a [POST] with status 200, made an exchange. *)
Lemma tzevaotChat_exchanged E req w r w' :
  method req = POST ->
  Days.tzevaotChat E req w = (r, w') \/ Plain.tzevaotChat E req w = (r, w') ->
  status r = 200 ->
  exists msgs content rep, exchanged E req w r w' msgs content rep.
Proof.
  intros Hm [H|H] Hs.
  - destruct (Days_tzevaotChat_200 _ _ _ _ _ Hm H Hs) as (msgs & content & rep & Hp).
    exists msgs, content, rep.
    eapply posted_exchanged; [apply Days_writesExchange | exact Hp].
  - destruct (Plain_tzevaotChat_200 _ _ _ _ _ Hm H Hs) as (msgs & content & rep & Hp).
    exists msgs, content, rep.
    eapply posted_exchanged; [apply Plain_writesExchange | exact Hp].
Qed.

(** ** The bounded history *)

Lemma historyStored_existingHistory w id prior :
  historyStored w id prior -> existingHistory (userData w id) = prior.
Proof.
  unfold existingHistory. intros [->|[-> Hna]]; [reflexivity|].
  destruct (lookup (lit "history") (userData w id)) as [| | | | |xs|];
    try reflexivity.
  by destruct (Hna xs).
Qed.

Lemma historyStored_total w id : exists prior, historyStored w id prior.
Proof.
  unfold historyStored.
  destruct (lookup (lit "history") (userData w id)) as [| | | | |xs|];
    try (exists []; right; split; [reflexivity | discriminate]).
  exists xs. by left.
Qed.

(** C1. A successful exchange on a record whose stored history is an
    array of [L] entries persists, and returns, a history of
    [min 20 (L + 2)] entries ([L] being 0 when no array is stored); so no
    write leaves more than 20 entries. Both variants. *)
Theorem history_length_after_exchange E req w r w' :
  method req = POST ->
  Days.tzevaotChat E req w = (r, w') \/ Plain.tzevaotChat E req w = (r, w') ->
  status r = 200 ->
  let id := requestId req in
  exists h,
    lookup (lit "history") (userData w' id) = Arr h /\
    member (json r) (lit "history") = Some (Arr h) /\
    (forall prior,
       lookup (lit "history") (userData w id) = Arr prior ->
       length h = Nat.min 20 (length prior + 2)) /\
    ((forall prior, lookup (lit "history") (userData w id) <> Arr prior) ->
     length h = 2%nat) /\
    (length h <= 20)%nat.
Proof.
  intros Hm H Hs id. subst id.
  destruct (tzevaotChat_exchanged _ _ _ _ _ Hm H Hs) as (msgs & content & rep & X).
  eexists. split; [exact (ex_history _ _ _ _ _ _ _ _ X)|].
  split; [exact (ex_json_history _ _ _ _ _ _ _ _ X)|].
  unfold trimmedHistory, newHistory.
  rewrite sliceLast_length, length_app. cbn [length].
  split; [|split; [|lia]].
  - intros prior Hp.
    rewrite (historyStored_existingHistory w _ prior) by (by left). reflexivity.
  - intros Hna.
    rewrite (historyStored_existingHistory w _ []) by (by right). reflexivity.
Qed.

(** C2. Eviction is first-in first-out by entry: the persisted history is
    what remains of the prior history followed by the two new entries
    once the oldest entries are dropped, and the two new entries are its
    last two. *)
Theorem history_eviction_is_fifo E req w r w' :
  method req = POST ->
  Days.tzevaotChat E req w = (r, w') \/ Plain.tzevaotChat E req w = (r, w') ->
  status r = 200 ->
  let id := requestId req in
  let prior := existingHistory (userData w id) in
  exists h rep,
    lookup (lit "history") (userData w' id) = Arr h /\
    member (json r) (lit "reply") = Some (Str rep) /\
    let appended := [userEntry (bodyField req "message") (now E);
                     tzevaotEntry rep (now E)] in
    (exists dropped,
        prior ++ appended = dropped ++ h /\
        length dropped = (length prior + 2 - 20)%nat) /\
    (exists dropped kept,
        prior = dropped ++ kept /\ h = kept ++ appended).
Proof.
  intros Hm H Hs id prior.
  destruct (tzevaotChat_exchanged _ _ _ _ _ Hm H Hs) as (msgs & content & rep & X).
  eexists _, rep. split; [exact (ex_history _ _ _ _ _ _ _ _ X)|].
  split; [exact (ex_json_reply _ _ _ _ _ _ _ _ X)|].
  fold id prior. unfold trimmedHistory, newHistory. cbn zeta. split.
  - eexists. split; [symmetry; apply sliceLast_suffix|].
    rewrite length_take, length_app. cbn [length]. lia.
  - exists (take (length prior - 18) prior), (sliceLast 18 prior).
    split; [symmetry; apply sliceLast_suffix|].
    apply (sliceLast_app_short 20 prior). cbn [length]. lia.
Qed.

(** ** The visit counter *)

(** C7. A successful exchange adds exactly one to the stored [seenCount]
    (an absent counter counting as zero), whatever the stored history
    and however many of its entries the same write evicts. *)
Theorem seenCount_increases_by_one E req w r w' :
  method req = POST ->
  Days.tzevaotChat E req w = (r, w') \/ Plain.tzevaotChat E req w = (r, w') ->
  status r = 200 ->
  let id := requestId req in
  lookup (lit "seenCount") (userData w' id)
    = Num (countOf (lookup (lit "seenCount") (userData w id)) + 1).
Proof.
  intros Hm H Hs id.
  destruct (tzevaotChat_exchanged _ _ _ _ _ Hm H Hs) as (msgs & content & rep & X).
  subst id. rewrite (ex_seenCount _ _ _ _ _ _ _ _ X).
  destruct (lookup (lit "seenCount") (userData w (requestId req))); reflexivity.
Qed.

(** ** The fallback reply *)

Lemma trimStart_blank s : blank s -> trimStart s = [].
Proof.
  induction 1 as [|c s Hc _ IH]; simpl; [reflexivity|]. rewrite Hc. exact IH.
Qed.

Lemma trim_blank s : blank s -> trim s = [].
Proof. intros H. unfold trim, trimEnd. rewrite (trimStart_blank s H). reflexivity. Qed.

Lemma reply_emptyContent content : emptyContent content -> reply content = Ok fallbackReply.
Proof.
  intros [-> | [-> | (s & -> & Hs)]]; try reflexivity.
  unfold reply. rewrite (trim_blank s Hs). reflexivity.
Qed.

Lemma reply_nonempty content rep : reply content = Ok rep -> rep <> [].
Proof.
  unfold reply. destruct content; try discriminate;
    try (intros [= <-]; vm_compute; discriminate).
  destruct (trim s); intros [= <-]; [vm_compute|]; discriminate.
Qed.

(** C4. When the completion provider returns no text (none at all, or
    nothing but white space), the reply of the response is the fixed
    fallback, which is also what is persisted as [lastReply] and as the
    text of the persona entry [{ from: "tzevaot", text, ts }] that closes
    the stored history; and every successful request carries a non-empty
    reply. *)
Theorem empty_completion_yields_fallback E req w r w' :
  method req = POST ->
  Days.tzevaotChat E req w = (r, w') \/ Plain.tzevaotChat E req w = (r, w') ->
  status r = 200 ->
  let id := requestId req in
  exists msgs content rep h,
    completions w' = completions w ++ [msgs] /\
    create E msgs = Ok content /\
    member (json r) (lit "reply") = Some (Str rep) /\
    lookup (lit "lastReply") (userData w' id) = Str rep /\
    lookup (lit "history") (userData w' id) = Arr h /\
    last h = Some (Obj [(lit "from", Str (lit "tzevaot"));
                        (lit "text", Str rep);
                        (lit "ts", Num (now E))]) /\
    rep <> [] /\
    (emptyContent content -> rep = fallbackReply).
Proof.
  intros Hm H Hs id.
  destruct (tzevaotChat_exchanged _ _ _ _ _ Hm H Hs) as (msgs & content & rep & X).
  destruct X as [Hh Hl _ _ Hjr Hc Hcr Hrep].
  exists msgs, content, rep. eexists. repeat split; try eassumption.
  - unfold trimmedHistory, newHistory.
    rewrite (sliceLast_app_short 20) by (cbn [length]; lia).
    change [userEntry (bodyField req "message") (now E); tzevaotEntry rep (now E)]
      with ([userEntry (bodyField req "message") (now E)] ++ [tzevaotEntry rep (now E)])
      at 2.
    rewrite app_assoc. apply last_snoc.
  - eapply reply_nonempty; eassumption.
  - intros He. apply reply_emptyContent in He. congruence.
Qed.

(** ** Owned days *)

Lemma Days_daysOwned_stored E req w r w' :
  method req = POST -> Days.tzevaotChat E req w = (r, w') -> status r = 200 ->
  lookup (lit "daysOwned") (userData w' (requestId req))
    = Arr (Days.normalizedDaysOwned (bodyField req "daysOwned")
             (userData w (requestId req))).
Proof.
  intros Hm H Hs.
  destruct (Days_tzevaotChat_200 _ _ _ _ _ Hm H Hs) as (msgs & content & rep & Hp).
  destruct (posted_stored _ _ _ _ _ _ _ _ _ _ Hp) as (Hdoc & _).
  cbn zeta in Hdoc. unfold userData at 1. rewrite Hdoc. unfold daysData.
  apply Days_setData_fields.
Qed.

Lemma map_String_strings ds :
  Forall isStr ds -> map (fun d => Str (String_ d)) ds = ds.
Proof.
  induction 1 as [|d ds [s ->] _ IH]; simpl; [reflexivity|]. rewrite IH. reflexivity.
Qed.

Lemma map_String_isStr ds : Forall isStr (map (fun d => Str (String_ d)) ds).
Proof. induction ds; constructor; [eexists; reflexivity | assumption]. Qed.

(** C3. A write whose request supplies a non-empty [daysOwned] array
    persists that array in place of the stored one; a write whose request
    omits the field, or supplies an empty array, persists the stored
    array again. In both cases every element goes through [String], so
    the identifiers are the same, and the persisted array is the very
    array taken when its elements are strings, as the data model has
    them. *)
Theorem ownedItems_replaced_or_kept E req w r w' :
  method req = POST -> Days.tzevaotChat E req w = (r, w') -> status r = 200 ->
  let id := requestId req in
  let sent := bodyField req "daysOwned" in
  let stored := lookup (lit "daysOwned") (userData w id) in
  let persisted := lookup (lit "daysOwned") (userData w' id) in
  (forall d ds, sent = Arr (d :: ds) ->
     ownedItems persisted = ownedItems sent /\
     (Forall isStr (d :: ds) -> persisted = sent)) /\
  (sent = Undefined \/ sent = Arr [] ->
     ownedItems persisted = ownedItems stored /\
     (Forall isStr (arrayOrEmpty stored) -> persisted = Arr (arrayOrEmpty stored))).
Proof.
  intros Hm H Hs id sent stored persisted.
  pose proof (Days_daysOwned_stored _ _ _ _ _ Hm H Hs) as Hd.
  fold id sent persisted in Hd. unfold Days.normalizedDaysOwned in Hd. split.
  - intros d ds Hsent. rewrite Hsent in Hd. rewrite Hd, Hsent. split.
    + unfold ownedItems. cbn [arrayOrEmpty]. rewrite map_map. reflexivity.
    + intros Hstr. rewrite (map_String_strings _ Hstr). reflexivity.
  - fold stored in Hd. intros Hsent.
    assert (persisted = Arr (map (fun d => Str (String_ d)) (arrayOrEmpty stored)))
      as Hp.
    { destruct Hsent as [Hsent|Hsent]; rewrite Hsent in Hd; rewrite Hd;
        destruct stored; reflexivity. }
    rewrite Hp. split.
    + unfold ownedItems. cbn [arrayOrEmpty]. rewrite map_map. reflexivity.
    + intros Hstr. rewrite (map_String_strings _ Hstr). reflexivity.
Qed.

(** C10. After a successful write the persisted [daysOwned] is an array
    whose every element is a string, whether it came from the request
    or from the stored record. *)
Theorem persisted_daysOwned_are_strings E req w r w' :
  method req = POST -> Days.tzevaotChat E req w = (r, w') -> status r = 200 ->
  exists ds,
    lookup (lit "daysOwned") (userData w' (requestId req)) = Arr ds /\
    Forall isStr ds.
Proof.
  intros Hm H Hs. rewrite (Days_daysOwned_stored _ _ _ _ _ Hm H Hs).
  eexists. split; [reflexivity|]. unfold Days.normalizedDaysOwned.
  destruct (bodyField req "daysOwned") as [| | | | |[|d ds]|];
    try apply map_String_isStr;
    destruct (lookup (lit "daysOwned") _); try apply map_String_isStr; constructor.
Qed.

(** ** The messages sent to the completion provider *)

Lemma mapOutcome_Forall2 {A B} (f : A -> outcome B) xs ys :
  mapOutcome f xs = Ok ys -> Forall2 (fun x y => f x = Ok y) xs ys.
Proof.
  revert ys. induction xs as [|x xs IH]; simpl; intros ys H.
  - injection H as <-. constructor.
  - destruct (f x) as [y|] eqn:Hx; [|discriminate].
    destruct (mapOutcome f xs) as [ys'|]; [|discriminate].
    injection H as <-. constructor; auto.
Qed.

Lemma messagesForOpenAI_shape sys window message msgs :
  messagesForOpenAI sys window message = Ok msgs ->
  exists mapped,
    msgs = [{| role := lit "system"; content := Str sys |}]
             ++ mapped ++ [{| role := lit "user"; content := message |}] /\
    Forall2 (fun entry m => entryMessage entry = Ok m) window mapped.
Proof.
  unfold messagesForOpenAI.
  destruct (mapOutcome entryMessage window) as [mapped|] eqn:Hm; [|discriminate].
  intros [= <-]. exists mapped. split; [reflexivity|]. apply mapOutcome_Forall2, Hm.
Qed.


(** A [POST] calls the provider at most once, and then with the list
    built from the stored history. *)
Lemma Days_postMessage_calls E req w o w' :
  Days.postMessage E req w = (o, w') ->
  completions w' = completions w \/
  exists msgs,
    messagesForOpenAI (daysPrompt req w)
      (historyForContext (existingHistory (userData w (requestId req))))
      (bodyField req "message") = Ok msgs /\
    completions w' = completions w ++ [msgs].
Proof.
  unfold Days.postMessage, bind, lift, ret, throw. rewrite !read_body.
  destruct (negb _ || _); [intros [= <- <-]; by left|].
  unfold userRef_get. fold (requestId req).
  destruct (getError E (requestId req)); [intros [= <- <-]; by left|].
  fold (userData w (requestId req)).
  destruct (negb (truthy (apiKey E))); [intros [= <- <-]; by left|].
  fold (daysPrompt req w).
  destruct (messagesForOpenAI _ _ _) as [msgs|] eqn:Hmsgs; [|intros [= <- <-]; by left].
  intros H. right. exists msgs. split; [reflexivity|].
  unfold completions_create, userRef_set in H.
  destruct (create E msgs); [|by injection H as <- <-].
  destruct (reply _); [|by injection H as <- <-].
  cbn [tzevaotUsers completions] in H.
  destruct (setError E _ _); by injection H as <- <-.
Qed.

Lemma Plain_postMessage_calls E req w o w' :
  Plain.postMessage E req w = (o, w') ->
  completions w' = completions w \/
  exists msgs,
    messagesForOpenAI (plainPrompt req w)
      (historyForContext (existingHistory (userData w (requestId req))))
      (bodyField req "message") = Ok msgs /\
    completions w' = completions w ++ [msgs].
Proof.
  unfold Plain.postMessage, bind, lift, ret, throw. rewrite !read_body.
  destruct (negb _ || _); [intros [= <- <-]; by left|].
  unfold userRef_get. fold (requestId req).
  destruct (getError E (requestId req)); [intros [= <- <-]; by left|].
  fold (userData w (requestId req)).
  destruct (negb (truthy (apiKey E))); [intros [= <- <-]; by left|].
  fold (plainPrompt req w).
  destruct (messagesForOpenAI _ _ _) as [msgs|] eqn:Hmsgs; [|intros [= <- <-]; by left].
  intros H. right. exists msgs. split; [reflexivity|].
  unfold completions_create, userRef_set in H.
  destruct (create E msgs); [|by injection H as <- <-].
  destruct (reply _); [|by injection H as <- <-].
  cbn [tzevaotUsers completions] in H.
  destruct (setError E _ _); by injection H as <- <-.
Qed.

Lemma tzevaotChat_calls E req w r w' :
  method req = POST ->
  Days.tzevaotChat E req w = (r, w') \/ Plain.tzevaotChat E req w = (r, w') ->
  completions w' = completions w \/
  exists sys msgs,
    messagesForOpenAI sys
      (historyForContext (existingHistory (userData w (requestId req))))
      (bodyField req "message") = Ok msgs /\
    completions w' = completions w ++ [msgs].
Proof.
  unfold Days.tzevaotChat, Plain.tzevaotChat, tryCatch. intros -> [H|H].
  - destruct (Days.postMessage E req w) as [o w0] eqn:Hp.
    assert (w0 = w') as -> by (destruct o; congruence).
    destruct (Days_postMessage_calls _ _ _ _ _ Hp) as [?|(msgs & ? & ?)]; eauto.
  - destruct (Plain.postMessage E req w) as [o w0] eqn:Hp.
    assert (w0 = w') as -> by (destruct o; congruence).
    destruct (Plain_postMessage_calls _ _ _ _ _ Hp) as [?|(msgs & ? & ?)]; eauto.
Qed.

Lemma entryMessage_sentAs entry m : entryMessage entry = Ok m -> sentAs entry m.
Proof.
  unfold entryMessage, read, sentAs.
  destruct (member entry (lit "from")) as [from|]; [|discriminate].
  destruct (member entry (lit "text")) as [text|]; [|discriminate].
  intros [= <-]. exists from, text. cbn [content role].
  split; [reflexivity|]. split; [reflexivity|]. split; [reflexivity|].
  unfold isString. destruct from; try (right; split; [discriminate | reflexivity]).
  destruct (bool_decide_reflect (s = lit "user")) as [->|Hne].
  - left. by split.
  - right. split; [congruence | reflexivity].
Qed.

(** C6. The list sent to the completion provider is one system message,
    then the last ten entries at most of the history stored under the
    request's id, in their stored order, an entry from ["user"] with the
    role [user] and any other (the persona's) with the role [assistant],
    then one [user] message carrying the new message: twelve messages at
    most, never the whole history. A [POST] sends no other list, and a
    successful one sends this one. *)
Theorem provider_receives_bounded_context E req w r w' :
  method req = POST ->
  Days.tzevaotChat E req w = (r, w') \/ Plain.tzevaotChat E req w = (r, w') ->
  (completions w' = completions w \/
   exists msgs, completions w' = completions w ++ [msgs]) /\
  (status r = 200 -> exists msgs, completions w' = completions w ++ [msgs]) /\
  (forall msgs stored,
     completions w' = completions w ++ [msgs] ->
     historyStored w (requestId req) stored ->
     exists sys mapped older window,
       msgs = [{| role := lit "system"; content := Str sys |}]
                ++ mapped
                ++ [{| role := lit "user"; content := bodyField req "message" |}] /\
       stored = older ++ window /\
       length window = Nat.min 10 (length stored) /\
       Forall2 sentAs window mapped /\
       (length msgs <= 12)%nat) /\
  (forall message t,
     sentAs (entryOf "user" message t) {| role := lit "user"; content := message |}) /\
  (forall rep t,
     sentAs (entryOf "tzevaot" (Str rep) t)
       {| role := lit "assistant"; content := Str rep |}).
Proof.
  intros Hm H.
  pose proof (tzevaotChat_calls _ _ _ _ _ Hm H) as Hc.
  split; [|split; [|split; [|split]]].
  - destruct Hc as [?|(sys & msgs & _ & ?)]; eauto.
  - intros Hs.
    destruct (tzevaotChat_exchanged _ _ _ _ _ Hm H Hs) as (msgs & content & rep & X).
    exists msgs. exact (ex_call _ _ _ _ _ _ _ _ X).
  - intros msgs stored Hsent Hst. destruct Hc as [Hc|(sys & msgs0 & Hshape & Hc)].
    + rewrite Hc in Hsent. rewrite <- (app_nil_r (completions w)) in Hsent at 1.
      apply app_inv_head in Hsent. discriminate.
    + rewrite Hc in Hsent. apply app_inv_head in Hsent. injection Hsent as <-.
      rewrite (historyStored_existingHistory _ _ _ Hst) in Hshape.
      apply messagesForOpenAI_shape in Hshape as (mapped & -> & HF).
      unfold historyForContext in HF.
      exists sys, mapped, (take (length stored - 10) stored), (sliceLast 10 stored).
      split; [reflexivity|].
      split; [symmetry; apply sliceLast_suffix|].
      split; [apply sliceLast_length|].
      split.
      * eapply Forall2_impl; [exact HF|]. intros entry m. apply entryMessage_sentAs.
      * apply Forall2_length in HF. rewrite !length_app. cbn [length].
        rewrite <- HF, sliceLast_length. lia.
  - intros message t. exists (Str (lit "user")), message.
    repeat split. left. by split.
  - intros rep t. exists (Str (lit "tzevaot")), (Str rep).
    repeat split. right. split; [|reflexivity].
    intros Heq. vm_compute in Heq. discriminate.
Qed.

(** ** Loading *)

(** C8. A [GET] for an identity under which nothing is stored does not
    fail: it answers 200 with an empty history, [isHolder] false and
    [seenCount] zero (and, where owned days are tracked, none of them),
    and leaves the store as it was. Both variants. *)
Theorem load_of_absent_record_is_default E req w :
  method req = GET ->
  truthy (queryWalletAddress req) = true ->
  let id := normalizedWallet (queryWalletAddress req) in
  getError E id = None ->
  tzevaotUsers w !! id = None ->
  Days.tzevaotChat E req w
    = (respond 200 (Obj [(lit "history", Arr []);
                         (lit "isHolder", Bool false);
                         (lit "seenCount", Num 0);
                         (lit "daysOwned", Arr [])]), w) /\
  Plain.tzevaotChat E req w
    = (respond 200 (Obj [(lit "history", Arr []);
                         (lit "isHolder", Bool false);
                         (lit "seenCount", Num 0)]), w).
Proof.
  intros Hm Ht id Hget Hnone.
  unfold Days.tzevaotChat, Plain.tzevaotChat, tryCatch,
    Days.getHistory, Plain.getHistory, bind, ret, userRef_get.
  rewrite Hm, Ht. cbn [negb]. fold id. rewrite Hget, Hnone. split; reflexivity.
Qed.

(** C5, as the code has it. When the load of a [POST] throws, the request
    goes no further: the [catch] clause answers 500 with the error's
    message, the completion provider is not called, nothing is written,
    and no reply is returned. Both variants. *)
Theorem load_failure_ends_the_request E req w err :
  method req = POST ->
  truthy (bodyField req "walletAddress") = true ->
  truthy (bodyField req "message") = true ->
  getError E (requestId req) = Some err ->
  Days.tzevaotChat E req w = (internalError err, w) /\
  Plain.tzevaotChat E req w = (internalError err, w) /\
  status (internalError err) = 500 /\
  ~ replyReturned (internalError err).
Proof.
  intros Hm Hw Hmsg Hget.
  unfold Days.tzevaotChat, Plain.tzevaotChat, tryCatch,
    Days.postMessage, Plain.postMessage, bind, lift, ret, userRef_get.
  rewrite Hm, !read_body, Hw, Hmsg. cbn [negb orb].
  fold (requestId req). rewrite Hget.
  repeat split. intros [rep Hrep]. cbn in Hrep.
  destruct (decide (lit "reply" = lit "error")) as [Heq|]; [|discriminate].
  vm_compute in Heq. discriminate.
Qed.

(** ** Identity normalisation *)

Lemma normalizedWallet_Str A : normalizedWallet (Str A) = toLowerCase A.
Proof. reflexivity. Qed.

Ltac case_units :=
  repeat (match goal with
          | |- context [(?a <=? ?b)%N] => destruct (N.leb_spec a b); try lia
          | |- context [(?a =? ?b)%N] => destruct (N.eqb_spec a b); try lia
          end; cbn [andb orb negb map]).

Lemma lower_upper_unit c : (c < 128)%N -> map lower_unit (upper_unit c) = [lower_unit c].
Proof.
  intros Hc. unfold upper_unit. case_units; unfold lower_unit; case_units;
    try reflexivity; f_equal; lia.
Qed.

Lemma lower_unit_idempotent c : lower_unit (lower_unit c) = lower_unit c.
Proof.
  unfold lower_unit at 2 3. case_units; unfold lower_unit; case_units; reflexivity.
Qed.

Lemma toLowerCase_toUpperCase A : asciiOnly A -> toLowerCase (toUpperCase A) = toLowerCase A.
Proof.
  unfold toLowerCase, toUpperCase. induction 1 as [|c A Hc _ IH]; [reflexivity|].
  cbn [flat_map map]. rewrite map_app, IH, (lower_upper_unit c Hc). reflexivity.
Qed.

Lemma toLowerCase_idempotent A : toLowerCase (toLowerCase A) = toLowerCase A.
Proof.
  unfold toLowerCase. rewrite map_map. apply map_ext. intros c.
  apply lower_unit_idempotent.
Qed.

(** C9, as the code has it. Normalisation is lower-casing and nothing
    else. On identity strings of ASCII characters, as every hexadecimal
    wallet address is, [normalize A = normalize (upper A)], two strings
    with the same upper-casing have the same key, and normalising twice
    is normalising once. *)
Theorem normalize_ignores_ascii_case A :
  asciiOnly A ->
  normalizedWallet (Str A) = toLowerCase A /\
  normalizedWallet (Str A) = normalizedWallet (Str (toUpperCase A)) /\
  (forall B, asciiOnly B -> toUpperCase A = toUpperCase B ->
     normalizedWallet (Str A) = normalizedWallet (Str B)) /\
  normalizedWallet (Str (normalizedWallet (Str A))) = normalizedWallet (Str A).
Proof.
  intros HA. rewrite !normalizedWallet_Str. repeat split.
  - symmetry. apply toLowerCase_toUpperCase, HA.
  - intros B HB Heq. rewrite !normalizedWallet_Str.
    rewrite <- (toLowerCase_toUpperCase A HA), <- (toLowerCase_toUpperCase B HB).
    rewrite Heq. reflexivity.
  - apply toLowerCase_idempotent.
Qed.

(** ** Runs on concrete inputs *)

Import Scenario.

Lemma ascii_0xABC : asciiOnly (lit "0xABC").
Proof. unfold asciiOnly. repeat constructor. Qed.

(** The twenty-first and twenty-second entries push out the oldest two. *)
Lemma history_length_after_exchange_run :
  let r := fst (Days.tzevaotChat E0 postHello seasoned) in
  let w' := snd (Days.tzevaotChat E0 postHello seasoned) in
  exists h,
    lookup (lit "history") (userData w' (requestId postHello)) = Arr h /\
    member (json r) (lit "history") = Some (Arr h) /\
    (forall prior,
       lookup (lit "history") (userData seasoned (requestId postHello)) = Arr prior ->
       length h = Nat.min 20 (length prior + 2)) /\
    ((forall prior,
        lookup (lit "history") (userData seasoned (requestId postHello)) <> Arr prior) ->
     length h = 2%nat) /\
    (length h <= 20)%nat.
Proof.
  apply (history_length_after_exchange E0 postHello seasoned).
  - reflexivity.
  - left. apply surjective_pairing.
  - vm_compute. reflexivity.
Defined.

Lemma history_eviction_is_fifo_run :
  let r := fst (Plain.tzevaotChat E0 postHello seasoned) in
  let w' := snd (Plain.tzevaotChat E0 postHello seasoned) in
  let prior := existingHistory (userData seasoned (requestId postHello)) in
  exists h rep,
    lookup (lit "history") (userData w' (requestId postHello)) = Arr h /\
    member (json r) (lit "reply") = Some (Str rep) /\
    let appended := [userEntry (bodyField postHello "message") (now E0);
                     tzevaotEntry rep (now E0)] in
    (exists dropped,
        prior ++ appended = dropped ++ h /\
        length dropped = (length prior + 2 - 20)%nat) /\
    (exists dropped kept,
        prior = dropped ++ kept /\ h = kept ++ appended).
Proof.
  apply (history_eviction_is_fifo E0 postHello seasoned).
  - reflexivity.
  - right. apply surjective_pairing.
  - vm_compute. reflexivity.
Defined.

Lemma seenCount_increases_by_one_run :
  lookup (lit "seenCount")
    (userData (snd (Days.tzevaotChat E0 postHello seasoned)) (requestId postHello))
  = Num (countOf (lookup (lit "seenCount") (userData seasoned (requestId postHello))) + 1).
Proof.
  apply (seenCount_increases_by_one E0 postHello seasoned
           (fst (Days.tzevaotChat E0 postHello seasoned))).
  - reflexivity.
  - left. apply surjective_pairing.
  - vm_compute. reflexivity.
Defined.

Lemma empty_completion_yields_fallback_run :
  let r := fst (Days.tzevaotChat Esilent postHello fresh) in
  let w' := snd (Days.tzevaotChat Esilent postHello fresh) in
  exists msgs content rep h,
    completions w' = completions fresh ++ [msgs] /\
    create Esilent msgs = Ok content /\
    member (json r) (lit "reply") = Some (Str rep) /\
    lookup (lit "lastReply") (userData w' (requestId postHello)) = Str rep /\
    lookup (lit "history") (userData w' (requestId postHello)) = Arr h /\
    last h = Some (Obj [(lit "from", Str (lit "tzevaot"));
                        (lit "text", Str rep);
                        (lit "ts", Num (now Esilent))]) /\
    rep <> [] /\
    (emptyContent content -> rep = fallbackReply).
Proof.
  apply (empty_completion_yields_fallback Esilent postHello fresh).
  - reflexivity.
  - left. apply surjective_pairing.
  - vm_compute. reflexivity.
Defined.

(** The second request of the scenario: no [daysOwned], after a first one
    that supplied three. *)
Lemma ownedItems_replaced_or_kept_run :
  let w1 := snd (Days.tzevaotChat E0 postDays fresh) in
  let w2 := snd (Days.tzevaotChat E0 postHello w1) in
  let sent := bodyField postHello "daysOwned" in
  let stored := lookup (lit "daysOwned") (userData w1 (requestId postHello)) in
  let persisted := lookup (lit "daysOwned") (userData w2 (requestId postHello)) in
  (forall d ds, sent = Arr (d :: ds) ->
     ownedItems persisted = ownedItems sent /\
     (Forall isStr (d :: ds) -> persisted = sent)) /\
  (sent = Undefined \/ sent = Arr [] ->
     ownedItems persisted = ownedItems stored /\
     (Forall isStr (arrayOrEmpty stored) -> persisted = Arr (arrayOrEmpty stored))).
Proof.
  apply (ownedItems_replaced_or_kept E0 postHello
           (snd (Days.tzevaotChat E0 postDays fresh))
           (fst (Days.tzevaotChat E0 postHello (snd (Days.tzevaotChat E0 postDays fresh))))).
  - reflexivity.
  - apply surjective_pairing.
  - vm_compute. reflexivity.
Defined.

Lemma persisted_daysOwned_are_strings_run :
  exists ds,
    lookup (lit "daysOwned")
      (userData (snd (Days.tzevaotChat E0 postNumbers fresh)) (requestId postNumbers))
    = Arr ds /\
    Forall isStr ds.
Proof.
  apply (persisted_daysOwned_are_strings E0 postNumbers fresh
           (fst (Days.tzevaotChat E0 postNumbers fresh))).
  - reflexivity.
  - apply surjective_pairing.
  - vm_compute. reflexivity.
Defined.

Lemma load_of_absent_record_is_default_run :
  Days.tzevaotChat E0 getAbc fresh
    = (respond 200 (Obj [(lit "history", Arr []);
                         (lit "isHolder", Bool false);
                         (lit "seenCount", Num 0);
                         (lit "daysOwned", Arr [])]), fresh) /\
  Plain.tzevaotChat E0 getAbc fresh
    = (respond 200 (Obj [(lit "history", Arr []);
                         (lit "isHolder", Bool false);
                         (lit "seenCount", Num 0)]), fresh).
Proof.
  apply (load_of_absent_record_is_default E0 getAbc fresh); reflexivity.
Defined.

Lemma load_failure_ends_the_request_run :
  let err := Error_ "14 UNAVAILABLE: No connection established" in
  Days.tzevaotChat Edown postHello fresh = (internalError err, fresh) /\
  Plain.tzevaotChat Edown postHello fresh = (internalError err, fresh) /\
  status (internalError err) = 500 /\
  ~ replyReturned (internalError err).
Proof.
  apply (load_failure_ends_the_request Edown postHello fresh); reflexivity.
Defined.

(** C5, as stated, fails: with a store whose reads throw, a complete
    [POST] is answered 500 without a reply, and the provider is never
    called. *)
Lemma load_failure_returns_no_reply :
  method postHello = POST /\
  truthy (bodyField postHello "walletAddress") = true /\
  truthy (bodyField postHello "message") = true /\
  getError Edown (requestId postHello) <> None /\
  status (fst (Days.tzevaotChat Edown postHello fresh)) = 500 /\
  ~ replyReturned (fst (Days.tzevaotChat Edown postHello fresh)) /\
  completions (snd (Days.tzevaotChat Edown postHello fresh)) = [] /\
  tzevaotUsers (snd (Days.tzevaotChat Edown postHello fresh)) = tzevaotUsers fresh.
Proof.
  repeat split; try reflexivity; try discriminate.
  intros [rep Hrep]. vm_compute in Hrep. discriminate.
Qed.

Lemma provider_receives_bounded_context_run :
  let r := fst (Days.tzevaotChat E0 postHello seasoned) in
  let w' := snd (Days.tzevaotChat E0 postHello seasoned) in
  (completions w' = completions seasoned \/
   exists msgs, completions w' = completions seasoned ++ [msgs]) /\
  (status r = 200 -> exists msgs, completions w' = completions seasoned ++ [msgs]) /\
  (forall msgs stored,
     completions w' = completions seasoned ++ [msgs] ->
     historyStored seasoned (requestId postHello) stored ->
     exists sys mapped older window,
       msgs = [{| role := lit "system"; content := Str sys |}]
                ++ mapped
                ++ [{| role := lit "user"; content := bodyField postHello "message" |}] /\
       stored = older ++ window /\
       length window = Nat.min 10 (length stored) /\
       Forall2 sentAs window mapped /\
       (length msgs <= 12)%nat) /\
  (forall message t,
     sentAs (entryOf "user" message t) {| role := lit "user"; content := message |}) /\
  (forall rep t,
     sentAs (entryOf "tzevaot" (Str rep) t)
       {| role := lit "assistant"; content := Str rep |}).
Proof.
  apply (provider_receives_bounded_context E0 postHello seasoned).
  - reflexivity.
  - left. apply surjective_pairing.
Defined.

Lemma normalize_ignores_ascii_case_run :
  normalizedWallet (Str (lit "0xABC")) = toLowerCase (lit "0xABC") /\
  normalizedWallet (Str (lit "0xABC"))
    = normalizedWallet (Str (toUpperCase (lit "0xABC"))) /\
  (forall B, asciiOnly B -> toUpperCase (lit "0xABC") = toUpperCase B ->
     normalizedWallet (Str (lit "0xABC")) = normalizedWallet (Str B)) /\
  normalizedWallet (Str (normalizedWallet (Str (lit "0xABC"))))
    = normalizedWallet (Str (lit "0xABC")).
Proof.
  apply (normalize_ignores_ascii_case (lit "0xABC")). exact ascii_0xABC.
Defined.

(** C9, as stated, fails outside ASCII: upper-casing the sharp s gives
    [SS], which lower-cases to [ss]. *)
Lemma normalize_sharp_s_differs :
  normalizedWallet (Str sharpS) = sharpS /\
  toUpperCase sharpS = lit "SS" /\
  normalizedWallet (Str (toUpperCase sharpS)) = lit "ss" /\
  normalizedWallet (Str sharpS) <> normalizedWallet (Str (toUpperCase sharpS)).
Proof. repeat split. discriminate. Qed.

(** Numbers in the payload are persisted as their decimal strings. *)
Example postNumbers_daysOwned :
  lookup (lit "daysOwned")
    (userData (snd (Days.tzevaotChat E0 postNumbers fresh)) (requestId postNumbers))
  = Arr [Str (lit "100"); Str (lit "500"); Str (lit "2000")].
Proof. vm_compute. reflexivity. Qed.

(** The first scenario of the specification: a [POST] on a fresh identity,
    then a [GET] under another casing of it. *)
Example post_then_get :
  let w1 := snd (Days.tzevaotChat E0 postHello fresh) in
  fst (Days.tzevaotChat E0 getAbc w1)
  = respond 200
      (Obj [(lit "history",
             Arr [userEntry (Str (lit "Hello")) (now E0);
                  tzevaotEntry (lit "Welcome, seeker.") (now E0)]);
            (lit "isHolder", Bool true);
            (lit "seenCount", Num 1);
            (lit "daysOwned", Arr [])]).
Proof. vm_compute. reflexivity. Qed.

(** ** What a request may change *)

Lemma Days_postMessage_store E req w o w' :
  Days.postMessage E req w = (o, w') ->
  tzevaotUsers w' = tzevaotUsers w \/ exists r, o = Ok r /\ status r = 200.
Proof.
  unfold Days.postMessage, bind, lift, ret, throw. rewrite !read_body.
  destruct (negb _ || _); [intros [= <- <-]; by left|].
  unfold userRef_get. fold (requestId req).
  destruct (getError E (requestId req)); [intros [= <- <-]; by left|].
  destruct (negb (truthy (apiKey E))); [intros [= <- <-]; by left|].
  destruct (messagesForOpenAI _ _ _) as [msgs|]; [|intros [= <- <-]; by left].
  unfold completions_create, userRef_set.
  destruct (create E msgs); [|intros [= <- <-]; by left].
  destruct (reply _); [|intros [= <- <-]; by left].
  cbn [tzevaotUsers completions].
  destruct (setError E _ _); intros [= <- <-]; [by left|].
  right. eexists. split; reflexivity.
Qed.

Lemma Plain_postMessage_store E req w o w' :
  Plain.postMessage E req w = (o, w') ->
  tzevaotUsers w' = tzevaotUsers w \/ exists r, o = Ok r /\ status r = 200.
Proof.
  unfold Plain.postMessage, bind, lift, ret, throw. rewrite !read_body.
  destruct (negb _ || _); [intros [= <- <-]; by left|].
  unfold userRef_get. fold (requestId req).
  destruct (getError E (requestId req)); [intros [= <- <-]; by left|].
  destruct (negb (truthy (apiKey E))); [intros [= <- <-]; by left|].
  destruct (messagesForOpenAI _ _ _) as [msgs|]; [|intros [= <- <-]; by left].
  unfold completions_create, userRef_set.
  destruct (create E msgs); [|intros [= <- <-]; by left].
  destruct (reply _); [|intros [= <- <-]; by left].
  cbn [tzevaotUsers completions].
  destruct (setError E _ _); intros [= <- <-]; [by left|].
  right. eexists. split; reflexivity.
Qed.

Lemma Days_getHistory_world E req w o w' :
  Days.getHistory E req w = (o, w') -> w' = w.
Proof.
  unfold Days.getHistory, bind, ret, userRef_get.
  destruct (negb _); [by intros [= <- <-]|].
  destruct (getError E _); [by intros [= <- <-]|].
  destruct (tzevaotUsers w !! _); by intros [= <- <-].
Qed.

Lemma Plain_getHistory_world E req w o w' :
  Plain.getHistory E req w = (o, w') -> w' = w.
Proof.
  unfold Plain.getHistory, bind, ret, userRef_get.
  destruct (negb _); [by intros [= <- <-]|].
  destruct (getError E _); [by intros [= <- <-]|].
  destruct (tzevaotUsers w !! _); by intros [= <- <-].
Qed.

(** Whatever the method: the store is as it was, or a [POST] was answered
    with status 200. *)
Lemma tzevaotChat_store E req w r w' :
  Days.tzevaotChat E req w = (r, w') \/ Plain.tzevaotChat E req w = (r, w') ->
  tzevaotUsers w' = tzevaotUsers w \/ (method req = POST /\ status r = 200).
Proof.
  unfold Days.tzevaotChat, Plain.tzevaotChat, tryCatch.
  destruct (method req) eqn:Hm.
  - intros [[= <- <-]|[= <- <-]]; by left.
  - intros [H|H].
    + destruct (Days.getHistory E req w) as [o w0] eqn:Hg.
      apply Days_getHistory_world in Hg as ->. left. destruct o; by simplify_eq.
    + destruct (Plain.getHistory E req w) as [o w0] eqn:Hg.
      apply Plain_getHistory_world in Hg as ->. left. destruct o; by simplify_eq.
  - intros [H|H].
    + destruct (Days.postMessage E req w) as [o w0] eqn:Hp.
      destruct (Days_postMessage_store _ _ _ _ _ Hp) as [Hs|(r0 & -> & Hs)].
      * left. destruct o; by simplify_eq.
      * right. by simplify_eq.
    + destruct (Plain.postMessage E req w) as [o w0] eqn:Hp.
      destruct (Plain_postMessage_store _ _ _ _ _ Hp) as [Hs|(r0 & -> & Hs)].
      * left. destruct o; by simplify_eq.
      * right. by simplify_eq.
  - intros [[= <- <-]|[= <- <-]]; by left.
Qed.

(** A request lacking what its method requires is answered 400 before
    anything is read, asked or written: a [GET] without a truthy
    [walletAddress] query, a [POST] without a truthy [walletAddress] and
    a truthy [message]. Both variants, whatever the state of the store
    and of the provider. *)
Theorem incomplete_request_is_refused E req w :
  (method req = GET /\ truthy (queryWalletAddress req) = false) \/
  (method req = POST /\
   (truthy (bodyField req "walletAddress") = false \/
    truthy (bodyField req "message") = false)) ->
  let text := match method req with
              | GET => missingQueryWallet
              | _ => missingWalletOrMessage
              end in
  Days.tzevaotChat E req w = (respond 400 (errorBody text), w) /\
  Plain.tzevaotChat E req w = (respond 400 (errorBody text), w).
Proof.
  unfold Days.tzevaotChat, Plain.tzevaotChat, tryCatch.
  intros [[-> Hq]|[-> Hb]]; cbn zeta.
  - unfold Days.getHistory, Plain.getHistory, ret. rewrite Hq. by split.
  - unfold Days.postMessage, Plain.postMessage, bind, lift, ret. rewrite !read_body.
    assert (negb (truthy (bodyField req "walletAddress"))
            || negb (truthy (bodyField req "message")) = true) as ->.
    { destruct Hb as [-> | ->]; [reflexivity | apply orb_true_r]. }
    by split.
Qed.

(** Only a [POST] can change anything: under any other method the store
    and the log of provider calls are left as they were; a preflight is
    answered 204 with no body and an unsupported method 405. *)
Theorem only_post_changes_the_world E req w :
  method req <> POST ->
  snd (Days.tzevaotChat E req w) = w /\
  snd (Plain.tzevaotChat E req w) = w /\
  (method req = OPTIONS ->
     fst (Days.tzevaotChat E req w) = respond 204 Undefined /\
     fst (Plain.tzevaotChat E req w) = respond 204 Undefined) /\
  (forall name, method req = otherMethod name ->
     status (fst (Days.tzevaotChat E req w)) = 405 /\
     status (fst (Plain.tzevaotChat E req w)) = 405).
Proof.
  intros Hm. unfold Days.tzevaotChat, Plain.tzevaotChat, tryCatch.
  destruct (method req) eqn:Hmeth; try contradiction; cbn [fst snd];
    repeat split; try discriminate.
  - destruct (Days.getHistory E req w) as [o w0] eqn:Hg.
    apply Days_getHistory_world in Hg as ->. by destruct o.
  - destruct (Plain.getHistory E req w) as [o w0] eqn:Hg.
    apply Plain_getHistory_world in Hg as ->. by destruct o.
Qed.

(** A request that is not answered with status 200 leaves the store as it
    was: no failure, at whatever step, writes part of an exchange. *)
Theorem failed_request_writes_nothing E req w r w' :
  Days.tzevaotChat E req w = (r, w') \/ Plain.tzevaotChat E req w = (r, w') ->
  status r <> 200 ->
  tzevaotUsers w' = tzevaotUsers w.
Proof.
  intros H Hs. destruct (tzevaotChat_store _ _ _ _ _ H) as [?|[_ ?]]; [assumption|].
  contradiction.
Qed.

Lemma posted_other_documents E req w sys data msgs content rep r w' id :
  posted E req w sys data msgs content rep r w' ->
  id <> requestId req ->
  tzevaotUsers w' !! id = tzevaotUsers w !! id.
Proof.
  intros (_ & _ & _ & _ & _ & _ & _ & _ & _ & ->) Hne. cbn [tzevaotUsers].
  apply lookup_insert_ne. congruence.
Qed.

Lemma tzevaotChat_other_documents E req w r w' id :
  Days.tzevaotChat E req w = (r, w') \/ Plain.tzevaotChat E req w = (r, w') ->
  id <> requestId req ->
  tzevaotUsers w' !! id = tzevaotUsers w !! id.
Proof.
  intros H Hne. destruct (tzevaotChat_store _ _ _ _ _ H) as [->|[Hm Hs]]; [reflexivity|].
  destruct H as [H|H].
  - destruct (Days_tzevaotChat_200 _ _ _ _ _ Hm H Hs) as (msgs & content & rep & Hp).
    eapply posted_other_documents; eassumption.
  - destruct (Plain_tzevaotChat_200 _ _ _ _ _ Hm H Hs) as (msgs & content & rep & Hp).
    eapply posted_other_documents; eassumption.
Qed.

(** A request touches no document but the one its wallet address names:
    every other document is after the request what it was before, and a
    successful [POST] leaves a document under its own id. *)
Theorem request_touches_one_document E req w r w' :
  Days.tzevaotChat E req w = (r, w') \/ Plain.tzevaotChat E req w = (r, w') ->
  (forall id, id <> requestId req ->
     tzevaotUsers w' !! id = tzevaotUsers w !! id) /\
  (method req = POST -> status r = 200 ->
     is_Some (tzevaotUsers w' !! requestId req)).
Proof.
  intros H. split.
  - intros id Hne. eapply tzevaotChat_other_documents; eassumption.
  - intros Hm Hs. destruct H as [H|H].
    + destruct (Days_tzevaotChat_200 _ _ _ _ _ Hm H Hs) as (msgs & content & rep & Hp).
      destruct (posted_stored _ _ _ _ _ _ _ _ _ _ Hp) as (Hdoc & _). by eexists.
    + destruct (Plain_tzevaotChat_200 _ _ _ _ _ Hm H Hs) as (msgs & content & rep & Hp).
      destruct (posted_stored _ _ _ _ _ _ _ _ _ _ Hp) as (Hdoc & _). by eexists.
Qed.

(** ** What a write leaves alone, and what it overwrites *)

Lemma mergeField_untouched t d k k' fv :
  k <> k' -> lookup k (fields (mergeField t d (k', fv))) = lookup k (fields d).
Proof.
  intros Hne. destruct fv; cbn [mergeField fields].
  - apply lookup_assign_ne, Hne.
  - apply lookup_remove_ne, Hne.
  - apply lookup_assign_ne, Hne.
Qed.

Lemma mergeSet_untouched t old data k :
  k ∉ map fst data ->
  lookup k (fields (mergeSet t old data)) = lookup k (fields (default emptyDocument old)).
Proof.
  unfold mergeSet. generalize (default emptyDocument old) as d.
  induction data as [|[k' fv] data IH]; intros d Hk; [reflexivity|].
  cbn [map fst] in Hk. apply not_elem_of_cons in Hk as [Hne Hk].
  cbn [fold_left]. rewrite (IH _ Hk). apply mergeField_untouched, Hne.
Qed.

Lemma stamp_remove_ne k k' st : k <> k' -> stamp k (remove k' st) = stamp k st.
Proof.
  intros Hne. induction st as [|[k0 t0] st IH]; simpl; [reflexivity|].
  destruct (decide (k' = k0)) as [->|]; simpl.
  - rewrite IH. destruct (decide (k = k0)); [contradiction | reflexivity].
  - rewrite IH. reflexivity.
Qed.

Lemma stamp_assign_eq k t st : stamp k (assign k t st) = Some t.
Proof.
  induction st as [|[k0 t0] st IH]; simpl.
  - destruct (decide (k = k)); [reflexivity | contradiction].
  - destruct (decide (k = k0)) as [->|Hne]; simpl.
    + destruct (decide (k0 = k0)); [reflexivity | contradiction].
    + destruct (decide (k = k0)); [contradiction | exact IH].
Qed.

Ltac stamp_simpl :=
  repeat first
    [ rewrite stamp_assign_eq
    | rewrite stamp_remove_ne by lit_ne ].

Lemma Days_writesProfile req w : writesProfile req (daysData req w).
Proof.
  intros t old rep th. cbn zeta. repeat split.
  - apply Days_setData_fields.
  - unfold mergeSet, daysData, Days.setData. cbn [fold_left mergeField fields stamps].
    lookup_simpl. reflexivity.
  - unfold mergeSet, daysData, Days.setData. cbn [fold_left mergeField fields stamps].
    stamp_simpl. reflexivity.
  - intros k Hk. apply mergeSet_untouched. exact Hk.
Qed.

Lemma Plain_writesProfile req : writesProfile req (plainData req).
Proof.
  intros t old rep th. cbn zeta. repeat split.
  - apply Plain_setData_fields.
  - unfold mergeSet, plainData, Plain.setData. cbn [fold_left mergeField fields stamps].
    lookup_simpl. reflexivity.
  - unfold mergeSet, plainData, Plain.setData. cbn [fold_left mergeField fields stamps].
    stamp_simpl. reflexivity.
  - intros k Hk. apply mergeSet_untouched.
    intros Hin. apply Hk. unfold written.
    cbn [map fst plainData Plain.setData] in Hin.
    repeat (apply elem_of_cons in Hin as [->|Hin]; [set_solver|]).
    by apply elem_of_nil in Hin.
Qed.

(** The document a successful [POST] leaves, whichever the variant. *)
Lemma tzevaotChat_posted_document E req w r w' :
  method req = POST ->
  Days.tzevaotChat E req w = (r, w') \/ Plain.tzevaotChat E req w = (r, w') ->
  status r = 200 ->
  exists data rep th,
    writesProfile req data /\
    tzevaotUsers w' !! requestId req
      = Some (mergeSet (serverTime E) (tzevaotUsers w !! requestId req) (data rep th)).
Proof.
  intros Hm [H|H] Hs.
  - destruct (Days_tzevaotChat_200 _ _ _ _ _ Hm H Hs) as (msgs & content & rep & Hp).
    destruct (posted_stored _ _ _ _ _ _ _ _ _ _ Hp) as (Hdoc & _).
    eexists _, _, _. split; [apply (Days_writesProfile req w) | exact Hdoc].
  - destruct (Plain_tzevaotChat_200 _ _ _ _ _ Hm H Hs) as (msgs & content & rep & Hp).
    destruct (posted_stored _ _ _ _ _ _ _ _ _ _ Hp) as (Hdoc & _).
    eexists _, _, _. split; [apply (Plain_writesProfile req) | exact Hdoc].
Qed.

(** A successful write merges: every field it does not name, [notes] and
    [mintCount] among them, is after the write what it was before. *)
Theorem write_keeps_unnamed_fields E req w r w' :
  method req = POST ->
  Days.tzevaotChat E req w = (r, w') \/ Plain.tzevaotChat E req w = (r, w') ->
  status r = 200 ->
  let id := requestId req in
  (forall k, k ∉ written -> lookup k (userData w' id) = lookup k (userData w id)) /\
  lookup (lit "notes") (userData w' id) = lookup (lit "notes") (userData w id) /\
  lookup (lit "mintCount") (userData w' id) = lookup (lit "mintCount") (userData w id).
Proof.
  intros Hm H Hs id. subst id.
  destruct (tzevaotChat_posted_document _ _ _ _ _ Hm H Hs)
    as (data & rep & th & Hdata & Hdoc).
  destruct (Hdata (serverTime E) (tzevaotUsers w !! requestId req) rep th)
    as (_ & _ & _ & Hkeep).
  rewrite userData_default in Hkeep.
  assert (forall k, k ∉ written ->
            lookup k (userData w' (requestId req)) = lookup k (userData w (requestId req)))
    as Hall.
  { intros k Hk. unfold userData at 1. rewrite Hdoc. apply Hkeep, Hk. }
  split; [exact Hall|].
  split; apply Hall; unfold written; intros Hin;
    repeat (apply elem_of_cons in Hin as [Heq|Hin];
            [vm_compute in Heq; discriminate|]);
    by apply elem_of_nil in Hin.
Qed.

(** The profile fields are last-write-wins: a successful write stores
    [isHolder] as the boolean [!!isHolder] of the request (so [false]
    when the request has none, whatever was stored), the request's
    message as [lastMessage] when it is a string, and the server's time
    as [lastSeen]. *)
Theorem write_overwrites_profile E req w r w' :
  method req = POST ->
  Days.tzevaotChat E req w = (r, w') \/ Plain.tzevaotChat E req w = (r, w') ->
  status r = 200 ->
  let id := requestId req in
  lookup (lit "isHolder") (userData w' id) = Bool (truthy (bodyField req "isHolder")) /\
  (bodyField req "isHolder" = Undefined ->
     lookup (lit "isHolder") (userData w' id) = Bool false) /\
  (forall s, bodyField req "message" = Str s ->
     lookup (lit "lastMessage") (userData w' id) = Str s) /\
  (exists doc,
     tzevaotUsers w' !! id = Some doc /\
     stamp (lit "lastSeen") (stamps doc) = Some (serverTime E)).
Proof.
  intros Hm H Hs id. subst id.
  destruct (tzevaotChat_posted_document _ _ _ _ _ Hm H Hs)
    as (data & rep & th & Hdata & Hdoc).
  destruct (Hdata (serverTime E) (tzevaotUsers w !! requestId req) rep th)
    as (Hh & Hl & Hst & _).
  unfold userData. rewrite Hdoc. repeat split.
  - exact Hh.
  - intros Hu. rewrite Hh, Hu. reflexivity.
  - intros s Hmsg. rewrite Hl, Hmsg. reflexivity.
  - eexists. split; [reflexivity | exact Hst].
Qed.

(** Owned days are never cleared: once the stored [daysOwned] is a
    non-empty array, every successful write of the tracking variant
    persists a non-empty array again, whatever the request carries. *)
Theorem daysOwned_are_never_cleared E req w r w' d ds :
  method req = POST -> Days.tzevaotChat E req w = (r, w') -> status r = 200 ->
  lookup (lit "daysOwned") (userData w (requestId req)) = Arr (d :: ds) ->
  exists d' ds',
    lookup (lit "daysOwned") (userData w' (requestId req)) = Arr (d' :: ds').
Proof.
  intros Hm H Hs Hst. rewrite (Days_daysOwned_stored _ _ _ _ _ Hm H Hs).
  unfold Days.normalizedDaysOwned. rewrite Hst.
  destruct (bodyField req "daysOwned") as [| | | | |[|x xs]|];
    cbn [map]; eexists _, _; reflexivity.
Qed.

(** ** Failures of a complete request *)

Lemma Days_postMessage_afterKey E req w :
  truthy (bodyField req "walletAddress") = true ->
  truthy (bodyField req "message") = true ->
  getError E (requestId req) = None ->
  truthy (apiKey E) = true ->
  Days.postMessage E req w = afterKey E req w (daysPrompt req w) (daysData req w).
Proof.
  intros Hw Hmsg Hget Hkey.
  unfold Days.postMessage, afterKey, bind, lift, ret, throw,
    userRef_get, completions_create, userRef_set.
  rewrite !read_body, Hw, Hmsg. cbn [negb orb]. fold (requestId req).
  rewrite Hget. fold (userData w (requestId req)). rewrite Hkey. cbn [negb].
  fold (daysPrompt req w).
  destruct (messagesForOpenAI _ _ _) as [msgs|]; [|reflexivity].
  destruct (create E msgs) as [content|]; [|reflexivity].
  destruct (reply content) as [rep|]; [|reflexivity].
  cbn [tzevaotUsers completions]. unfold daysData.
  destruct (setError E _ _); reflexivity.
Qed.

Lemma Plain_postMessage_afterKey E req w :
  truthy (bodyField req "walletAddress") = true ->
  truthy (bodyField req "message") = true ->
  getError E (requestId req) = None ->
  truthy (apiKey E) = true ->
  Plain.postMessage E req w = afterKey E req w (plainPrompt req w) (plainData req).
Proof.
  intros Hw Hmsg Hget Hkey.
  unfold Plain.postMessage, afterKey, bind, lift, ret, throw,
    userRef_get, completions_create, userRef_set.
  rewrite !read_body, Hw, Hmsg. cbn [negb orb]. fold (requestId req).
  rewrite Hget. fold (userData w (requestId req)). rewrite Hkey. cbn [negb].
  fold (plainPrompt req w).
  destruct (messagesForOpenAI _ _ _) as [msgs|]; [|reflexivity].
  destruct (create E msgs) as [content|]; [|reflexivity].
  destruct (reply content) as [rep|]; [|reflexivity].
  cbn [tzevaotUsers completions]. unfold plainData.
  destruct (setError E _ _); reflexivity.
Qed.

(** ** The throws of [String] *)

Lemma printable_Arr ds : printable (Arr ds) = forallb printable ds.
Proof. induction ds as [|d ds IH]; [reflexivity|]. cbn in *. by rewrite IH. Qed.

Lemma Strict_strings ds :
  printable (Arr ds) = true ->
  Strict.strings ds = Ok (map (fun d => Str (String_ d)) ds).
Proof.
  rewrite printable_Arr. unfold Strict.strings.
  induction ds as [|d ds IH]; [reflexivity|].
  cbn [forallb mapOutcome map]. intros [Hd Hds]%andb_prop.
  unfold Strict.toString at 1. rewrite Hd, (IH Hds). reflexivity.
Qed.

Lemma Strict_strings_throw ds :
  printable (Arr ds) = false -> Strict.strings ds = Throw Strict.cannotConvert.
Proof.
  rewrite printable_Arr. unfold Strict.strings.
  induction ds as [|d ds IH]; [discriminate|].
  cbn [forallb mapOutcome]. unfold Strict.toString at 1.
  destruct (printable d); [|reflexivity]. cbn [andb]. intros H.
  by rewrite (IH H).
Qed.

Lemma Strict_normalizedDaysOwned daysOwned ud :
  elementsPrintable daysOwned = true ->
  elementsPrintable (lookup (lit "daysOwned") ud) = true ->
  Strict.normalizedDaysOwned daysOwned ud = Ok (Days.normalizedDaysOwned daysOwned ud).
Proof.
  intros Hd Hs. unfold Strict.normalizedDaysOwned, Days.normalizedDaysOwned.
  assert (match lookup (lit "daysOwned") ud with
          | Arr ds => Strict.strings ds
          | _ => Ok []
          end
          = Ok match lookup (lit "daysOwned") ud with
               | Arr ds => map (fun d => Str (String_ d)) ds
               | _ => []
               end) as Hstored.
  { destruct (lookup (lit "daysOwned") ud); try reflexivity. by apply Strict_strings. }
  destruct daysOwned as [| | | | |[|d ds]|]; try exact Hstored.
  by apply Strict_strings.
Qed.

Lemma printable_or v d : printable v = true -> printable d = true -> printable (or v d) = true.
Proof. intros Hv Hd. unfold or. by destruct (truthy v). Qed.

(** Where every value the handler turns into text has one, the handler
    with the throws is the handler without them. *)
Lemma Strict_daysPostMessage E req w :
  printsAll req w -> Strict.daysPostMessage E req w = Days.postMessage E req w.
Proof.
  intros (Hwa & Hd & Hsd & Hmc & Hsc & Hn).
  unfold Strict.daysPostMessage, Days.postMessage, bind, lift.
  rewrite !read_body.
  destruct (negb (truthy (bodyField req "walletAddress"))
            || negb (truthy (bodyField req "message"))); [reflexivity|].
  unfold Strict.normalizedWallet, Strict.toString. rewrite Hwa.
  fold (normalizedWallet (bodyField req "walletAddress")). fold (requestId req).
  unfold userRef_get. destruct (getError E (requestId req)); [reflexivity|].
  fold (userData w (requestId req)).
  rewrite (Strict_normalizedDaysOwned _ _ Hd Hsd).
  unfold Strict.interpolated. cbn [forallb].
  rewrite Hwa, (printable_or _ (Num 0) Hmc eq_refl), (printable_or _ (Num 0) Hsc eq_refl).
  rewrite (printable_or (or _ (Str [])) (Str (lit "None recorded yet."))
             (printable_or _ (Str []) Hn eq_refl) eq_refl).
  reflexivity.
Qed.

Lemma Strict_plainPostMessage E req w :
  printsAll req w -> Strict.plainPostMessage E req w = Plain.postMessage E req w.
Proof.
  intros (Hwa & Hd & Hsd & Hmc & Hsc & Hn).
  unfold Strict.plainPostMessage, Plain.postMessage, bind, lift.
  rewrite !read_body.
  destruct (negb (truthy (bodyField req "walletAddress"))
            || negb (truthy (bodyField req "message"))); [reflexivity|].
  unfold Strict.normalizedWallet, Strict.toString. rewrite Hwa.
  fold (normalizedWallet (bodyField req "walletAddress")). fold (requestId req).
  unfold userRef_get. destruct (getError E (requestId req)); [reflexivity|].
  fold (userData w (requestId req)).
  unfold Strict.interpolated. cbn [forallb].
  rewrite Hwa, (printable_or _ (Num 0) Hmc eq_refl), (printable_or _ (Num 0) Hsc eq_refl).
  rewrite (printable_or (or _ (Str [])) (Str (lit "None recorded yet."))
             (printable_or _ (Str []) Hn eq_refl) eq_refl).
  reflexivity.
Qed.

Lemma Strict_tzevaotChat_POST E req w :
  method req = POST -> printsAll req w ->
  Strict.daysTzevaotChat E req w = Days.tzevaotChat E req w /\
  Strict.plainTzevaotChat E req w = Plain.tzevaotChat E req w.
Proof.
  intros Hm Hp.
  unfold Strict.daysTzevaotChat, Strict.plainTzevaotChat,
    Days.tzevaotChat, Plain.tzevaotChat, tryCatch.
  rewrite Hm, (Strict_daysPostMessage E req w Hp), (Strict_plainPostMessage E req w Hp).
  by split.
Qed.

(** The handlers that take the text of every value, without a key. *)
Lemma missing_key_without_throws E req w :
  method req = POST ->
  truthy (bodyField req "walletAddress") = true ->
  truthy (bodyField req "message") = true ->
  getError E (requestId req) = None ->
  truthy (apiKey E) = false ->
  let answer :=
    respond 500
      (errorBody (lit "OPENAI_API_KEY is not set in Secret Manager or environment.")) in
  Days.tzevaotChat E req w = (answer, w) /\
  Plain.tzevaotChat E req w = (answer, w).
Proof.
  intros Hm Hw Hmsg Hget Hkey.
  unfold Days.tzevaotChat, Plain.tzevaotChat, tryCatch,
    Days.postMessage, Plain.postMessage, bind, lift, ret, throw, userRef_get.
  rewrite Hm, !read_body, Hw, Hmsg. cbn [negb orb]. fold (requestId req).
  rewrite Hget, Hkey. split; reflexivity.
Qed.

(** Without a key, from the secret or from the environment, a complete
    [POST] whose values all have a text ([String] throws on none of the
    wallet address, the owned days of the payload and of the store, the
    stored mint count, seen count and notes) is answered 500 with the
    fixed message, after the load and before the provider is asked or
    anything written. *)
Theorem missing_key_is_an_error E req w :
  method req = POST ->
  truthy (bodyField req "walletAddress") = true ->
  truthy (bodyField req "message") = true ->
  getError E (requestId req) = None ->
  truthy (apiKey E) = false ->
  printsAll req w ->
  let answer :=
    respond 500
      (errorBody (lit "OPENAI_API_KEY is not set in Secret Manager or environment.")) in
  Strict.daysTzevaotChat E req w = (answer, w) /\
  Strict.plainTzevaotChat E req w = (answer, w).
Proof.
  intros Hm Hw Hmsg Hget Hkey Hp answer.
  destruct (Strict_tzevaotChat_POST E req w Hm Hp) as [-> ->].
  by apply missing_key_without_throws.
Qed.

(** A value without a text ends the request before the key is looked at:
    a complete [POST] whose payload's owned days hold an object with an
    own [toString] property is answered 500 with the [TypeError]'s
    message, whatever the key, the provider never asked and nothing
    written; so is one whose wallet address is such an object, before the
    load. *)
Theorem value_without_text_fails_the_request E req w :
  method req = POST ->
  truthy (bodyField req "walletAddress") = true ->
  truthy (bodyField req "message") = true ->
  let answer := respond 500 (errorBody (lit "Cannot convert object to primitive value")) in
  (printable (bodyField req "walletAddress") = false ->
   Strict.daysTzevaotChat E req w = (answer, w) /\
   Strict.plainTzevaotChat E req w = (answer, w)) /\
  (printable (bodyField req "walletAddress") = true ->
   getError E (requestId req) = None ->
   forall d ds,
     bodyField req "daysOwned" = Arr (d :: ds) ->
     printable (Arr (d :: ds)) = false ->
     Strict.daysTzevaotChat E req w = (answer, w)).
Proof.
  intros Hm Hw Hmsg answer.
  unfold Strict.daysTzevaotChat, Strict.plainTzevaotChat, tryCatch,
    Strict.daysPostMessage, Strict.plainPostMessage, bind, lift.
  rewrite Hm, !read_body, Hw, Hmsg. cbn [negb orb].
  unfold Strict.normalizedWallet, Strict.toString. split.
  - intros ->. by split.
  - intros -> Hget d ds Hd Hp.
    fold (normalizedWallet (bodyField req "walletAddress")). fold (requestId req).
    unfold userRef_get. rewrite Hget, Hd.
    unfold Strict.normalizedDaysOwned. by rewrite (Strict_strings_throw _ Hp).
Qed.

Lemma app_singleton_same {A} (l : list A) x : l <> l ++ [x].
Proof.
  intros H. apply (f_equal length) in H. rewrite length_app in H. cbn in H. lia.
Qed.

(** What followed a provider call that a [POST] made. *)
Lemma afterKey_called E req w sys data o w' msgs :
  afterKey E req w sys data = (o, w') ->
  completions w' = completions w ++ [msgs] ->
  match create E msgs with
  | Throw e => o = Throw e /\ tzevaotUsers w' = tzevaotUsers w
  | Ok content =>
      match reply content with
      | Throw e => o = Throw e /\ tzevaotUsers w' = tzevaotUsers w
      | Ok rep =>
          (exists e th, setError E (requestId req) (data rep th) = Some e /\
                        o = Throw e /\ tzevaotUsers w' = tzevaotUsers w) \/
          (exists r th, setError E (requestId req) (data rep th) = None /\
                        o = Ok r /\ status r = 200)
      end
  end.
Proof.
  unfold afterKey.
  destruct (messagesForOpenAI _ _ _) as [msgs0|].
  2:{ intros [= <- <-] Hc. by apply app_singleton_same in Hc. }
  assert (forall (o1 o2 : outcome response) u (P : Prop),
            (o1, {| tzevaotUsers := u; completions := completions w ++ [msgs0] |})
              = (o2, w') ->
            completions w' = completions w ++ [msgs] ->
            (msgs0 = msgs -> o1 = o2 -> tzevaotUsers w' = u -> P) -> P) as Hinv.
  { intros o1 o2 u P [= <- <-] Hc HP. cbn in Hc. apply app_inv_head in Hc.
    injection Hc as <-. by apply HP. }
  destruct (create E msgs0) as [content|e] eqn:Hcr.
  2:{ intros H Hc. apply (Hinv _ _ _ _ H Hc). intros <- <- ->. by rewrite Hcr. }
  destruct (reply content) as [rep|e] eqn:Hrep.
  2:{ intros H Hc. apply (Hinv _ _ _ _ H Hc). intros <- <- ->. by rewrite Hcr, Hrep. }
  destruct (setError E _ _) as [e|] eqn:Hset.
  - intros H Hc. apply (Hinv _ _ _ _ H Hc). intros <- <- ->. rewrite Hcr, Hrep.
    left. eauto.
  - intros H Hc. apply (Hinv _ _ _ _ H Hc). intros <- <- _. rewrite Hcr, Hrep.
    right. eexists _, _. split; [exact Hset|]. split; reflexivity.
Qed.

Lemma Days_postMessage_reached E req w o w' msgs :
  Days.postMessage E req w = (o, w') ->
  completions w' = completions w ++ [msgs] ->
  afterKey E req w (daysPrompt req w) (daysData req w) = (o, w').
Proof.
  intros H Hc.
  destruct (truthy (bodyField req "walletAddress")) eqn:Hw;
    [destruct (truthy (bodyField req "message")) eqn:Hmsg;
     [destruct (getError E (requestId req)) eqn:Hget;
      [|destruct (truthy (apiKey E)) eqn:Hkey;
        [by rewrite <- (Days_postMessage_afterKey E req w Hw Hmsg Hget Hkey)|]]|]|];
    exfalso; revert H;
    unfold Days.postMessage, bind, lift, ret, throw, userRef_get;
    rewrite !read_body, ?Hw, ?Hmsg; cbn [negb orb]; fold (requestId req);
    rewrite ?Hget, ?Hkey; cbn [negb];
    intros [= <- <-]; by apply app_singleton_same in Hc.
Qed.

Lemma Plain_postMessage_reached E req w o w' msgs :
  Plain.postMessage E req w = (o, w') ->
  completions w' = completions w ++ [msgs] ->
  afterKey E req w (plainPrompt req w) (plainData req) = (o, w').
Proof.
  intros H Hc.
  destruct (truthy (bodyField req "walletAddress")) eqn:Hw;
    [destruct (truthy (bodyField req "message")) eqn:Hmsg;
     [destruct (getError E (requestId req)) eqn:Hget;
      [|destruct (truthy (apiKey E)) eqn:Hkey;
        [by rewrite <- (Plain_postMessage_afterKey E req w Hw Hmsg Hget Hkey)|]]|]|];
    exfalso; revert H;
    unfold Plain.postMessage, bind, lift, ret, throw, userRef_get;
    rewrite !read_body, ?Hw, ?Hmsg; cbn [negb orb]; fold (requestId req);
    rewrite ?Hget, ?Hkey; cbn [negb];
    intros [= <- <-]; by apply app_singleton_same in Hc.
Qed.

(** A [POST] that asked the provider went through [afterKey]. *)
Lemma tzevaotChat_called E req w r w' msgs :
  method req = POST ->
  Days.tzevaotChat E req w = (r, w') \/ Plain.tzevaotChat E req w = (r, w') ->
  completions w' = completions w ++ [msgs] ->
  exists sys data o,
    afterKey E req w sys data = (o, w') /\
    r = match o with Ok r0 => r0 | Throw e => internalError e end.
Proof.
  unfold Days.tzevaotChat, Plain.tzevaotChat, tryCatch. intros -> [H|H] Hc.
  - destruct (Days.postMessage E req w) as [o w0] eqn:Hp.
    assert (w0 = w') as -> by (destruct o; congruence).
    exists (daysPrompt req w), (daysData req w), o.
    split; [eapply Days_postMessage_reached; eassumption|]. destruct o; congruence.
  - destruct (Plain.postMessage E req w) as [o w0] eqn:Hp.
    assert (w0 = w') as -> by (destruct o; congruence).
    exists (plainPrompt req w), (plainData req), o.
    split; [eapply Plain_postMessage_reached; eassumption|]. destruct o; congruence.
Qed.

(** When the provider throws, or returns a content that is neither text
    nor absent, the request is answered 500 with that error's message and
    the store is left as it was: no entry is appended and the counter
    does not move. *)
Theorem provider_failure_is_reported E req w r w' msgs err :
  method req = POST ->
  Days.tzevaotChat E req w = (r, w') \/ Plain.tzevaotChat E req w = (r, w') ->
  completions w' = completions w ++ [msgs] ->
  create E msgs = Throw err \/
  (exists content, create E msgs = Ok content /\ reply content = Throw err) ->
  r = internalError err /\
  status r = 500 /\
  tzevaotUsers w' = tzevaotUsers w.
Proof.
  intros Hm H Hc Hfail.
  destruct (tzevaotChat_called _ _ _ _ _ _ Hm H Hc) as (sys & data & o & Ha & ->).
  pose proof (afterKey_called _ _ _ _ _ _ _ _ Ha Hc) as Hcase.
  destruct Hfail as [Hcr|(content & Hcr & Hrep)]; rewrite Hcr in Hcase;
    try rewrite Hrep in Hcase; destruct Hcase as [-> Hst]; auto.
Qed.

(** When the write throws, the reply the provider gave is lost: the
    request is answered 500 with the write's error, without a reply, and
    the store is left as it was, although the provider has been asked. *)
Theorem write_failure_loses_the_reply E req w r w' msgs content rep err :
  method req = POST ->
  Days.tzevaotChat E req w = (r, w') \/ Plain.tzevaotChat E req w = (r, w') ->
  completions w' = completions w ++ [msgs] ->
  create E msgs = Ok content ->
  reply content = Ok rep ->
  (forall data, setError E (requestId req) data = Some err) ->
  r = internalError err /\
  ~ replyReturned r /\
  tzevaotUsers w' = tzevaotUsers w.
Proof.
  intros Hm H Hc Hcr Hrep Hset.
  destruct (tzevaotChat_called _ _ _ _ _ _ Hm H Hc) as (sys & data & o & Ha & ->).
  pose proof (afterKey_called _ _ _ _ _ _ _ _ Ha Hc) as Hcase.
  rewrite Hcr, Hrep in Hcase.
  destruct Hcase as [(e & th & He & -> & Hst)|(r0 & th & He & _)];
    rewrite Hset in He; [|discriminate].
  injection He as <-. repeat split; [|exact Hst].
  intros [rep' Hr]. cbn in Hr.
  destruct (decide (lit "reply" = lit "error")) as [Heq|]; [|discriminate].
  vm_compute in Heq. discriminate.
Qed.




(** ** What the store keeps, request after request *)

Lemma exchanges_app h message rep t :
  exchanges h -> exchanges (h ++ [userEntry message t; tzevaotEntry rep t]).
Proof.
  induction 1; cbn [app]; constructor; [constructor | assumption].
Qed.

Lemma exchanges_length h : exchanges h -> exists k, length h = (2 * k)%nat.
Proof.
  induction 1 as [|m r t h _ [k IH]]; [by exists 0%nat|].
  exists (S k). cbn [length]. lia.
Qed.

Lemma exchanges_skipn h k : exchanges h -> exchanges (skipn (2 * k) h).
Proof.
  intros H. revert k. induction H as [|m r t h H IH]; intros k.
  - rewrite skipn_nil. constructor.
  - destruct k as [|k]; [by constructor|].
    replace (2 * S k)%nat with (S (S (2 * k))) by lia. cbn [skipn]. apply IH.
Qed.

(** Cutting a history of whole exchanges to its last [2 * n] entries
    leaves whole exchanges. *)
Lemma exchanges_sliceLast h n : exchanges h -> exchanges (sliceLast (2 * n) h).
Proof.
  intros H. unfold sliceLast.
  destruct (exchanges_length h H) as [k Hk].
  replace (length h - 2 * n)%nat with (2 * (k - n))%nat by lia.
  by apply exchanges_skipn.
Qed.

Lemma exchanges_trimmedHistory h message rep t :
  exchanges h -> exchanges (trimmedHistory (newHistory h message rep t)).
Proof.
  intros H. unfold trimmedHistory, newHistory.
  apply (exchanges_sliceLast _ 10), exchanges_app, H.
Qed.

Lemma normalizedDaysOwned_isStr daysOwned userData :
  Forall isStr (Days.normalizedDaysOwned daysOwned userData).
Proof.
  unfold Days.normalizedDaysOwned.
  destruct daysOwned as [| | | | |[|d ds]|];
    try apply map_String_isStr;
    destruct (lookup (lit "daysOwned") userData); try apply map_String_isStr;
    constructor.
Qed.

Lemma userData_lookup w id doc :
  tzevaotUsers w !! id = Some doc -> userData w id = fields doc.
Proof. intros H. unfold userData. by rewrite H. Qed.

Lemma userData_wellKept w id :
  wellKept w ->
  exchanges (existingHistory (userData w id)) /\
  Forall isStr (arrayOrEmpty (lookup (lit "daysOwned") (userData w id))).
Proof.
  intros Hw. unfold userData. destruct (tzevaotUsers w !! id) as [doc|] eqn:Hd.
  - destruct (Hw id doc Hd) as (? & _ & ?). by split.
  - split; constructor.
Qed.

(** The owned days a successful [POST] leaves are strings when the stored
    ones were: one variant writes strings, the other does not write. *)
Lemma tzevaotChat_daysOwned E req w r w' :
  method req = POST ->
  Days.tzevaotChat E req w = (r, w') \/ Plain.tzevaotChat E req w = (r, w') ->
  status r = 200 ->
  Forall isStr (arrayOrEmpty (lookup (lit "daysOwned") (userData w (requestId req)))) ->
  Forall isStr (arrayOrEmpty (lookup (lit "daysOwned") (userData w' (requestId req)))).
Proof.
  intros Hm [H|H] Hs Hold.
  - rewrite (Days_daysOwned_stored _ _ _ _ _ Hm H Hs). apply normalizedDaysOwned_isStr.
  - destruct (Plain_tzevaotChat_200 _ _ _ _ _ Hm H Hs) as (msgs & content & rep & Hp).
    destruct (posted_stored _ _ _ _ _ _ _ _ _ _ Hp) as (Hdoc & _).
    cbn zeta in Hdoc. unfold userData at 1. rewrite Hdoc. unfold plainData.
    match goal with |- context [mergeSet ?t ?old (Plain.setData ?a ?b ?c ?d)] =>
      destruct (Plain_setData_fields t old a b c d) as (_ & -> & _) end.
    by rewrite userData_default.
Qed.

Lemma tzevaotChat_wellKept E req w r w' :
  Days.tzevaotChat E req w = (r, w') \/ Plain.tzevaotChat E req w = (r, w') ->
  wellKept w -> wellKept w'.
Proof.
  intros H Hw. destruct (tzevaotChat_store _ _ _ _ _ H) as [Hsame|[Hm Hs]].
  { unfold wellKept. by rewrite Hsame. }
  intros id doc Hdoc. destruct (decide (id = requestId req)) as [->|Hne].
  - destruct (tzevaotChat_exchanged _ _ _ _ _ Hm H Hs) as (msgs & content & rep & X).
    pose proof (ex_history _ _ _ _ _ _ _ _ X) as Hh.
    pose proof (tzevaotChat_daysOwned _ _ _ _ _ Hm H Hs) as Hd.
    rewrite (userData_lookup _ _ _ Hdoc) in Hh, Hd.
    destruct (userData_wellKept w (requestId req) Hw) as [Hex Hstr].
    unfold existingHistory at 1 2. rewrite Hh. cbn [arrayOrEmpty].
    split; [by apply exchanges_trimmedHistory|]. split; [|by apply Hd].
    unfold trimmedHistory. rewrite sliceLast_length. lia.
  - rewrite (tzevaotChat_other_documents _ _ _ _ _ _ H Hne) in Hdoc.
    exact (Hw id doc Hdoc).
Qed.

Lemma step_run w s :
  exists E req r,
    Days.tzevaotChat E req w = (r, step w s) \/
    Plain.tzevaotChat E req w = (r, step w s).
Proof.
  destruct s as [[[|] E] req]; exists E, req; eexists; [left|right];
    apply surjective_pairing.
Qed.

(** Served any sequence of requests, through either variant and in any
    surroundings, the store keeps every history a sequence of whole
    exchanges (a user entry, then the persona entry of the same instant)
    of twenty entries at most, and every list of owned days a list of
    strings. *)
Theorem served_store_stays_well_kept steps w :
  wellKept w -> wellKept (serve steps w).
Proof.
  unfold serve. revert w. induction steps as [|s steps IH]; intros w Hw; [exact Hw|].
  cbn [fold_left]. apply IH.
  destruct (step_run w s) as (E & req & r & H).
  eapply tzevaotChat_wellKept; eassumption.
Qed.

Lemma entryMessage_userEntry message t :
  entryMessage (userEntry message t) = Ok {| role := lit "user"; content := message |}.
Proof. reflexivity. Qed.

Lemma entryMessage_tzevaotEntry rep t :
  entryMessage (tzevaotEntry rep t)
    = Ok {| role := lit "assistant"; content := Str rep |}.
Proof. reflexivity. Qed.

Lemma mapOutcome_exchanges h :
  exchanges h ->
  exists ms, mapOutcome entryMessage h = Ok ms /\ alternating ms.
Proof.
  induction 1 as [|m rep t h _ (ms & IH & Halt)]; [exists []; split; constructor|].
  eexists. cbn [mapOutcome].
  rewrite entryMessage_userEntry, entryMessage_tzevaotEntry, IH.
  split; [reflexivity|]. by constructor.
Qed.

Lemma afterKey_asks E req w sys data msgs :
  messagesForOpenAI sys
    (historyForContext (existingHistory (userData w (requestId req))))
    (bodyField req "message") = Ok msgs ->
  completions (snd (afterKey E req w sys data)) = completions w ++ [msgs].
Proof.
  intros Hm. unfold afterKey. rewrite Hm.
  destruct (create E msgs); [|reflexivity].
  destruct (reply _); [|reflexivity].
  destruct (setError E _ _); reflexivity.
Qed.

(** The handlers that take the text of every value, in a well-kept
    store. *)
Lemma context_takes_turns_without_throws E req w r w' :
  wellKept w ->
  method req = POST ->
  Days.tzevaotChat E req w = (r, w') \/ Plain.tzevaotChat E req w = (r, w') ->
  (truthy (bodyField req "walletAddress") = true ->
   truthy (bodyField req "message") = true ->
   getError E (requestId req) = None ->
   truthy (apiKey E) = true ->
   exists msgs, completions w' = completions w ++ [msgs]) /\
  (forall msgs, completions w' = completions w ++ [msgs] ->
     exists sys turns,
       msgs = [{| role := lit "system"; content := Str sys |}]
                ++ turns
                ++ [{| role := lit "user"; content := bodyField req "message" |}] /\
       alternating turns).
Proof.
  intros Hw Hm H.
  destruct (userData_wellKept w (requestId req) Hw) as [Hex _].
  destruct (mapOutcome_exchanges _ (exchanges_sliceLast _ 5 Hex)) as (turns & Hmap & Halt).
  assert (forall sys,
            messagesForOpenAI sys
              (historyForContext (existingHistory (userData w (requestId req))))
              (bodyField req "message")
            = Ok ([{| role := lit "system"; content := Str sys |}] ++ turns
                    ++ [{| role := lit "user"; content := bodyField req "message" |}]))
    as Hmsgs.
  { intros sys. unfold messagesForOpenAI, historyForContext.
    change 10%nat with (2 * 5)%nat. by rewrite Hmap. }
  split.
  - intros Hwa Hmsg Hget Hkey. revert H.
    unfold Days.tzevaotChat, Plain.tzevaotChat, tryCatch. rewrite Hm.
    rewrite (Days_postMessage_afterKey E req w Hwa Hmsg Hget Hkey),
      (Plain_postMessage_afterKey E req w Hwa Hmsg Hget Hkey).
    intros [H|H]; eexists.
    + pose proof (afterKey_asks E req w _ (daysData req w) _ (Hmsgs (daysPrompt req w)))
        as Ha.
      destruct (afterKey E req w (daysPrompt req w) (daysData req w)) as [[?|?] w0];
        injection H as _ <-; exact Ha.
    + pose proof (afterKey_asks E req w _ (plainData req) _ (Hmsgs (plainPrompt req w)))
        as Ha.
      destruct (afterKey E req w (plainPrompt req w) (plainData req)) as [[?|?] w0];
        injection H as _ <-; exact Ha.
  - intros msgs Hc.
    destruct (tzevaotChat_calls _ _ _ _ _ Hm H) as [Hno|(sys & msgs0 & Hshape & Hc0)].
    + rewrite Hno in Hc. by apply app_singleton_same in Hc.
    + rewrite Hc0 in Hc. apply app_inv_head in Hc. injection Hc as <-.
      rewrite Hmsgs in Hshape. injection Hshape as <-. eauto.
Qed.

(** In a well-kept store the context is always built and takes turns: a
    complete [POST] whose values all have a text ([String] throws on
    none of them), whose load succeeds and whose key is there does ask
    the provider, and between the system message and the new message the
    list it sends alternates user and assistant messages. *)
Theorem well_kept_context_takes_turns E req w r w' :
  wellKept w ->
  method req = POST ->
  printsAll req w ->
  Strict.daysTzevaotChat E req w = (r, w') \/
  Strict.plainTzevaotChat E req w = (r, w') ->
  (truthy (bodyField req "walletAddress") = true ->
   truthy (bodyField req "message") = true ->
   getError E (requestId req) = None ->
   truthy (apiKey E) = true ->
   exists msgs, completions w' = completions w ++ [msgs]) /\
  (forall msgs, completions w' = completions w ++ [msgs] ->
     exists sys turns,
       msgs = [{| role := lit "system"; content := Str sys |}]
                ++ turns
                ++ [{| role := lit "user"; content := bodyField req "message" |}] /\
       alternating turns).
Proof.
  intros Hw Hm Hp H.
  destruct (Strict_tzevaotChat_POST E req w Hm Hp) as [Hd Hpl].
  rewrite Hd, Hpl in H.
  by apply (context_takes_turns_without_throws E req w r w').
Qed.

(** ** The reply *)








(** ** Reading back *)

Lemma or_Num n : or (Num n) (Num 0) = Num n.
Proof.
  unfold or. cbn [truthy]. destruct (Z.eqb_spec n 0) as [->|]; reflexivity.
Qed.

Lemma getHistory_stored E req w doc :
  method req = GET ->
  truthy (queryWalletAddress req) = true ->
  getError E (normalizedWallet (queryWalletAddress req)) = None ->
  tzevaotUsers w !! normalizedWallet (queryWalletAddress req) = Some doc ->
  Days.tzevaotChat E req w
    = (respond 200
         (Obj [(lit "history", Arr (existingHistory (fields doc)));
               (lit "isHolder", Bool (truthy (lookup (lit "isHolder") (fields doc))));
               (lit "seenCount", or (lookup (lit "seenCount") (fields doc)) (Num 0));
               (lit "daysOwned",
                Arr (arrayOrEmpty (lookup (lit "daysOwned") (fields doc))))]), w) /\
  Plain.tzevaotChat E req w
    = (respond 200
         (Obj [(lit "history", Arr (existingHistory (fields doc)));
               (lit "isHolder", Bool (truthy (lookup (lit "isHolder") (fields doc))));
               (lit "seenCount", or (lookup (lit "seenCount") (fields doc)) (Num 0))]),
       w).
Proof.
  intros Hm Ht Hget Hdoc.
  unfold Days.tzevaotChat, Plain.tzevaotChat, tryCatch,
    Days.getHistory, Plain.getHistory, bind, ret, userRef_get.
  rewrite Hm, Ht. cbn [negb]. rewrite Hget, Hdoc. by split.
Qed.

(** What a [POST] wrote, a [GET] reads back: after a successful exchange,
    a [GET] for a wallet address with the same normal form, by either
    variant and whatever the casing, answers 200 with the history the
    [POST] returned, the request's [isHolder] as a boolean and the counter
    one above what it was; the tracking variant adds the stored owned
    days. The [GET] changes nothing. *)
Theorem posted_exchange_is_read_back E req w r w' E' get :
  method req = POST ->
  Days.tzevaotChat E req w = (r, w') \/ Plain.tzevaotChat E req w = (r, w') ->
  status r = 200 ->
  method get = GET ->
  truthy (queryWalletAddress get) = true ->
  normalizedWallet (queryWalletAddress get) = requestId req ->
  getError E' (requestId req) = None ->
  exists h,
    member (json r) (lit "history") = Some (Arr h) /\
    let seen := Num (countOf (lookup (lit "seenCount") (userData w (requestId req))) + 1) in
    let holder := Bool (truthy (bodyField req "isHolder")) in
    Days.tzevaotChat E' get w'
      = (respond 200
           (Obj [(lit "history", Arr h);
                 (lit "isHolder", holder);
                 (lit "seenCount", seen);
                 (lit "daysOwned",
                  Arr (arrayOrEmpty
                         (lookup (lit "daysOwned") (userData w' (requestId req)))))]),
         w') /\
    Plain.tzevaotChat E' get w'
      = (respond 200
           (Obj [(lit "history", Arr h);
                 (lit "isHolder", holder);
                 (lit "seenCount", seen)]), w').
Proof.
  intros Hm H Hs Hg Ht Hid Hget.
  destruct (tzevaotChat_exchanged _ _ _ _ _ Hm H Hs) as (msgs & content & rep & X).
  destruct (tzevaotChat_posted_document _ _ _ _ _ Hm H Hs)
    as (data & rep' & th & Hdata & Hdoc).
  destruct (Hdata (serverTime E) (tzevaotUsers w !! requestId req) rep' th)
    as (Hh & _).
  pose proof (ex_history _ _ _ _ _ _ _ _ X) as Hhist.
  pose proof (ex_seenCount _ _ _ _ _ _ _ _ X) as Hseen.
  eexists. split; [exact (ex_json_history _ _ _ _ _ _ _ _ X)|]. cbn zeta.
  pose proof Hdoc as Hdoc'. rewrite <- Hid in Hget, Hdoc' at 1.
  destruct (getHistory_stored E' get w' _ Hg Ht Hget Hdoc') as [-> ->].
  rewrite (userData_lookup _ _ _ Hdoc) in Hhist, Hseen.
  rewrite (userData_lookup _ _ _ Hdoc).
  unfold existingHistory in *. rewrite !Hhist, !Hseen, !Hh. cbn [arrayOrEmpty truthy].
  assert (or (incremented (lookup (lit "seenCount") (userData w (requestId req))) 1)
            (Num 0)
          = Num (countOf (lookup (lit "seenCount") (userData w (requestId req))) + 1))
    as ->.
  { destruct (lookup (lit "seenCount") (userData w (requestId req)));
      cbn [incremented countOf]; apply or_Num. }
  by split.
Qed.

(** ** Answers *)

Lemma internalError_error e :
  exists v, member (json (internalError e)) (lit "error") = Some v /\ truthy v = true.
Proof.
  eexists. split; [reflexivity|]. unfold or.
  destruct (truthy (message e)) eqn:Ht; [exact Ht | reflexivity].
Qed.

Lemma tryCatch_answer (m : M response) w r w' (P : response -> Prop) :
  tryCatch m internalError w = (r, w') ->
  (forall r0 w0, m w = (Ok r0, w0) -> P r0) ->
  (forall e, P (internalError e)) ->
  P r.
Proof.
  unfold tryCatch. destruct (m w) as [[r0|e] w0] eqn:Hm; intros [= <- <-] Hok Herr;
    eauto.
Qed.

Lemma answer_internalError e : answer (internalError e).
Proof. right. right. split; [auto | apply internalError_error]. Qed.

Ltac answer_error :=
  right; right; split; [auto | eexists; split; reflexivity].

Lemma Days_getHistory_answer E req w r w' :
  Days.getHistory E req w = (Ok r, w') -> answer r.
Proof.
  unfold Days.getHistory, bind, ret, userRef_get.
  destruct (negb _); [intros [= <- <-]; answer_error|].
  destruct (getError E _); [discriminate|].
  destruct (tzevaotUsers w !! _); intros [= <- <-]; left; split; reflexivity.
Qed.

Lemma Plain_getHistory_answer E req w r w' :
  Plain.getHistory E req w = (Ok r, w') -> answer r.
Proof.
  unfold Plain.getHistory, bind, ret, userRef_get.
  destruct (negb _); [intros [= <- <-]; answer_error|].
  destruct (getError E _); [discriminate|].
  destruct (tzevaotUsers w !! _); intros [= <- <-]; left; split; reflexivity.
Qed.

Lemma Days_postMessage_answer E req w r w' :
  Days.postMessage E req w = (Ok r, w') -> answer r.
Proof.
  unfold Days.postMessage, bind, lift, ret, throw. rewrite !read_body.
  destruct (negb _ || _); [intros [= <- <-]; answer_error|].
  unfold userRef_get. destruct (getError E _); [discriminate|].
  destruct (negb (truthy (apiKey E))); [discriminate|].
  destruct (messagesForOpenAI _ _ _); [|discriminate].
  unfold completions_create, userRef_set.
  destruct (create E _); [|discriminate]. destruct (reply _); [|discriminate].
  destruct (setError E _ _); [discriminate|].
  intros [= <- <-]. left. split; reflexivity.
Qed.

Lemma Plain_postMessage_answer E req w r w' :
  Plain.postMessage E req w = (Ok r, w') -> answer r.
Proof.
  unfold Plain.postMessage, bind, lift, ret, throw. rewrite !read_body.
  destruct (negb _ || _); [intros [= <- <-]; answer_error|].
  unfold userRef_get. destruct (getError E _); [discriminate|].
  destruct (negb (truthy (apiKey E))); [discriminate|].
  destruct (messagesForOpenAI _ _ _); [|discriminate].
  unfold completions_create, userRef_set.
  destruct (create E _); [|discriminate]. destruct (reply _); [|discriminate].
  destruct (setError E _ _); [discriminate|].
  intros [= <- <-]. left. split; reflexivity.
Qed.

(** Every answer of [tzevaotChat] has one of five statuses, and a body to
    match: 200 never carries an [error], 204 carries nothing, and 400,
    405 and 500 always carry a truthy [error]. Both variants. *)
Theorem tzevaotChat_answers E req w r w' :
  Days.tzevaotChat E req w = (r, w') \/ Plain.tzevaotChat E req w = (r, w') ->
  answer r.
Proof.
  unfold Days.tzevaotChat, Plain.tzevaotChat.
  destruct (method req).
  - intros [[= <- <-]|[= <- <-]]; right; left; split; reflexivity.
  - intros [H|H]; apply (tryCatch_answer _ _ _ _ answer H);
      eauto using Days_getHistory_answer, Plain_getHistory_answer, answer_internalError.
  - intros [H|H]; apply (tryCatch_answer _ _ _ _ answer H);
      eauto using Days_postMessage_answer, Plain_postMessage_answer, answer_internalError.
  - intros [[= <- <-]|[= <- <-]]; answer_error.
Qed.

(** ** The prompt endpoint *)

(** [apiv2] asks the provider for nothing but a non-empty string: a
    [POST] whose [prompt] is missing, empty or of another type is
    answered 400, and nothing is asked. *)
Theorem apiv2_requires_a_text_prompt E req w :
  method req = POST ->
  (forall c s, bodyField req "prompt" <> Str (c :: s)) ->
  Apiv2.apiv2 E req w = (respond 400 (errorBody Apiv2.missingPrompt), w).
Proof.
  intros Hm Hp. unfold Apiv2.apiv2, tryCatch, Apiv2.postPrompt, bind, lift, ret.
  rewrite Hm, read_body.
  destruct (bodyField req "prompt") as [| |[|]|n|[|c s]|xs|fs] eqn:Hb;
    try reflexivity.
  - cbn [truthy typeofString]. by rewrite orb_true_r.
  - by destruct (Hp c s).
Qed.

(** [apiv2] hands the provider's content on as it is: given a non-empty
    string prompt and a key, it asks once, with the fixed system message
    and the prompt, and answers 200 with the content untouched (not
    trimmed, no fallback), the empty string standing in for [null] and
    [undefined] only; when the provider throws it answers 500 with the
    error's message. The store is not touched. *)
Theorem apiv2_hands_the_content_on E req w c s :
  method req = POST ->
  bodyField req "prompt" = Str (c :: s) ->
  truthy (apiKey E) = true ->
  let msgs := Apiv2.messages (Str (c :: s)) in
  snd (Apiv2.apiv2 E req w)
    = {| tzevaotUsers := tzevaotUsers w; completions := completions w ++ [msgs] |} /\
  (forall content, create E msgs = Ok content ->
     exists text,
       fst (Apiv2.apiv2 E req w) = respond 200 (Obj [(lit "text", text)]) /\
       text <> Undefined /\ text <> Null /\
       (content <> Undefined -> content <> Null -> text = content) /\
       (content = Undefined \/ content = Null -> text = Str [])) /\
  (forall e, create E msgs = Throw e ->
     fst (Apiv2.apiv2 E req w) = Apiv2.unknownError e).
Proof.
  intros Hm Hp Hkey msgs.
  unfold Apiv2.apiv2, tryCatch, Apiv2.postPrompt, bind, lift, ret, throw,
    completions_create.
  rewrite Hm, read_body, Hp, Hkey. cbn [truthy typeofString negb orb]. fold msgs.
  destruct (create E msgs) as [content|e]; cbn [fst snd].
  - split; [reflexivity|]. split; [|discriminate].
    intros ? [= <-]. eexists. split; [reflexivity|].
    destruct content; cbn [coalesce]; repeat split; try discriminate; try tauto;
      intros [?|?]; discriminate.
  - split; [reflexivity|]. split; [discriminate|]. by intros ? [= <-].
Qed.

(** ** The pass-through endpoint *)

(** [api] asks the provider only for a [POST] to [/completion] whose body
    is an array, and then hands it that array as it came and answers with
    the completion as it is returned (status 200), or with 500 and the
    error when the provider throws. Every other request is answered
    without a call. *)
Theorem api_passes_messages_through E P req calls r calls' :
  Legacy.api E P req calls = (r, calls') ->
  calls' = calls \/
  (Legacy.method req = POST /\
   Legacy.path req = lit "/completion" /\
   exists messages,
     Legacy.body req = Arr messages /\
     calls' = calls ++ [messages] /\
     r = match Legacy.createCompletion P messages with
         | Ok completion => respond 200 (Obj completion)
         | Throw e => Legacy.internalServerError P e
         end).
Proof.
  unfold Legacy.api.
  destruct (Legacy.method req) eqn:Hm; try (intros [= <- <-]; by left).
  - destruct (_ || _); intros [= <- <-]; by left.
  - unfold Legacy.postCompletion.
    destruct (Legacy.path req) as [|c p] eqn:Hpath.
    { cbn. intros [= <- <-]. by left. }
    destruct (negb _) eqn:Hp; [intros [= <- <-]; by left|].
    apply negb_false_iff, bool_decide_eq_true in Hp.
    destruct (Legacy.body req) as [| | | | |messages|] eqn:Hb;
      try (intros [= <- <-]; by left).
    destruct (negb (truthy (apiKey E))); [intros [= <- <-]; by left|].
    destruct (Legacy.createCompletion P messages) as [completion|e] eqn:Hc;
      intros [= <- <-]; right; repeat split; try assumption;
      exists messages; rewrite Hc; auto.
Qed.

(** [api] answers a [POST] to any path but [/completion] with 404 and a
    message that quotes the path, the empty path quoted as [/]; the body
    and the key are not looked at and nothing is asked. *)
Theorem api_unknown_path_is_not_found E P req calls :
  Legacy.method req = POST ->
  let path := match Legacy.path req with
              | [] => lit "/"
              | _ :: _ => Legacy.path req
              end in
  path <> lit "/completion" ->
  Legacy.api E P req calls
    = (respond 404 (errorBody (Legacy.unknownPath path)), calls).
Proof.
  intros Hm path Hp. unfold Legacy.api, Legacy.postCompletion. rewrite Hm.
  fold path. destruct (bool_decide_reflect (path = lit "/completion")); [contradiction|].
  reflexivity.
Qed.

(** [api] is a health check for [GET] at the root only: a request that
    is neither a preflight, nor a [POST], nor a [GET] of the root or of
    the empty path is answered 405, and nothing is asked. *)
Theorem api_other_requests_are_not_allowed E P req calls :
  Legacy.method req <> OPTIONS ->
  Legacy.method req <> POST ->
  (Legacy.method req = GET ->
     Legacy.path req <> lit "/" /\ Legacy.path req <> []) ->
  Legacy.api E P req calls
    = (respond 405 (errorBody (lit "Method not allowed. Use POST.")), calls).
Proof.
  intros Ho Hp Hg. unfold Legacy.api.
  destruct (Legacy.method req); try contradiction; [|reflexivity].
  destruct (Hg eq_refl) as [H1 H2].
  destruct (bool_decide_reflect (Legacy.path req = lit "/")); [contradiction|].
  destruct (bool_decide_reflect (Legacy.path req = [])); [contradiction|].
  reflexivity.
Qed.

(** ** Exchanges in a row *)

Lemma sliceLast_sliceLast_app {A} n (xs ys : list A) :
  sliceLast n (sliceLast n xs ++ ys) = sliceLast n (xs ++ ys).
Proof.
  unfold sliceLast. rewrite !length_app, length_skipn.
  assert (skipn (length xs - n) xs ++ ys = skipn (length xs - n) (xs ++ ys)) as ->.
  { rewrite skipn_app.
    replace (length xs - n - length xs)%nat with 0%nat by lia. reflexivity. }
  rewrite drop_drop. f_equal. lia.
Qed.

(** Trimming at every write loses nothing a single trim would keep: after
    two successful exchanges under one id, by either variant, the stored
    [history] field is the last twenty of: the entries the field held
    before the first of them (none when it held no array), followed by
    the four entries [{ from, text, ts }] of the two exchanges, in order,
    with the messages of the two requests and the replies of the two
    responses. *)
Theorem two_exchanges_compose E1 req1 E2 req2 w r1 w1 r2 w2 prior :
  method req1 = POST ->
  Days.tzevaotChat E1 req1 w = (r1, w1) \/ Plain.tzevaotChat E1 req1 w = (r1, w1) ->
  status r1 = 200 ->
  method req2 = POST ->
  Days.tzevaotChat E2 req2 w1 = (r2, w2) \/ Plain.tzevaotChat E2 req2 w1 = (r2, w2) ->
  status r2 = 200 ->
  requestId req2 = requestId req1 ->
  historyStored w (requestId req1) prior ->
  exists rep1 rep2,
    member (json r1) (lit "reply") = Some (Str rep1) /\
    member (json r2) (lit "reply") = Some (Str rep2) /\
    let all :=
      prior ++ [entryOf "user" (bodyField req1 "message") (now E1);
                entryOf "tzevaot" (Str rep1) (now E1);
                entryOf "user" (bodyField req2 "message") (now E2);
                entryOf "tzevaot" (Str rep2) (now E2)] in
    lookup (lit "history") (userData w2 (requestId req1))
      = Arr (skipn (length all - 20) all).
Proof.
  intros Hm1 H1 Hs1 Hm2 H2 Hs2 Hid Hprior.
  destruct (tzevaotChat_exchanged _ _ _ _ _ Hm1 H1 Hs1) as (? & ? & rep1 & X1).
  destruct (tzevaotChat_exchanged _ _ _ _ _ Hm2 H2 Hs2) as (? & ? & rep2 & X2).
  exists rep1, rep2.
  split; [exact (ex_json_reply _ _ _ _ _ _ _ _ X1)|].
  split; [exact (ex_json_reply _ _ _ _ _ _ _ _ X2)|].
  pose proof (ex_history _ _ _ _ _ _ _ _ X1) as Hh1.
  pose proof (ex_history _ _ _ _ _ _ _ _ X2) as Hh2.
  rewrite (historyStored_existingHistory _ _ _ Hprior) in Hh1.
  cbn zeta. rewrite Hid in Hh2. rewrite Hh2. f_equal.
  unfold existingHistory at 1. rewrite Hh1. cbn [arrayOrEmpty].
  unfold trimmedHistory, newHistory. rewrite sliceLast_sliceLast_app.
  rewrite <- app_assoc. reflexivity.
Qed.

(** A [daysOwned] that is not an array is ignored like a missing one: a
    single id given as a string or a number, or an object, leaves the
    stored owned days in place. *)
Theorem daysOwned_of_another_type_is_ignored E req w r w' :
  method req = POST -> Days.tzevaotChat E req w = (r, w') -> status r = 200 ->
  (forall ds, bodyField req "daysOwned" <> Arr ds) ->
  lookup (lit "daysOwned") (userData w' (requestId req))
    = Arr (map (fun d => Str (String_ d))
             (arrayOrEmpty (lookup (lit "daysOwned") (userData w (requestId req))))).
Proof.
  intros Hm H Hs Hna. rewrite (Days_daysOwned_stored _ _ _ _ _ Hm H Hs).
  unfold Days.normalizedDaysOwned.
  destruct (bodyField req "daysOwned") as [| | | | |ds|];
    try (by destruct (Hna ds));
    destruct (lookup (lit "daysOwned") _); reflexivity.
Qed.

(** ** The first variant *)

Lemma Early_setData_fields t old ih m rep :
  let d := mergeSet t old (Early.setData ih m rep) in
  let ofs := fields (default emptyDocument old) in
  lookup (lit "lastReply") (fields d) = Str rep /\
  lookup (lit "seenCount") (fields d) = incremented (lookup (lit "seenCount") ofs) 1 /\
  lookup (lit "history") (fields d) = lookup (lit "history") ofs /\
  lookup (lit "daysOwned") (fields d) = lookup (lit "daysOwned") ofs.
Proof.
  unfold mergeSet, Early.setData. cbn [fold_left mergeField fields stamps].
  repeat split; lookup_simpl; reflexivity.
Qed.

(** The first variant keeps no memory of the conversation: a successful
    [POST] has sent the provider the system message and the new message
    and nothing else, whatever is stored, and its write leaves a stored
    history and stored owned days as they were; the reply is not empty,
    is persisted as [lastReply], and the counter goes up by one. *)
Theorem first_variant_keeps_no_history E req w r w' :
  method req = POST ->
  Early.tzevaotChat E req w = (r, w') ->
  status r = 200 ->
  let id := requestId req in
  exists sys rep,
    completions w' = completions w ++ [Early.messages sys (bodyField req "message")] /\
    r = respond 200 (Obj [(lit "reply", Str rep)]) /\
    rep <> [] /\
    lookup (lit "lastReply") (userData w' id) = Str rep /\
    lookup (lit "seenCount") (userData w' id)
      = Num (countOf (lookup (lit "seenCount") (userData w id)) + 1) /\
    lookup (lit "history") (userData w' id) = lookup (lit "history") (userData w id) /\
    lookup (lit "daysOwned") (userData w' id)
      = lookup (lit "daysOwned") (userData w id).
Proof.
  unfold Early.tzevaotChat, tryCatch. intros -> H Hs.
  destruct (Early.postMessage E req w) as [[r0|e] w0] eqn:Hp;
    inversion H; subst r w'; [|by rewrite internalError_status in Hs].
  revert Hp. unfold Early.postMessage, bind, lift, ret, throw. rewrite !read_body.
  destruct (negb _ || _); [intros [= <- <-]; discriminate|].
  unfold userRef_get. fold (requestId req).
  destruct (getError E (requestId req)); [discriminate|].
  fold (userData w (requestId req)).
  destruct (negb (truthy (apiKey E))); [discriminate|].
  unfold completions_create, userRef_set.
  destruct (create E _) as [content|]; [|discriminate].
  destruct (reply content) as [rep|] eqn:Hrep; [|discriminate].
  cbn [tzevaotUsers completions].
  destruct (setError E _ _); [discriminate|]. intros [= <- <-].
  eexists _, rep. split; [reflexivity|]. split; [reflexivity|].
  split; [by eapply reply_nonempty|].
  match goal with |- context [<[requestId req := ?D]> _] =>
    assert (forall c,
              userData {| tzevaotUsers := <[requestId req := D]> (tzevaotUsers w);
                          completions := c |} (requestId req) = fields D) as Hud
      by (intros; unfold userData; cbn [tzevaotUsers]; by rewrite lookup_insert_eq)
  end.
  rewrite !Hud.
  match goal with |- context [mergeSet ?t ?old (Early.setData ?a ?b ?c)] =>
    destruct (Early_setData_fields t old a b c) as (-> & -> & -> & ->) end.
  rewrite userData_default. repeat split.
  destruct (lookup (lit "seenCount") (userData w (requestId req))); reflexivity.
Qed.

(** ** More runs on concrete inputs *)

Import Cases.

Lemma fresh_wellKept : wellKept fresh.
Proof. intros id doc H. cbn in H. by rewrite lookup_empty in H. Qed.

Lemma seasoned_wellKept : wellKept seasoned.
Proof.
  intros id doc H. cbn [seasoned tzevaotUsers] in H.
  apply lookup_singleton_Some in H as [_ <-]. cbn [fields].
  split; [|split].
  - repeat constructor.
  - vm_compute. lia.
  - repeat constructor; eexists; reflexivity.
Qed.

(** A [POST] without a message, while the store is down. *)
Lemma incomplete_request_is_refused_run :
  Days.tzevaotChat Edown postNoMessage fresh
    = (respond 400 (errorBody missingWalletOrMessage), fresh) /\
  Plain.tzevaotChat Edown postNoMessage fresh
    = (respond 400 (errorBody missingWalletOrMessage), fresh).
Proof.
  apply (incomplete_request_is_refused Edown postNoMessage fresh).
  right. split; [reflexivity|]. right. reflexivity.
Defined.

Lemma only_post_changes_the_world_run :
  snd (Days.tzevaotChat E0 getAbc seasoned) = seasoned /\
  snd (Plain.tzevaotChat E0 getAbc seasoned) = seasoned /\
  (method getAbc = OPTIONS ->
     fst (Days.tzevaotChat E0 getAbc seasoned) = respond 204 Undefined /\
     fst (Plain.tzevaotChat E0 getAbc seasoned) = respond 204 Undefined) /\
  (forall name, method getAbc = otherMethod name ->
     status (fst (Days.tzevaotChat E0 getAbc seasoned)) = 405 /\
     status (fst (Plain.tzevaotChat E0 getAbc seasoned)) = 405).
Proof.
  apply (only_post_changes_the_world E0 getAbc seasoned). discriminate.
Defined.

Lemma failed_request_writes_nothing_run :
  tzevaotUsers (snd (Days.tzevaotChat Ethrows postHello seasoned))
    = tzevaotUsers seasoned.
Proof.
  apply (failed_request_writes_nothing Ethrows postHello seasoned
           (fst (Days.tzevaotChat Ethrows postHello seasoned))).
  - left. apply surjective_pairing.
  - vm_compute. discriminate.
Defined.

Lemma request_touches_one_document_run :
  (forall id, id <> requestId postHello ->
     tzevaotUsers (snd (Plain.tzevaotChat E0 postHello seasoned)) !! id
       = tzevaotUsers seasoned !! id) /\
  (method postHello = POST ->
   status (fst (Plain.tzevaotChat E0 postHello seasoned)) = 200 ->
   is_Some (tzevaotUsers (snd (Plain.tzevaotChat E0 postHello seasoned))
              !! requestId postHello)).
Proof.
  apply (request_touches_one_document E0 postHello seasoned).
  right. apply surjective_pairing.
Defined.

Lemma write_keeps_unnamed_fields_run :
  let w' := snd (Days.tzevaotChat E0 postHello annotated) in
  (forall k, k ∉ written ->
     lookup k (userData w' (requestId postHello))
       = lookup k (userData annotated (requestId postHello))) /\
  lookup (lit "notes") (userData w' (requestId postHello))
    = lookup (lit "notes") (userData annotated (requestId postHello)) /\
  lookup (lit "mintCount") (userData w' (requestId postHello))
    = lookup (lit "mintCount") (userData annotated (requestId postHello)).
Proof.
  apply (write_keeps_unnamed_fields E0 postHello annotated
           (fst (Days.tzevaotChat E0 postHello annotated))).
  - reflexivity.
  - left. apply surjective_pairing.
  - vm_compute. reflexivity.
Defined.

(** A request without [isHolder] on a document that has it [true]. *)
Lemma write_overwrites_profile_run :
  let w' := snd (Days.tzevaotChat E0 postAgain annotated) in
  lookup (lit "isHolder") (userData w' (requestId postAgain))
    = Bool (truthy (bodyField postAgain "isHolder")) /\
  (bodyField postAgain "isHolder" = Undefined ->
     lookup (lit "isHolder") (userData w' (requestId postAgain)) = Bool false) /\
  (forall s, bodyField postAgain "message" = Str s ->
     lookup (lit "lastMessage") (userData w' (requestId postAgain)) = Str s) /\
  (exists doc,
     tzevaotUsers w' !! requestId postAgain = Some doc /\
     stamp (lit "lastSeen") (stamps doc) = Some (serverTime E0)).
Proof.
  apply (write_overwrites_profile E0 postAgain annotated
           (fst (Days.tzevaotChat E0 postAgain annotated))).
  - reflexivity.
  - left. apply surjective_pairing.
  - vm_compute. reflexivity.
Defined.

Lemma daysOwned_are_never_cleared_run :
  exists d' ds',
    lookup (lit "daysOwned")
      (userData (snd (Days.tzevaotChat E0 postNoDays seasoned)) (requestId postNoDays))
    = Arr (d' :: ds').
Proof.
  apply (daysOwned_are_never_cleared E0 postNoDays seasoned
           (fst (Days.tzevaotChat E0 postNoDays seasoned))
           (snd (Days.tzevaotChat E0 postNoDays seasoned))
           (Str (lit "100")) [Str (lit "500"); Str (lit "2000")]).
  - reflexivity.
  - apply surjective_pairing.
  - vm_compute. reflexivity.
  - vm_compute. reflexivity.
Defined.

Lemma missing_key_is_an_error_run :
  let answer :=
    respond 500
      (errorBody (lit "OPENAI_API_KEY is not set in Secret Manager or environment.")) in
  Strict.daysTzevaotChat Enokey postHello seasoned = (answer, seasoned) /\
  Strict.plainTzevaotChat Enokey postHello seasoned = (answer, seasoned).
Proof.
  apply (missing_key_is_an_error Enokey postHello seasoned); try reflexivity.
  repeat split; reflexivity.
Defined.

Lemma value_without_text_fails_the_request_run :
  let answer := respond 500 (errorBody (lit "Cannot convert object to primitive value")) in
  (printable (bodyField postUnprintable "walletAddress") = false ->
   Strict.daysTzevaotChat Enokey postUnprintable seasoned = (answer, seasoned) /\
   Strict.plainTzevaotChat Enokey postUnprintable seasoned = (answer, seasoned)) /\
  (printable (bodyField postUnprintable "walletAddress") = true ->
   getError Enokey (requestId postUnprintable) = None ->
   forall d ds,
     bodyField postUnprintable "daysOwned" = Arr (d :: ds) ->
     printable (Arr (d :: ds)) = false ->
     Strict.daysTzevaotChat Enokey postUnprintable seasoned = (answer, seasoned)).
Proof.
  apply (value_without_text_fails_the_request Enokey postUnprintable seasoned);
    reflexivity.
Defined.

(** The request of the statement above, run: the owned days hold
    [{ toString: 1 }]. *)
Example postUnprintable_answer :
  Strict.daysTzevaotChat Enokey postUnprintable seasoned
    = (respond 500 (errorBody (lit "Cannot convert object to primitive value")), seasoned)
  /\ printable (bodyField postUnprintable "daysOwned") = false.
Proof. split; vm_compute; reflexivity. Qed.


Lemma provider_failure_is_reported_run :
  let r := fst (Days.tzevaotChat Ethrows postHello seasoned) in
  let w' := snd (Days.tzevaotChat Ethrows postHello seasoned) in
  r = internalError (Error_ "429 Rate limit reached") /\
  status r = 500 /\
  tzevaotUsers w' = tzevaotUsers seasoned.
Proof.
  apply (provider_failure_is_reported Ethrows postHello seasoned
           (fst (Days.tzevaotChat Ethrows postHello seasoned))
           (snd (Days.tzevaotChat Ethrows postHello seasoned))
           (default [] (last (completions
                                (snd (Days.tzevaotChat Ethrows postHello seasoned)))))).
  - reflexivity.
  - left. apply surjective_pairing.
  - vm_compute. reflexivity.
  - left. reflexivity.
Defined.

Lemma write_failure_loses_the_reply_run :
  let r := fst (Days.tzevaotChat Ereadonly postHello seasoned) in
  let w' := snd (Days.tzevaotChat Ereadonly postHello seasoned) in
  r = internalError (Error_ "14 UNAVAILABLE: No connection established") /\
  ~ replyReturned r /\
  tzevaotUsers w' = tzevaotUsers seasoned.
Proof.
  apply (write_failure_loses_the_reply Ereadonly postHello seasoned
           (fst (Days.tzevaotChat Ereadonly postHello seasoned))
           (snd (Days.tzevaotChat Ereadonly postHello seasoned))
           (default [] (last (completions
                                (snd (Days.tzevaotChat Ereadonly postHello seasoned)))))
           (Str (lit "  Welcome, seeker. ")) (lit "Welcome, seeker.")).
  - reflexivity.
  - left. apply surjective_pairing.
  - vm_compute. reflexivity.
  - reflexivity.
  - vm_compute. reflexivity.
  - reflexivity.
Defined.


Lemma served_store_stays_well_kept_run : wellKept (serve aDay fresh).
Proof. apply (served_store_stays_well_kept aDay fresh). exact fresh_wellKept. Defined.

Lemma well_kept_context_takes_turns_run :
  let w' := snd (Strict.daysTzevaotChat E0 postHello seasoned) in
  (truthy (bodyField postHello "walletAddress") = true ->
   truthy (bodyField postHello "message") = true ->
   getError E0 (requestId postHello) = None ->
   truthy (apiKey E0) = true ->
   exists msgs, completions w' = completions seasoned ++ [msgs]) /\
  (forall msgs, completions w' = completions seasoned ++ [msgs] ->
     exists sys turns,
       msgs = [{| role := lit "system"; content := Str sys |}]
                ++ turns
                ++ [{| role := lit "user"; content := bodyField postHello "message" |}] /\
       alternating turns).
Proof.
  apply (well_kept_context_takes_turns E0 postHello seasoned
           (fst (Strict.daysTzevaotChat E0 postHello seasoned))).
  - exact seasoned_wellKept.
  - reflexivity.
  - repeat split; reflexivity.
  - left. apply surjective_pairing.
Defined.


(** Written as [0xABC], read back as [0xaBc]. *)
Lemma posted_exchange_is_read_back_run :
  let r := fst (Days.tzevaotChat E0 postHello fresh) in
  let w' := snd (Days.tzevaotChat E0 postHello fresh) in
  exists h,
    member (json r) (lit "history") = Some (Arr h) /\
    let seen := Num (countOf (lookup (lit "seenCount")
                                (userData fresh (requestId postHello))) + 1) in
    let holder := Bool (truthy (bodyField postHello "isHolder")) in
    Days.tzevaotChat Elater getMixed w'
      = (respond 200
           (Obj [(lit "history", Arr h);
                 (lit "isHolder", holder);
                 (lit "seenCount", seen);
                 (lit "daysOwned",
                  Arr (arrayOrEmpty
                         (lookup (lit "daysOwned") (userData w' (requestId postHello)))))]),
         w') /\
    Plain.tzevaotChat Elater getMixed w'
      = (respond 200
           (Obj [(lit "history", Arr h);
                 (lit "isHolder", holder);
                 (lit "seenCount", seen)]), w').
Proof.
  apply (posted_exchange_is_read_back E0 postHello fresh
           (fst (Days.tzevaotChat E0 postHello fresh))
           (snd (Days.tzevaotChat E0 postHello fresh)) Elater getMixed).
  - reflexivity.
  - left. apply surjective_pairing.
  - vm_compute. reflexivity.
  - reflexivity.
  - reflexivity.
  - vm_compute. reflexivity.
  - reflexivity.
Defined.

Lemma tzevaotChat_answers_run :
  answer (fst (Days.tzevaotChat E0 deleteAll seasoned)).
Proof.
  apply (tzevaotChat_answers E0 deleteAll seasoned _ (snd (Days.tzevaotChat E0 deleteAll seasoned))).
  left. apply surjective_pairing.
Defined.

Lemma apiv2_requires_a_text_prompt_run :
  Apiv2.apiv2 E0 promptNumber fresh
    = (respond 400 (errorBody Apiv2.missingPrompt), fresh).
Proof.
  apply (apiv2_requires_a_text_prompt E0 promptNumber fresh); [reflexivity|].
  intros c s H. vm_compute in H. discriminate.
Defined.

Lemma apiv2_hands_the_content_on_run :
  let msgs := Apiv2.messages (Str (lit "Hi")) in
  snd (Apiv2.apiv2 E0 promptHi fresh)
    = {| tzevaotUsers := tzevaotUsers fresh; completions := completions fresh ++ [msgs] |} /\
  (forall content, create E0 msgs = Ok content ->
     exists text,
       fst (Apiv2.apiv2 E0 promptHi fresh) = respond 200 (Obj [(lit "text", text)]) /\
       text <> Undefined /\ text <> Null /\
       (content <> Undefined -> content <> Null -> text = content) /\
       (content = Undefined \/ content = Null -> text = Str [])) /\
  (forall e, create E0 msgs = Throw e ->
     fst (Apiv2.apiv2 E0 promptHi fresh) = Apiv2.unknownError e).
Proof.
  apply (apiv2_hands_the_content_on E0 promptHi fresh 72%N (lit "i")); reflexivity.
Defined.

Lemma api_passes_messages_through_run :
  snd (Legacy.api E0 echo completion []) = [] \/
  (Legacy.method completion = POST /\
   Legacy.path completion = lit "/completion" /\
   exists messages,
     Legacy.body completion = Arr messages /\
     snd (Legacy.api E0 echo completion []) = [] ++ [messages] /\
     fst (Legacy.api E0 echo completion [])
       = match Legacy.createCompletion echo messages with
         | Ok completion => respond 200 (Obj completion)
         | Throw e => Legacy.internalServerError echo e
         end).
Proof.
  apply (api_passes_messages_through E0 echo completion []).
  apply surjective_pairing.
Defined.

Lemma api_unknown_path_is_not_found_run :
  Legacy.api E0 echo nowhere []
    = (respond 404 (errorBody (Legacy.unknownPath (lit "/"))), []).
Proof.
  apply (api_unknown_path_is_not_found E0 echo nowhere []); [reflexivity|].
  intros H. vm_compute in H. discriminate.
Defined.

Lemma api_other_requests_are_not_allowed_run :
  Legacy.api E0 echo getCompletion []
    = (respond 405 (errorBody (lit "Method not allowed. Use POST.")), []).
Proof.
  apply (api_other_requests_are_not_allowed E0 echo getCompletion []);
    try discriminate.
  intros _. split; intros H; vm_compute in H; discriminate.
Defined.

Lemma two_exchanges_compose_run :
  let w1 := snd (Days.tzevaotChat E0 postHello seasoned) in
  let r1 := fst (Days.tzevaotChat E0 postHello seasoned) in
  let w2 := snd (Plain.tzevaotChat Elater postAgain w1) in
  let r2 := fst (Plain.tzevaotChat Elater postAgain w1) in
  exists rep1 rep2,
    member (json r1) (lit "reply") = Some (Str rep1) /\
    member (json r2) (lit "reply") = Some (Str rep2) /\
    let all :=
      tenExchanges
        ++ [entryOf "user" (bodyField postHello "message") (now E0);
            entryOf "tzevaot" (Str rep1) (now E0);
            entryOf "user" (bodyField postAgain "message") (now Elater);
            entryOf "tzevaot" (Str rep2) (now Elater)] in
    lookup (lit "history") (userData w2 (requestId postHello))
      = Arr (skipn (length all - 20) all).
Proof.
  apply (two_exchanges_compose E0 postHello Elater postAgain seasoned
           (fst (Days.tzevaotChat E0 postHello seasoned))
           (snd (Days.tzevaotChat E0 postHello seasoned))
           (fst (Plain.tzevaotChat Elater postAgain
                   (snd (Days.tzevaotChat E0 postHello seasoned))))
           (snd (Plain.tzevaotChat Elater postAgain
                   (snd (Days.tzevaotChat E0 postHello seasoned))))
           tenExchanges).
  - reflexivity.
  - left. apply surjective_pairing.
  - vm_compute. reflexivity.
  - reflexivity.
  - right. apply surjective_pairing.
  - vm_compute. reflexivity.
  - reflexivity.
  - left. vm_compute. reflexivity.
Defined.

Lemma daysOwned_of_another_type_is_ignored_run :
  lookup (lit "daysOwned")
    (userData (snd (Days.tzevaotChat E0 postOneDay seasoned)) (requestId postOneDay))
  = Arr (map (fun d => Str (String_ d))
           (arrayOrEmpty
              (lookup (lit "daysOwned") (userData seasoned (requestId postOneDay))))).
Proof.
  apply (daysOwned_of_another_type_is_ignored E0 postOneDay seasoned
           (fst (Days.tzevaotChat E0 postOneDay seasoned))).
  - reflexivity.
  - apply surjective_pairing.
  - vm_compute. reflexivity.
  - intros ds H. vm_compute in H. discriminate.
Defined.

(** Where the day's requests leave the store: three exchanges counted and
    six entries kept under [0xabc], the owned days of the first still
    there. *)
Example aDay_served :
  fields <$> (tzevaotUsers (serve aDay fresh) !! lit "0xabc")
  = Some [(lit "isHolder", Bool false);
          (lit "lastMessage", Str (lit "Hello"));
          (lit "lastReply", Str (lit "Ask, and the Days answer."));
          (lit "seenCount", Num 3);
          (lit "history",
           Arr [userEntry (Str (lit "Hello")) (now E0);
                tzevaotEntry (lit "Welcome, seeker.") (now E0);
                userEntry (Str (lit "Again")) (now Elater);
                tzevaotEntry (lit "Ask, and the Days answer.") (now Elater);
                userEntry (Str (lit "Hello")) (now Elater);
                tzevaotEntry (lit "Ask, and the Days answer.") (now Elater)]);
          (lit "daysOwned",
           Arr [Str (lit "100"); Str (lit "500"); Str (lit "2000")])].
Proof. vm_compute. reflexivity. Qed.

Lemma first_variant_keeps_no_history_run :
  let r := fst (Early.tzevaotChat E0 postHello seasoned) in
  let w' := snd (Early.tzevaotChat E0 postHello seasoned) in
  exists sys rep,
    completions w' = completions seasoned
                       ++ [Early.messages sys (bodyField postHello "message")] /\
    r = respond 200 (Obj [(lit "reply", Str rep)]) /\
    rep <> [] /\
    lookup (lit "lastReply") (userData w' (requestId postHello)) = Str rep /\
    lookup (lit "seenCount") (userData w' (requestId postHello))
      = Num (countOf (lookup (lit "seenCount")
                        (userData seasoned (requestId postHello))) + 1) /\
    lookup (lit "history") (userData w' (requestId postHello))
      = lookup (lit "history") (userData seasoned (requestId postHello)) /\
    lookup (lit "daysOwned") (userData w' (requestId postHello))
      = lookup (lit "daysOwned") (userData seasoned (requestId postHello)).
Proof.
  apply (first_variant_keeps_no_history E0 postHello seasoned).
  - reflexivity.
  - apply surjective_pairing.
  - vm_compute. reflexivity.
Defined.

(** ** Requests that overlap *)

Import Overlap.

Lemma whole_store v E req w :
  method req <> POST -> tzevaotUsers (snd (whole v E req w)) = tzevaotUsers w.
Proof.
  intros Hm. destruct v; cbn [whole].
  - unfold Early.tzevaotChat. by destruct (method req).
  - destruct (tzevaotChat_store E req w _ _
                (or_introl (surjective_pairing (Days.tzevaotChat E req w))))
      as [H|[H _]]; [exact H|contradiction].
  - destruct (tzevaotChat_store E req w (fst (Plain.tzevaotChat E req w)) _
                (or_intror (surjective_pairing (Plain.tzevaotChat E req w))))
      as [H|[H _]]; [exact H|contradiction].
Qed.

Lemma arrive_store v E req w x w' :
  arrive v E req w = (x, w') ->
  tzevaotUsers w' = tzevaotUsers w /\
  forall p, x = inr p ->
    requestOf p = req /\ snapshot p = tzevaotUsers w !! requestId req.
Proof.
  unfold arrive.
  assert (method req <> POST ->
          (let (r, w1) := whole v E req w in (inl r : response + pending, w1)) = (x, w') ->
          tzevaotUsers w' = tzevaotUsers w /\
          forall p, x = inr p ->
            requestOf p = req /\ snapshot p = tzevaotUsers w !! requestId req) as Hother.
  { intros Hm. pose proof (whole_store v E req w Hm) as Hs.
    destruct (whole v E req w) as [r w1]. intros [= <- <-]. by split. }
  destruct (method req) eqn:Hm; try (by apply Hother).
  unfold tryCatch, load, bind, lift, ret. rewrite !read_body.
  destruct (negb _ || _); [intros [= <- <-]; by split|].
  unfold userRef_get. fold (requestId req).
  destruct (getError E (requestId req)); intros [= <- <-]; [by split|].
  split; [reflexivity|]. by intros p [= <-].
Qed.

(** What a waiting request does to the store when it goes on. *)
Lemma resume_store p w x w' :
  resume p w = (x, w') ->
  let id := requestId (requestOf p) in
  (tzevaotUsers w' = tzevaotUsers w /\
   forall p', x = inr p' -> requestOf p' = requestOf p /\ snapshot p' = snapshot p) \/
  ((forall p', x <> inr p') /\
   exists doc,
     tzevaotUsers w' = <[id := doc]> (tzevaotUsers w) /\
     lookup (lit "seenCount") (fields doc)
       = incremented (lookup (lit "seenCount") (userData w id)) 1 /\
     (lookup (lit "history") (fields doc) = lookup (lit "history") (userData w id) \/
      exists message rep t,
        lookup (lit "history") (fields doc)
          = Arr (trimmedHistory
                   (newHistory
                      (existingHistory (fields (default emptyDocument (snapshot p))))
                      message rep t)))).
Proof.
  destruct p as [v E req [userDoc|userDoc content]]; unfold resume, snapshot;
    cbn [stageOf variantOf envOf requestOf]; intros H.
  - left. revert H. unfold tryCatch, ask, bind, lift, ret, throw, completions_create.
    destruct v;
      (destruct (negb (truthy (apiKey E))); [intros [= <- <-]; by split|]);
      try (destruct (messagesForOpenAI _ _ _); [|intros [= <- <-]; by split]);
      (destruct (create E _); intros [= <- <-]; split; try reflexivity;
       try discriminate; by intros p' [= <-]).
  - revert H. unfold tryCatch, write, bind, lift, ret.
    destruct (reply content) as [rep|]; [|intros [= <- <-]; left; by split].
    fold (requestId req). set (id := requestId req). unfold userRef_set.
    destruct v; (destruct (setError E _ _); intros [= <- <-]; [left; by split|]);
      right; (split; [discriminate|]); cbn [tzevaotUsers]; eexists;
      (split; [reflexivity|]).
    + destruct (Early_setData_fields (serverTime E) (tzevaotUsers w !! id)
                  (bodyField req "isHolder") (bodyField req "message") rep)
        as (_ & Hc & Hh & _).
      rewrite userData_default in Hc, Hh. split; [exact Hc|]. left. exact Hh.
    + match goal with |- context [mergeSet ?t ?old (Days.setData ?a ?b ?c ?d ?e)] =>
        destruct (Days_setData_fields t old a b c d e) as (Hh & _ & _ & Hc & _) end.
      rewrite userData_default in Hc. split; [exact Hc|]. right.
      destruct userDoc; eauto.
    + match goal with |- context [mergeSet ?t ?old (Plain.setData ?a ?b ?c ?d)] =>
        destruct (Plain_setData_fields t old a b c d) as (Hh & _ & _ & Hc & _) end.
      rewrite userData_default in Hc. split; [exact Hc|]. right.
      destruct userDoc; eauto.
Qed.

Lemma tallied_store w w' :
  tzevaotUsers w' = tzevaotUsers w -> tallied w -> tallied w'.
Proof. unfold tallied. by intros ->. Qed.

Lemma within_store w w' p :
  tzevaotUsers w' = tzevaotUsers w -> within w p -> within w' p.
Proof. unfold within, userData. by intros ->. Qed.

Lemma tallied_count w id :
  tallied w ->
  exists c : nat,
    countOf (lookup (lit "seenCount") (userData w id)) = Z.of_nat c /\
    incremented (lookup (lit "seenCount") (userData w id)) 1 = Num (Z.of_nat (S c)) /\
    forall h, lookup (lit "history") (userData w id) = Arr h ->
              (length h <= Nat.min 20 (2 * c))%nat.
Proof.
  intros Hw. unfold userData. destruct (tzevaotUsers w !! id) as [doc|] eqn:Hd.
  - destruct (Hw id doc Hd) as (c & Hc & _ & Hh). exists c. rewrite Hc.
    cbn [countOf incremented]. split; [reflexivity|]. split; [f_equal; lia|exact Hh].
  - exists 0%nat. split; [reflexivity|]. split; [reflexivity|]. discriminate.
Qed.

Lemma Forall_within_snoc w ps p :
  Forall (within w) ps -> within w p -> Forall (within w) (ps ++ [p]).
Proof. intros. apply Forall_app. split; [done|]. by constructor. Qed.

(** What every event keeps: the store tallied, and every waiting request
    within the count of its document. *)
Lemma happen_keeps st ev :
  tallied (fst st) /\ Forall (within (fst st)) (snd st) ->
  tallied (fst (happen st ev)) /\
  Forall (within (fst (happen st ev))) (snd (happen st ev)).
Proof.
  destruct st as [w ps]. cbn [fst snd]. intros [Hw Hps].
  destruct ev as [v E req|n]; cbn [happen].
  - destruct (arrive v E req w) as [x w'] eqn:Ha.
    destruct (arrive_store _ _ _ _ _ _ Ha) as [Hs Hp].
    assert (Forall (within w') ps) as Hps'.
    { eapply Forall_impl; [exact Hps|]. intros q. by apply within_store. }
    destruct x as [r|p]; cbn [fst snd]; (split; [by eapply tallied_store|]); [exact Hps'|].
    apply Forall_within_snoc; [exact Hps'|].
    destruct (Hp p eq_refl) as [Hreq Hsnap].
    apply (within_store w); [exact Hs|].
    intros h Hh. rewrite Hsnap, userData_default in Hh.
    destruct (tallied_count w (requestId req) Hw) as (c & Hc & _ & Hlen).
    rewrite Hreq, Hc. specialize (Hlen h Hh). lia.
  - destruct (ps !! n) as [p|] eqn:Hn; [|by split].
    pose proof (Forall_lookup_1 _ _ _ _ Hps Hn) as Hp.
    destruct (resume p w) as [x w'] eqn:Hr.
    destruct (resume_store _ _ _ _ Hr) as [[Hs Hx]|[Hx (doc & Hs & Hc & Hh)]].
    + assert (Forall (within w') ps) as Hps'.
      { eapply Forall_impl; [exact Hps|]. intros q. by apply within_store. }
      destruct x as [r|p']; cbn [fst snd]; (split; [by eapply tallied_store|]).
      * by apply Forall_delete.
      * apply Forall_insert; [exact Hps'|].
        destruct (Hx p' eq_refl) as [Hreq Hsnap].
        apply (within_store w); [exact Hs|].
        unfold within. rewrite Hreq, Hsnap. exact Hp.
    + destruct x as [r|p']; [|by destruct (Hx p')]. cbn [fst snd].
      set (id := requestId (requestOf p)) in *.
      destruct (tallied_count w id Hw) as (c & Hcount & Hinc & Hlen).
      rewrite Hinc in Hc.
      assert (forall h, lookup (lit "history") (fields doc) = Arr h ->
                        (length h <= Nat.min 20 (2 * S c))%nat) as Hdoc.
      { intros h Hhd. destruct Hh as [Hh|(message & rep & t & Hh)].
        - rewrite Hh in Hhd. specialize (Hlen h Hhd). lia.
        - rewrite Hh in Hhd. injection Hhd as <-.
          unfold trimmedHistory, newHistory. rewrite sliceLast_length, length_app.
          cbn [length]. unfold existingHistory.
          destruct (lookup (lit "history") (fields (default emptyDocument (snapshot p))))
            as [| | | | |h0|] eqn:Hsnap; cbn [arrayOrEmpty length]; try lia.
          specialize (Hp h0 Hsnap). fold id in Hp. rewrite Hcount in Hp. lia. }
      split.
      * intros id' doc'. rewrite Hs. destruct (decide (id' = id)) as [->|Hne].
        -- rewrite lookup_insert_eq. intros [= <-]. exists (S c).
           split; [exact Hc|]. split; [lia|exact Hdoc].
        -- rewrite lookup_insert_ne by done. apply Hw.
      * apply Forall_delete. eapply Forall_impl; [exact Hps|].
        intros q Hq h Hhq. specialize (Hq h Hhq).
        destruct (decide (requestId (requestOf q) = id)) as [Heq|Hne].
        -- rewrite Heq in *. unfold userData at 1.
           rewrite Hs, lookup_insert_eq, Hc. cbn [countOf].
           rewrite Hcount in Hq. lia.
        -- unfold userData in *.
           rewrite Hs, lookup_insert_ne by apply not_eq_sym, Hne. exact Hq.
Qed.


Lemma happen_resumes_nil w n : happen (w, []) (resumes n) = (w, []).
Proof. reflexivity. Qed.


(** Requests may overlap as they will, in any of the three variants and
    in any surroundings: of every document the counter stays a number,
    one at least, and the history, where there is one, holds twenty
    entries at most and no more than two for each count. (The counter is
    incremented where it stands, the history is written from what was
    loaded: of two requests that overlap the later write keeps one
    exchange and counts two.) *)
Theorem overlapping_requests_keep_history_within_count events w :
  tallied w -> tallied (fst (overlap events w)).
Proof.
  intros Hw. unfold overlap.
  assert (tallied (fst (w, @nil pending)) /\ Forall (within (fst (w, @nil pending))) (snd (w, @nil pending)))
    as Hinv by (split; [exact Hw|constructor]).
  revert Hinv. generalize (w, @nil pending) as st.
  induction events as [|ev events IH]; intros st Hinv; [exact (proj1 Hinv)|].
  cbn [fold_left]. apply IH, happen_keeps, Hinv.
Qed.


Lemma fresh_tallied : tallied fresh.
Proof. intros id doc H. cbn in H. by rewrite lookup_empty in H. Qed.

Lemma overlapping_requests_keep_history_within_count_run :
  tallied (fst (overlap twoAtOnce fresh)).
Proof.
  apply (overlapping_requests_keep_history_within_count twoAtOnce fresh).
  exact fresh_tallied.
Defined.

(** Where two requests at once leave a fresh store: counted twice, the
    exchange of the later write kept, both asked of the provider. *)
Example twoAtOnce_served :
  fields <$> (tzevaotUsers (fst (overlap twoAtOnce fresh)) !! lit "0xabc")
  = Some [(lit "isHolder", Bool false);
          (lit "lastMessage", Str (lit "Again"));
          (lit "lastReply", Str (lit "Ask, and the Days answer."));
          (lit "seenCount", Num 2);
          (lit "history",
           Arr [entryOf "user" (Str (lit "Again")) (now Elater);
                entryOf "tzevaot" (Str (lit "Ask, and the Days answer.")) (now Elater)]);
          (lit "daysOwned", Arr [])]
  /\ snd (overlap twoAtOnce fresh) = []
  /\ length (completions (fst (overlap twoAtOnce fresh))) = 2%nat.
Proof. vm_compute. repeat split; reflexivity. Qed.
